(** * The connection and packet-ordering core of the web SDK

    A shallow embedding of
    - [WebSocketConnection], the transport (connection/web-socket.connection.ts),
    - [ConnectionService], the orchestrator (services/connection.service.ts),
    - [SessionStateService], the save loop (next to the orchestrator),
    and of the constants they use (common/constants.ts).

    How the TypeScript is read.

    - Mutable objects become one explicit [World] that every method takes
      and returns.
    - An [async] method runs synchronously up to its first [await]; what
      follows the [await] is a job on the microtask queue.  A job is a value
      of [Task]; [run] interprets one job and [drain] empties the queue in
      FIFO order, as the host does at the end of a macrotask.  Awaiting a
      value that is no promise, or a promise that is already settled,
      costs one turn of the queue; awaiting a pending promise costs one
      turn after it settles.  A promise made by a collaborator stays
      pending for a number of turns that the collaborator chooses
      ([Delay]).
    - A [throw] inside [try ... catch] is the call in the [catch] clause;
      an exception nobody catches is the event [Uncaught].
    - The closures the service hands to the transport (the hooks of a
      [QueueItem], the packet producers) are finite in number, so they are
      written as constructors and interpreted where the source calls them.
    - Collaborators that are not part of these sources (audio player,
      history, event factory, token generator, scene loader, ...) are fields
      of [Collaborators]; what they answer may depend on how many
      collaborator calls were made before ([calls]).  Every call to them,
      every callback to the host application and every frame put on a
      socket is appended to [log].
    - Strings are sequences of bytes. *)

From Stdlib Require Import ZArith List Bool String Ascii Lia.
From stdpp Require Import gmap strings list.
Import ListNotations.

Open Scope string_scope.
Open Scope list_scope.

(** ** Constants (common/constants.ts) *)

Definition DEFAULT_SESSION_STATE_MAX_ATTEMPTS : nat := 3.
Definition DEFAULT_SESSION_STATE_KEY : string := "inworldSessionState".
Definition DEFAULT_SESSION_STATE_INTERVAL : nat := 60 * 1000.
Definition DEFAULT_SESSION_STATE_ATTEMPTS_INTERVAL : nat := 5 * 100.

(** ** Packets *)

(** The discriminants and the parts of a packet, with the members and
    fields that the tests of the packet entity use
    (__tests__/entities/inworld_packet.entity.spec.ts). *)
Inductive InworldPacketType :=
| AUDIO | TEXT | TRIGGER | EMOTION | SILENCE | CANCEL_RESPONSE | CONTROL
| UNKNOWN.

Inductive InworlControlType :=
| INTERACTION_END | UNKNOWN_CONTROL.

Record PacketId := {
  packetId : string;
  interactionId : string;
  utteranceId : string;
  correlationId : option string
}.

Record Actor := {
  name : string;
  isPlayer : bool;
  isCharacter : bool
}.

Record Routing := {
  source : Actor;
  targets : list Actor
}.

(** Modelled from the spec: the packet entity (entities/inworld_packet.entity.ts
    is not part of the sources at hand, only its tests).  A packet is a
    record with a [type] discriminant; there is one predicate per variant
    and each agrees with [type]; [isInteractionEnd] holds when the packet
    is a control packet whose control sub-type is INTERACTION_END.  The
    payloads other than [control] play no part in the connection logic. *)
Record InworldPacket := {
  inworld_packetId : PacketId;
  inworld_routing : Routing;
  inworld_date : string;
  inworld_type : InworldPacketType;
  inworld_control : option InworlControlType
}.

Definition isAudio (p : InworldPacket) : bool :=
  match inworld_type p with AUDIO => true | _ => false end.
Definition isText (p : InworldPacket) : bool :=
  match inworld_type p with TEXT => true | _ => false end.
Definition isTrigger (p : InworldPacket) : bool :=
  match inworld_type p with TRIGGER => true | _ => false end.
Definition isEmotion (p : InworldPacket) : bool :=
  match inworld_type p with EMOTION => true | _ => false end.
Definition isSilence (p : InworldPacket) : bool :=
  match inworld_type p with SILENCE => true | _ => false end.
Definition isCancelResponse (p : InworldPacket) : bool :=
  match inworld_type p with CANCEL_RESPONSE => true | _ => false end.
Definition isControl (p : InworldPacket) : bool :=
  match inworld_type p with CONTROL => true | _ => false end.
Definition isInteractionEnd (p : InworldPacket) : bool :=
  isControl p &&
  match inworld_control p with Some INTERACTION_END => true | _ => false end.

(** The wire form of a packet.  The orchestrator reads [packetId] and
    [routing] of a wire packet directly (onMessage); the rest of the frame
    is opaque to it and only [convertPacketFromProto] looks inside. *)
Record ProtoPacket := {
  proto_packetId : PacketId;
  proto_routing : Routing;
  proto_body : string
}.

(** Modelled from the spec: the character entity, which is not among the
    sources; the service only writes its [id]. *)
Record Character := { id : string }.

(** Modelled from the spec: [CancelResponsesProps] of
    common/data_structures.ts (not among the sources), the payload of a
    cancel response: an interaction id and utterance ids. *)
Record CancelResponsesProps := {
  cancel_interactionId : string;
  cancel_utteranceId : list string
}.

(** ** Session, scene, history, persisted state *)

(** Modelled from the spec: the session token entity
    (entities/session_token.entity.ts is not among the sources), an opaque
    credential with an expiry and a session id; [type], [token] and
    [sessionId] are the fields [createWebSocket] reads. *)
Record SessionToken := {
  token : string;
  type : string;
  expirationTime : string;
  sessionId : string
}.

(** Modelled from the spec: the answer of the scene loader (a generated
    declaration that is not among the sources), an agent roster and the
    packets of a previous state. *)
Record LoadSceneResponse := {
  agents : list Character;
  previousState : list ProtoPacket
}.

(** Modelled from the spec: the kinds of history entries
    (components/history is not among the sources); the services name
    ACTOR, NARRATED_ACTION and INTERACTION_END. *)
Inductive CHAT_HISTORY_TYPE :=
| ACTOR | NARRATED_ACTION | INTERACTION_END_ITEM | OTHER_ITEM.

(** Modelled from the spec: a history entry (components/history is not
    among the sources), with the two fields the save loop reads.
    [history_date] is [date.getTime()] of the entry, when it has a date. *)
Record HistoryItem := {
  history_id : string;
  history_date : option Z;
  history_type : CHAT_HISTORY_TYPE
}.

(** Modelled from the spec: the persisted snapshot [{creationTime, state}]
    (a generated declaration that is not among the sources).
    [creationTime] is [new Date(creationTime).getTime()]; [None] stands for
    a missing or empty [creationTime] and for one that does not parse (the
    comparison with NaN is false, exactly as when it is missing). *)
Record SessionState := {
  creationTime : option Z;
  sessionState_state : option string
}.

(** What [localStorage] holds under DEFAULT_SESSION_STATE_KEY: a snapshot
    or a string that is no JSON ([JSON.stringify(undefined)]). *)
Inductive Stored :=
| StoredState (s : SessionState)
| StoredUndefined.

Inductive Result (A : Type) :=
| Ok (a : A)
| Err (message : string).
Arguments Ok {A} a.
Arguments Err {A} message.

(** ** Enumerations of common/data_structures.ts *)

(** Modelled from the spec: the connection states.  The file that
    declares them is not among the sources; the services name all six. *)
Inductive ConnectionState :=
| ACTIVE | ACTIVATING | INACTIVE | LOADED | LOADING | RECONNECTING.

(** Modelled from the spec: the state of the audio session, declared in
    the same missing file; the service names UNKNOWN only. *)
Inductive AudioSessionState :=
| AUDIO_UNKNOWN | AUDIO_START | AUDIO_END.

(** Modelled from the spec: the playback action, declared in the same
    missing file; the service names UNKNOWN and MUTE. *)
Inductive TtsPlaybackAction :=
| TTS_UNKNOWN | TTS_MUTE | TTS_UNMUTE.

Definition ConnectionState_eqb (a b : ConnectionState) : bool :=
  match a, b with
  | ACTIVE, ACTIVE | ACTIVATING, ACTIVATING | INACTIVE, INACTIVE
  | LOADED, LOADED | LOADING, LOADING | RECONNECTING, RECONNECTING => true
  | _, _ => false
  end.

(** Modelled from the spec: [InternalClientConfiguration], declared in
    the same missing file; these are the fields the services read.
    [autoReconnect = None] is an unset option ([?? true]);
    [disconnectTimeout = 0] is an unset or zero timeout (falsy). *)
Record InternalClientConfiguration := {
  autoReconnect : option bool;
  disconnectTimeout : nat;
  interruptions : bool;
  history_previousState : bool
}.

(** ** Closures handed to the transport

    A producer is a [() => ProtoPacket]: the caller's own producer, or one
    of the two the orchestrator builds from the event factory. *)
Inductive Producer :=
| UserProducer (p : ProtoPacket)
| CancelResponseProducer (props : CancelResponsesProps) (characters : list Character)
| TtsPlaybackMuteProducer.

(** [BeforeWrite getPacket] and [AfterWrite] are the two hooks built in
    [ConnectionService.write]; [AfterReplay getPacket] is the hook built in
    [getPacketsToSentOnOpen]. *)
Inductive BeforeWriting :=
| BeforeWrite (getPacket : Producer).

Inductive AfterWriting :=
| AfterWrite
| AfterReplay (getPacket : Producer).

Record QueueItem := {
  getPacket : Producer;
  afterWriting : option AfterWriting;
  beforeWriting : option BeforeWriting
}.

(** ** Sockets

    A listener is a function object.  [createWebSocket] registers
    [this.onReady.bind(this)] and its two siblings, which are fresh objects,
    and [this.connectionProps.onDisconnect] itself; [close] passes the
    unbound methods [this.onError], [this.onReady], [this.onMessage] and
    again [this.connectionProps.onDisconnect] to [removeEventListener],
    which removes a listener only when handed the very same object. *)
Inductive ReadyState := CONNECTING | OPEN | CLOSING | CLOSED.

Inductive EventName := ev_open | ev_message | ev_error | ev_close.

Inductive Listener :=
| BoundOnReady | BoundOnMessage | BoundOnError
| MethodOnReady | MethodOnMessage | MethodOnError
| PropsOnDisconnect.

Definition EventName_eqb (a b : EventName) : bool :=
  match a, b with
  | ev_open, ev_open | ev_message, ev_message
  | ev_error, ev_error | ev_close, ev_close => true
  | _, _ => false
  end.

Definition Listener_eqb (a b : Listener) : bool :=
  match a, b with
  | BoundOnReady, BoundOnReady | BoundOnMessage, BoundOnMessage
  | BoundOnError, BoundOnError | MethodOnReady, MethodOnReady
  | MethodOnMessage, MethodOnMessage | MethodOnError, MethodOnError
  | PropsOnDisconnect, PropsOnDisconnect => true
  | _, _ => false
  end.

Record WebSocket := {
  readyState : ReadyState;
  listeners : list (EventName * Listener)
}.

(** An inbound frame after [safeJSONParse]: [{result}], [{error}]. *)
Inductive Frame :=
| FrameResult (p : ProtoPacket)
| FrameError (message : string).

(** ** Jobs of the microtask queue: the code after each [await] *)

Inductive Task :=
(* nobody awaits the promise *)
| Done
(* a collaborator's promise that settles [n] turns from now *)
| Delay (n : nat) (t : Task)
(* WebSocketConnection.write after [await item.beforeWriting?.(..)] *)
| WriteResume (item : QueueItem) (packet : ProtoPacket) (inworldPacket : InworldPacket)
(* beforeWriting after [await this.interruptByPacket(packet)] *)
| BeforeWritingResume (getPacket : Producer) (packet : InworldPacket) (next : Task)
(* interruptByPacket after [await grpcAudioPlayer.stopForInteraction(..)] *)
| InterruptResume (packets : list InworldPacket) (next : Task)
(* onMessage after [await this.interruptByPacket(inworldPacket)] *)
| OnMessageResume (inworldPacket : InworldPacket)
(* open after [await this.loadScene()] and after [await this.connection.open(..)] *)
| OpenAfterLoadScene (packets : list QueueItem)
| OpenAfterConnectionOpen
(* loadScene after [await this.ensureSessionToken(..)], its catch clause,
   and after [await this.engineService.loadScene(..)] *)
| LoadSceneAfterToken (next : Task)
| LoadSceneCatch (message : string) (next : Task)
| LoadSceneAfterEngine (r : Result LoadSceneResponse) (next : Task)
(* ensureSessionToken after [await this.connectionProps.generateSessionToken()] *)
| EnsureTokenResume (previous : string) (r : Result SessionToken) (next : TokenAwaiter)
(* getSessionState after [await this.ensureSessionToken()] and its catch *)
| GetSessionStateAfterToken
| GetSessionStateCatch (message : string)
(* saveSessionState: the [then] / [catch] and [finally] reactions *)
| SaveSettled (r : Result (option SessionState))
(* onReady after [await webRtcLoopbackBiDiSession.startSession(..)] *)
| OnReadyResume
with TokenAwaiter :=
| AwaitedByLoadScene (next : Task)
| AwaitedByGetSessionState.

(** Timers of the host: the zero-delay timer of [onReady]. *)
Inductive Timer :=
| FlushTimer.

(** ** What can be observed from outside *)

Inductive Event :=
(* WebSocket *)
| SocketCreated (sock : nat) (session : SessionToken)
| SocketSend (sock : nat) (packet : ProtoPacket)
| SocketDropped (sock : nat) (packet : ProtoPacket)
| SocketClose (sock : nat)
| Uncaught (message : string)
(* callbacks of the host application *)
| CallbackReady
| CallbackDisconnect
| CallbackError (message : string)
| CallbackMessage (packet : InworldPacket)
| CallbackInterruption (props : CancelResponsesProps)
| CallbackHistoryChange (diff : list HistoryItem)
(* collaborators *)
| GenerateSessionToken
| EngineLoadScene (session : option SessionToken)
| StateGetSessionState (session : option SessionToken)
| StartSession
| PlayerSetStream
| PlayerGetCurrentPacket
| PlayerStopForInteraction (interaction : string)
| PlayerAddToQueue (packet : InworldPacket)
| HistoryAddOrUpdate (packet : InworldPacket)
| HistoryFilter (props : CancelResponsesProps)
| LocalStorageSet (v : Stored).

(** ** Collaborators *)

Record Collaborators := {
  (* extension.convertPacketFromProto *)
  convertPacketFromProto : ProtoPacket -> InworldPacket;
  (* SessionToken.isExpired, at the time of the [n]-th collaborator call *)
  isExpired : nat -> SessionToken -> bool;
  (* connectionProps.generateSessionToken *)
  generateSessionToken : nat -> Result SessionToken;
  (* engineService.loadScene *)
  engine_loadScene : nat -> Result LoadSceneResponse;
  (* stateService.getSessionState *)
  state_getSessionState : nat -> Result SessionState;
  (* grpcAudioPlayer *)
  getCurrentPacket : nat -> option InworldPacket;
  stopForInteraction : nat -> string -> list InworldPacket;
  (* InworldHistory: addOrUpdate gives the new entries and the changed ones *)
  history_addOrUpdate :
    InworldPacket -> list HistoryItem -> list HistoryItem * list HistoryItem;
  history_filter : CancelResponsesProps -> list HistoryItem -> list HistoryItem;
  (* EventFactory *)
  cancelResponse : CancelResponsesProps -> list Character -> ProtoPacket;
  ttsPlaybackMute : bool -> ProtoPacket;
  (* turns of the microtask queue a collaborator's promise stays pending *)
  generateSessionToken_turns : nat;
  engine_loadScene_turns : nat;
  state_getSessionState_turns : nat;
  stopForInteraction_turns : nat;
  startSession_turns : nat
}.

(** ** The state of the program *)

(** WebSocketConnection: [ws] is an index into the sockets the page has
    created ([None] is [null] or not yet assigned). *)
Record Transport := {
  ws : option nat;
  packetQueue : list QueueItem
}.

(** ConnectionService.  [packetsInProgress] is a JavaScript object used as
    a map; it is kept as a list of entries in insertion order, the order in
    which [Object.keys] enumerates keys that are not array indices.
    [disconnectArmed] says that the timer behind [disconnectTimeoutId] is
    pending. *)
Record Service := {
  state : ConnectionState;
  audioSessionAction : AudioSessionState;
  ttsPlaybackAction : TtsPlaybackAction;
  scene : option LoadSceneResponse;
  session : option SessionToken;
  disconnectArmed : bool;
  cancelResponses : gmap string bool;
  packetsInProgress : list (string * Producer);
  history : list HistoryItem
}.

(** SessionStateService.  [pollers] holds the [attempts] counter of every
    interval started by [tryToSaveState]. *)
Record Saver := {
  isBlurred : bool;
  isSaving : bool;
  pollers : list nat
}.

Record World := {
  config : InternalClientConfiguration;
  transport : Transport;
  service : Service;
  saver : Saver;
  sockets : list WebSocket;
  localStorage : option Stored;
  microtasks : list Task;
  timers : list Timer;
  calls : nat;
  log : list Event
}.

(** ** Updating the world *)

Definition with_transport (f : Transport -> Transport) (w : World) : World :=
  {| config := config w; transport := f (transport w); service := service w;
     saver := saver w; sockets := sockets w; localStorage := localStorage w;
     microtasks := microtasks w; timers := timers w; calls := calls w;
     log := log w |}.

Definition with_service (f : Service -> Service) (w : World) : World :=
  {| config := config w; transport := transport w; service := f (service w);
     saver := saver w; sockets := sockets w; localStorage := localStorage w;
     microtasks := microtasks w; timers := timers w; calls := calls w;
     log := log w |}.

Definition with_saver (f : Saver -> Saver) (w : World) : World :=
  {| config := config w; transport := transport w; service := service w;
     saver := f (saver w); sockets := sockets w; localStorage := localStorage w;
     microtasks := microtasks w; timers := timers w; calls := calls w;
     log := log w |}.

Definition with_sockets (f : list WebSocket -> list WebSocket) (w : World) : World :=
  {| config := config w; transport := transport w; service := service w;
     saver := saver w; sockets := f (sockets w); localStorage := localStorage w;
     microtasks := microtasks w; timers := timers w; calls := calls w;
     log := log w |}.

Definition with_localStorage (v : option Stored) (w : World) : World :=
  {| config := config w; transport := transport w; service := service w;
     saver := saver w; sockets := sockets w; localStorage := v;
     microtasks := microtasks w; timers := timers w; calls := calls w;
     log := log w |}.

Definition with_microtasks (q : list Task) (w : World) : World :=
  {| config := config w; transport := transport w; service := service w;
     saver := saver w; sockets := sockets w; localStorage := localStorage w;
     microtasks := q; timers := timers w; calls := calls w; log := log w |}.

Definition with_timers (q : list Timer) (w : World) : World :=
  {| config := config w; transport := transport w; service := service w;
     saver := saver w; sockets := sockets w; localStorage := localStorage w;
     microtasks := microtasks w; timers := q; calls := calls w; log := log w |}.

(** One more call to a collaborator has been made. *)
Definition called (w : World) : World :=
  {| config := config w; transport := transport w; service := service w;
     saver := saver w; sockets := sockets w; localStorage := localStorage w;
     microtasks := microtasks w; timers := timers w; calls := S (calls w);
     log := log w |}.

Definition emit (e : Event) (w : World) : World :=
  {| config := config w; transport := transport w; service := service w;
     saver := saver w; sockets := sockets w; localStorage := localStorage w;
     microtasks := microtasks w; timers := timers w; calls := calls w;
     log := log w ++ [e] |}.

(** The continuation of an [await] goes to the back of the microtask queue. *)
Definition enqueue (t : Task) (w : World) : World :=
  with_microtasks (microtasks w ++ [t]) w.

Definition set_ws (v : option nat) (t : Transport) : Transport :=
  {| ws := v; packetQueue := packetQueue t |}.
Definition set_packetQueue (q : list QueueItem) (t : Transport) : Transport :=
  {| ws := ws t; packetQueue := q |}.

Definition set_state (v : ConnectionState) (s : Service) : Service :=
  {| state := v; audioSessionAction := audioSessionAction s;
     ttsPlaybackAction := ttsPlaybackAction s; scene := scene s;
     session := session s; disconnectArmed := disconnectArmed s;
     cancelResponses := cancelResponses s;
     packetsInProgress := packetsInProgress s; history := history s |}.
Definition set_audioSessionAction (v : AudioSessionState) (s : Service) : Service :=
  {| state := state s; audioSessionAction := v;
     ttsPlaybackAction := ttsPlaybackAction s; scene := scene s;
     session := session s; disconnectArmed := disconnectArmed s;
     cancelResponses := cancelResponses s;
     packetsInProgress := packetsInProgress s; history := history s |}.
Definition set_ttsPlaybackAction (v : TtsPlaybackAction) (s : Service) : Service :=
  {| state := state s; audioSessionAction := audioSessionAction s;
     ttsPlaybackAction := v; scene := scene s;
     session := session s; disconnectArmed := disconnectArmed s;
     cancelResponses := cancelResponses s;
     packetsInProgress := packetsInProgress s; history := history s |}.
Definition set_scene (v : option LoadSceneResponse) (s : Service) : Service :=
  {| state := state s; audioSessionAction := audioSessionAction s;
     ttsPlaybackAction := ttsPlaybackAction s; scene := v;
     session := session s; disconnectArmed := disconnectArmed s;
     cancelResponses := cancelResponses s;
     packetsInProgress := packetsInProgress s; history := history s |}.
Definition set_session (v : option SessionToken) (s : Service) : Service :=
  {| state := state s; audioSessionAction := audioSessionAction s;
     ttsPlaybackAction := ttsPlaybackAction s; scene := scene s;
     session := v; disconnectArmed := disconnectArmed s;
     cancelResponses := cancelResponses s;
     packetsInProgress := packetsInProgress s; history := history s |}.
Definition set_disconnectArmed (v : bool) (s : Service) : Service :=
  {| state := state s; audioSessionAction := audioSessionAction s;
     ttsPlaybackAction := ttsPlaybackAction s; scene := scene s;
     session := session s; disconnectArmed := v;
     cancelResponses := cancelResponses s;
     packetsInProgress := packetsInProgress s; history := history s |}.
Definition set_cancelResponses (v : gmap string bool) (s : Service) : Service :=
  {| state := state s; audioSessionAction := audioSessionAction s;
     ttsPlaybackAction := ttsPlaybackAction s; scene := scene s;
     session := session s; disconnectArmed := disconnectArmed s;
     cancelResponses := v;
     packetsInProgress := packetsInProgress s; history := history s |}.
Definition set_packetsInProgress (v : list (string * Producer)) (s : Service) : Service :=
  {| state := state s; audioSessionAction := audioSessionAction s;
     ttsPlaybackAction := ttsPlaybackAction s; scene := scene s;
     session := session s; disconnectArmed := disconnectArmed s;
     cancelResponses := cancelResponses s;
     packetsInProgress := v; history := history s |}.
Definition set_history (v : list HistoryItem) (s : Service) : Service :=
  {| state := state s; audioSessionAction := audioSessionAction s;
     ttsPlaybackAction := ttsPlaybackAction s; scene := scene s;
     session := session s; disconnectArmed := disconnectArmed s;
     cancelResponses := cancelResponses s;
     packetsInProgress := packetsInProgress s; history := v |}.

Definition set_isBlurred (v : bool) (s : Saver) : Saver :=
  {| isBlurred := v; isSaving := isSaving s; pollers := pollers s |}.
Definition set_isSaving (v : bool) (s : Saver) : Saver :=
  {| isBlurred := isBlurred s; isSaving := v; pollers := pollers s |}.
Definition set_pollers (v : list nat) (s : Saver) : Saver :=
  {| isBlurred := isBlurred s; isSaving := isSaving s; pollers := v |}.

(** ** JavaScript objects used as maps *)

(** [obj[key] = value]: an existing key keeps its place. *)
Fixpoint object_set {V : Type} (key : string) (value : V) (obj : list (string * V))
  : list (string * V) :=
  match obj with
  | [] => [(key, value)]
  | (k, v) :: rest =>
      if String.eqb k key then (k, value) :: rest
      else (k, v) :: object_set key value rest
  end.

(** [delete obj[key]] *)
Fixpoint object_delete {V : Type} (key : string) (obj : list (string * V))
  : list (string * V) :=
  match obj with
  | [] => []
  | (k, v) :: rest =>
      if String.eqb k key then object_delete key rest
      else (k, v) :: object_delete key rest
  end.

(** [obj[key]] *)
Fixpoint object_get {V : Type} (key : string) (obj : list (string * V)) : option V :=
  match obj with
  | [] => None
  | (k, v) :: rest => if String.eqb k key then Some v else object_get key rest
  end.

(** [Object.keys(obj)] *)
Definition object_keys {V : Type} (obj : list (string * V)) : list string :=
  map fst obj.

(** Truthiness of [this.cancelResponses[interactionId]]. *)
Definition isCancelled (interaction : string) (m : gmap string bool) : bool :=
  match m !! interaction with
  | Some b => b
  | None => false
  end.

(** Truthiness of a string. *)
Definition truthy (s : string) : bool :=
  negb (String.eqb s "").

(** ** The two error patterns of connection.service.ts *)

Definition isLineTerminator (c : ascii) : bool :=
  Ascii.eqb c "010"%char || Ascii.eqb c "013"%char.

(** [needle] occurs in [s] before the first line terminator of [s]. *)
Fixpoint occursInLine (needle s : string) : bool :=
  String.prefix needle s ||
  match s with
  | EmptyString => false
  | String c rest => if isLineTerminator c then false else occursInLine needle rest
  end.

Fixpoint dropPrefix (n : nat) (s : string) : string :=
  match n, s with
  | S n', String _ rest => dropPrefix n' rest
  | _, _ => s
  end.

(** [new RegExp('Session (.*?) expired or invalid').test(message)]: the
    word, then any run of characters of one line, then the rest of the
    phrase.  (Line ends are LF and CR; the separators U+2028 and U+2029
    are not single bytes and are not treated as line ends.) *)
Fixpoint sessionExpiredRegExp_test (message : string) : bool :=
  (String.prefix "Session " message &&
   occursInLine " expired or invalid" (dropPrefix 8 message)) ||
  match message with
  | EmptyString => false
  | String _ rest => sessionExpiredRegExp_test rest
  end.

Definition invalidToken : string := "invalid JWT token".

(** ** Sockets of the page *)

Definition socketState (sock : nat) (w : World) : option ReadyState :=
  readyState <$> (sockets w !! sock).

Definition set_readyState (v : ReadyState) (s : WebSocket) : WebSocket :=
  {| readyState := v; listeners := listeners s |}.

Definition socket_update (sock : nat) (f : WebSocket -> WebSocket) (w : World) : World :=
  with_sockets (fun l =>
    match l !! sock with
    | Some s => <[sock := f s]> l
    | None => l
    end) w.

Definition addEventListener (sock : nat) (e : EventName) (l : Listener) (w : World) : World :=
  socket_update sock (fun s =>
    {| readyState := readyState s; listeners := listeners s ++ [(e, l)] |}) w.

(** Removes the listener registered for [e] that is the object [l]. *)
Definition removeEventListener (sock : nat) (e : EventName) (l : Listener) (w : World) : World :=
  socket_update sock (fun s =>
    {| readyState := readyState s;
       listeners :=
         List.filter (fun r => negb (EventName_eqb (fst r) e && Listener_eqb (snd r) l))
                     (listeners s) |}) w.

Definition listenersFor (sock : nat) (e : EventName) (w : World) : list Listener :=
  match sockets w !! sock with
  | Some s => map snd (List.filter (fun r => EventName_eqb (fst r) e) (listeners s))
  | None => []
  end.

(** ** WebSocketConnection

    The class is generic in what it is given: the hooks of the queue items
    ([callBefore], [callAfter]) and the handlers of [connectionProps]. *)

Module WebSocketConnection.

Section Transport.

Context (E : Collaborators).
Context (callBefore : BeforeWriting -> InworldPacket -> Task -> World -> World).
Context (callAfter : AfterWriting -> InworldPacket -> World -> World).
Context (props_onDisconnect props_onReady : World -> World).
Context (props_onError : string -> World -> World).
Context (props_onMessage : ProtoPacket -> World -> World).

Definition producedPacket (g : Producer) : ProtoPacket :=
  match g with
  | UserProducer p => p
  | CancelResponseProducer props characters => cancelResponse E props characters
  | TtsPlaybackMuteProducer => ttsPlaybackMute E true
  end.

(** [this.ws?.readyState === WebSocket.OPEN] *)
Definition isActive (w : World) : bool :=
  match ws (transport w) with
  | Some sock =>
      match socketState sock w with
      | Some OPEN => true
      | _ => false
      end
  | None => false
  end.

Definition createWebSocket (session : SessionToken) (w : World) : nat * World :=
  let sock := length (sockets w) in
  let w := with_sockets (fun l => l ++ [{| readyState := CONNECTING; listeners := [] |}]) w in
  let w := emit (SocketCreated sock session) w in
  let w := addEventListener sock ev_open BoundOnReady w in
  let w := addEventListener sock ev_message BoundOnMessage w in
  let w := addEventListener sock ev_error BoundOnError w in
  let w := addEventListener sock ev_close PropsOnDisconnect w in
  (sock, w).

Definition open (session : SessionToken) (packets : list QueueItem) (w : World) : World :=
  let w :=
    match packets with
    | [] => w
    | _ => with_transport (set_packetQueue (packets ++ packetQueue (transport w))) w
    end in
  let (sock, w) := createWebSocket session w in
  with_transport (set_ws (Some sock)) w.

Definition close (w : World) : World :=
  let w :=
    match ws (transport w) with
    | Some sock =>
        let w := removeEventListener sock ev_error MethodOnError w in
        let w := removeEventListener sock ev_close PropsOnDisconnect w in
        let w := removeEventListener sock ev_open MethodOnReady w in
        removeEventListener sock ev_message MethodOnMessage w
    | None => w
    end in
  let w :=
    if isActive w then
      match ws (transport w) with
      | Some sock =>
          let w := socket_update sock (set_readyState CLOSING) w in
          let w := emit (SocketClose sock) w in
          props_onDisconnect w
      | None => w
      end
    else w in
  let w := with_transport (set_ws None) w in
  with_transport (set_packetQueue []) w.

(** [write] up to its [await]: the packet is produced and converted, the
    hook is started, and the rest of [write] waits for the hook's promise.
    Without a hook the awaited value is no promise and the rest is queued
    at once. *)
Definition write (item : QueueItem) (w : World) : World :=
  if isActive w then
    let packet := producedPacket (getPacket item) in
    let inworldPacket := convertPacketFromProto E packet in
    match beforeWriting item with
    | Some hook => callBefore hook inworldPacket (WriteResume item packet inworldPacket) w
    | None => enqueue (WriteResume item packet inworldPacket) w
    end
  else
    with_transport (set_packetQueue (packetQueue (transport w) ++ [item])) w.

(** [write] after its [await]: [this.ws.send(..)] and the second hook.
    [send] throws on a socket that is still connecting and discards the
    data on one that is closing or closed; [this.ws] may be [null] by now. *)
Definition writeResume (item : QueueItem) (packet : ProtoPacket)
    (inworldPacket : InworldPacket) (w : World) : World :=
  let after (w : World) :=
    match afterWriting item with
    | Some hook => callAfter hook inworldPacket w
    | None => w
    end in
  match ws (transport w) with
  | Some sock =>
      match socketState sock w with
      | Some OPEN => after (emit (SocketSend sock packet) w)
      | Some CONNECTING => emit (Uncaught "InvalidStateError") w
      | Some _ => after (emit (SocketDropped sock packet) w)
      | None => emit (Uncaught "TypeError") w
      end
  | None => emit (Uncaught "TypeError") w
  end.

(** The [open] listener only starts a zero-delay timer. *)
Definition onReady (w : World) : World :=
  with_timers (timers w ++ [FlushTimer]) w.

(** The timer's callback: [forEach] visits the items that are in the queue
    when it starts. *)
Definition flush (w : World) : World :=
  let w := fold_left (fun w item => write item w) (packetQueue (transport w)) w in
  let w := with_transport (set_packetQueue []) w in
  props_onReady w.

(** [safeJSONParse] gives [undefined] for a frame that is no JSON, and
    reading [payload.error] then throws. *)
Definition onMessage (frame : option Frame) (w : World) : World :=
  match frame with
  | Some (FrameError message) => props_onError message w
  | Some (FrameResult packet) => props_onMessage packet w
  | None => emit (Uncaught "TypeError") w
  end.

Definition onError (w : World) : World :=
  props_onError "[object Event]" w.

End Transport.

End WebSocketConnection.

(** ** ConnectionService *)

Module ConnectionService.

Section Service.

Context (E : Collaborators).

Definition isActive (w : World) : bool :=
  ConnectionState_eqb (state (service w)) ACTIVE.

(** [this.connectionProps.config?.connection?.autoReconnect ?? true] *)
Definition isAutoReconnected (w : World) : bool :=
  match autoReconnect (config w) with
  | Some b => b
  | None => true
  end.

Definition getTtsPlaybackAction (w : World) : TtsPlaybackAction :=
  ttsPlaybackAction (service w).

Definition getHistory (w : World) : list HistoryItem :=
  history (service w).

Definition hasPacketsInProgress (w : World) : bool :=
  match object_keys (packetsInProgress (service w)) with
  | [] => false
  | _ => true
  end.

Definition cancelScheduler (w : World) : World :=
  with_service (set_disconnectArmed false) w.

Definition scheduleDisconnect (w : World) : World :=
  match disconnectTimeout (config w) with
  | O => w
  | S _ => with_service (set_disconnectArmed true) (cancelScheduler w)
  end.

Definition addPacketToHistory (packet : InworldPacket) (w : World) : World :=
  let (entries, changed) := history_addOrUpdate E packet (history (service w)) in
  let w := emit (HistoryAddOrUpdate packet) w in
  let w := with_service (set_history entries) w in
  match changed with
  | [] => w
  | _ => emit (CallbackHistoryChange changed) w
  end.

(** The item built for a packet that was not applied by the server. *)
Definition replayItem (entry : string * Producer) : QueueItem :=
  {| getPacket := snd entry;
     afterWriting := Some (AfterReplay (snd entry));
     beforeWriting := None |}.

Definition muteItem : QueueItem :=
  {| getPacket := TtsPlaybackMuteProducer; afterWriting := None; beforeWriting := None |}.

Definition getPacketsToSentOnOpen (w : World) : list QueueItem * World :=
  let packets :=
    if isAutoReconnected w then
      match getTtsPlaybackAction w with
      | TTS_MUTE => [muteItem]
      | _ => []
      end
    else [] in
  match state (service w) with
  | RECONNECTING =>
      let notAppliedPackets := packetsInProgress (service w) in
      let w := with_service (set_packetsInProgress []) w in
      (packets ++ map replayItem notAppliedPackets, w)
  | _ => (packets, w)
  end.

(** [interruptByPacket] up to its [await]; [next] is the code that awaits
    the promise of [interruptByPacket]. *)
Definition interruptByPacket (packet : InworldPacket) (next : Task) (w : World) : World :=
  if negb (interruptions (config w)) then enqueue next w
  else
    let interaction := interactionId (inworld_packetId packet) in
    let packets := stopForInteraction E (calls w) interaction in
    let w := called (emit (PlayerStopForInteraction interaction) w) in
    enqueue (Delay (stopForInteraction_turns E) (InterruptResume packets next)) w.

(** [this.packetsInProgress[packet.packetId.interactionId] = getPacket]
    for a text or audio packet. *)
Definition recordInProgress (getPacket : Producer) (packet : InworldPacket) (w : World) : World :=
  if isText packet || isAudio packet then
    with_service (fun s =>
      set_packetsInProgress
        (object_set (interactionId (inworld_packetId packet)) getPacket
                    (packetsInProgress s)) s) w
  else w.

(** The end of [beforeWriting]; its promise settles and [next] is queued. *)
Definition beforeWritingResume (getPacket : Producer) (packet : InworldPacket)
    (next : Task) (w : World) : World :=
  enqueue next (recordInProgress getPacket packet w).

Definition callBefore (hook : BeforeWriting) (packet : InworldPacket)
    (next : Task) (w : World) : World :=
  match hook with
  | BeforeWrite getPacket =>
      if isText packet then
        interruptByPacket packet (BeforeWritingResume getPacket packet next) w
      else beforeWritingResume getPacket packet next w
  end.

Definition callAfter (hook : AfterWriting) (packet : InworldPacket) (w : World) : World :=
  match hook with
  | AfterWrite => addPacketToHistory packet (scheduleDisconnect w)
  | AfterReplay getPacket => recordInProgress getPacket packet w
  end.

Definition tokenResolved (awaiter : TokenAwaiter) : Task :=
  match awaiter with
  | AwaitedByLoadScene next => LoadSceneAfterToken next
  | AwaitedByGetSessionState => GetSessionStateAfterToken
  end.

Definition tokenRejected (awaiter : TokenAwaiter) (message : string) : Task :=
  match awaiter with
  | AwaitedByLoadScene next => LoadSceneCatch message next
  | AwaitedByGetSessionState => GetSessionStateCatch message
  end.

(** [ensureSessionToken] up to its [await].  [beforeLoading] says whether
    the caller passed that callback (loadScene does: it sets LOADING). *)
Definition ensureSessionToken (beforeLoading : bool) (awaiter : TokenAwaiter)
    (w : World) : World :=
  let stale :=
    match session (service w) with
    | None => true
    | Some s => isExpired E (calls w) s
    end in
  if stale then
    let previous :=
      match session (service w) with
      | Some s => sessionId s
      | None => ""
      end in
    let w := if beforeLoading then with_service (set_state LOADING) w else w in
    let r := generateSessionToken E (calls w) in
    let w := called (emit GenerateSessionToken w) in
    enqueue (Delay (generateSessionToken_turns E) (EnsureTokenResume previous r awaiter)) w
  else enqueue (tokenResolved awaiter) w.

(** [{ ...this.session, sessionId }] *)
Definition spreadSession (current : option SessionToken) (previous : string) : SessionToken :=
  match current with
  | Some s =>
      {| token := token s; type := type s; expirationTime := expirationTime s;
         sessionId := previous |}
  | None =>
      {| token := ""; type := ""; expirationTime := ""; sessionId := previous |}
  end.

(** [ensureSessionToken] after its [await]. *)
Definition ensureTokenResume (previous : string) (r : Result SessionToken)
    (awaiter : TokenAwaiter) (w : World) : World :=
  match r with
  | Ok generated =>
      let sessionToken :=
        if truthy previous then spreadSession (session (service w)) previous
        else generated in
      let w := with_service (set_session (Some sessionToken)) w in
      enqueue (tokenResolved awaiter) w
  | Err message => enqueue (tokenRejected awaiter message) w
  end.

Definition loadScene (next : Task) (w : World) : World :=
  match state (service w) with
  | LOADING => enqueue next w
  | _ => ensureSessionToken true (AwaitedByLoadScene next) w
  end.

Definition open (w : World) : World :=
  let (packets, w) := getPacketsToSentOnOpen w in
  loadScene (OpenAfterLoadScene packets) w.

Definition onError (message : string) (w : World) : World :=
  let w := emit (CallbackError message) w in
  if (sessionExpiredRegExp_test message || String.eqb invalidToken message)
     && isAutoReconnected w
  then
    let w := with_service (set_session None) w in
    let w := with_service (set_scene None) w in
    let w := with_service (set_state INACTIVE) w in
    open w
  else w.

Definition openManually (w : World) : World :=
  if isAutoReconnected w then
    onError "Impossible to open connection manually with `autoReconnect` enabled" w
  else
    match state (service w) with
    | INACTIVE => open w
    | _ => onError "Connection is already open" w
    end.

Definition queueItem (getPacket : Producer) : QueueItem :=
  {| getPacket := getPacket;
     afterWriting := Some AfterWrite;
     beforeWriting := Some (BeforeWrite getPacket) |}.

(** [write]: the item goes to the connection first, then the connection
    is opened if the service is not active.  The promise [write] returns
    (a polling interval that waits for the converted packet) does not touch
    anything else and is left out. *)
Definition write (getPacket : Producer) (w : World) : World :=
  let w := WebSocketConnection.write E callBefore (queueItem getPacket) w in
  if isActive w then w else open w.

Definition send (getPacket : Producer) (w : World) : World :=
  let w := cancelScheduler w in
  if negb (isActive w) && negb (isAutoReconnected w) then
    onError "Unable to send data due inactive connection" w
  else write getPacket w.

Definition sendCancelResponses (props : CancelResponsesProps)
    (characters : list Character) (w : World) : World :=
  if truthy (cancel_interactionId props) then
    let w := send (CancelResponseProducer props characters) w in
    let w := with_service (fun s =>
      set_cancelResponses (<[cancel_interactionId props := true]> (cancelResponses s)) s) w in
    let w := emit (CallbackInterruption props) w in
    let w := emit (HistoryFilter props) w in
    with_service (fun s => set_history (history_filter E props (history s)) s) w
  else w.

(** [interruptByPacket] after its [await]. *)
Definition interruptResume (packets : list InworldPacket) (next : Task) (w : World) : World :=
  let w :=
    match packets with
    | [] => w
    | first :: _ =>
        sendCancelResponses
          {| cancel_interactionId := interactionId (inworld_packetId first);
             cancel_utteranceId := map (fun p => utteranceId (inworld_packetId p)) packets |}
          (map (fun p => {| id := name (source (inworld_routing p)) |}) packets)
          w
    end in
  enqueue next w.

Definition interrupt (w : World) : World :=
  let packet := getCurrentPacket E (calls w) in
  let w := called (emit PlayerGetCurrentPacket w) in
  match packet with
  | Some packet => interruptByPacket packet Done w
  | None => w
  end.

(** [onMessage] from "Play audio or silence" to its end. *)
Definition onMessageResume (inworldPacket : InworldPacket) (w : World) : World :=
  let interaction := interactionId (inworld_packetId inworldPacket) in
  let w :=
    if (isAudio inworldPacket || isSilence inworldPacket)
       && negb (isCancelled interaction (cancelResponses (service w)))
    then called (emit (PlayerAddToQueue inworldPacket) w)
    else w in
  let w :=
    if isInteractionEnd inworldPacket then
      with_service (fun s => set_cancelResponses (delete interaction (cancelResponses s)) s) w
    else w in
  let w := addPacketToHistory inworldPacket w in
  emit (CallbackMessage inworldPacket) w.

Definition onMessage (packet : ProtoPacket) (w : World) : World :=
  let inworldPacket := convertPacketFromProto E packet in
  let interaction := interactionId (inworld_packetId inworldPacket) in
  let w :=
    if isInteractionEnd inworldPacket then
      with_service (fun s =>
        set_packetsInProgress (object_delete interaction (packetsInProgress s)) s) w
    else w in
  if isText inworldPacket
     && negb (isPlayer (source (inworld_routing inworldPacket)))
     && isCancelled interaction (cancelResponses (service w))
  then
    sendCancelResponses
      {| cancel_interactionId := interaction;
         cancel_utteranceId := [utteranceId (proto_packetId packet)] |}
      [{| id := name (source (proto_routing packet)) |}]
      w
  else if isText inworldPacket && isPlayer (source (inworld_routing inworldPacket))
  then interruptByPacket inworldPacket (OnMessageResume inworldPacket) w
  else onMessageResume inworldPacket w.

(** [onReady] up to its [await], and after it. *)
Definition onReady (w : World) : World :=
  let w := called (emit StartSession w) in
  enqueue (Delay (startSession_turns E) OnReadyResume) w.

Definition onReadyResume (w : World) : World :=
  let w := emit PlayerSetStream w in
  let w := with_service (set_state ACTIVE) w in
  emit CallbackReady w.

Definition onDisconnect (w : World) : World :=
  let w := with_service (set_state INACTIVE) w in
  let w := with_service (set_audioSessionAction AUDIO_UNKNOWN) w in
  emit CallbackDisconnect w.

(** [close]; [clearQueue] only stops the polling intervals of [write]. *)
Definition close (w : World) : World :=
  let w := cancelScheduler w in
  let w := with_service (set_state INACTIVE) w in
  WebSocketConnection.close onDisconnect w.

(** [setPreviousState]: the packets of the previous state go to the
    history, and the host is told once if the history is not empty. *)
Definition setPreviousState (packets : list ProtoPacket) (w : World) : World :=
  let w :=
    fold_left (fun w packet =>
      let inworldPacket := convertPacketFromProto E packet in
      let w := emit (HistoryAddOrUpdate inworldPacket) w in
      with_service (fun s =>
        set_history (fst (history_addOrUpdate E inworldPacket (history s))) s) w)
      packets w in
  match history (service w) with
  | [] => w
  | changed => emit (CallbackHistoryChange changed) w
  end.

(** The last statement of [loadScene]'s [try] block. *)
Definition loadSceneEnd (next : Task) (w : World) : World :=
  let w :=
    match state (service w) with
    | LOADING | INACTIVE => with_service (set_state LOADED) w
    | _ => w
    end in
  enqueue next w.

(** [loadScene] after [await this.ensureSessionToken(..)].  [JSON.parse]
    throws on a stored value that is no JSON. *)
Definition loadSceneAfterToken (next : Task) (w : World) : World :=
  match scene (service w) with
  | None =>
      match localStorage w with
      | Some StoredUndefined => enqueue next (onError "SyntaxError" w)
      | _ =>
          let r := engine_loadScene E (calls w) in
          let w := called (emit (EngineLoadScene (session (service w))) w) in
          enqueue (Delay (engine_loadScene_turns E) (LoadSceneAfterEngine r next)) w
      end
  | Some _ => loadSceneEnd next w
  end.

Definition loadSceneCatch (message : string) (next : Task) (w : World) : World :=
  enqueue next (onError message w).

(** [loadScene] after [await this.engineService.loadScene(..)];
    [setCharacterList] only fills the roster of the event factory. *)
Definition loadSceneAfterEngine (r : Result LoadSceneResponse) (next : Task)
    (w : World) : World :=
  match r with
  | Ok loaded =>
      let w := with_service (set_scene (Some loaded)) w in
      let w :=
        if history_previousState (config w)
        then setPreviousState (previousState loaded) w
        else w in
      loadSceneEnd next w
  | Err message => loadSceneCatch message next w
  end.

(** [open] after [await this.loadScene()]; creating the socket reads
    [session.sessionId] and throws when there is no session. *)
Definition openAfterLoadScene (packets : list QueueItem) (w : World) : World :=
  match state (service w) with
  | LOADED =>
      let w := with_service (set_state ACTIVATING) w in
      match session (service w) with
      | Some s =>
          let w := WebSocketConnection.open s packets w in
          enqueue OpenAfterConnectionOpen w
      | None => onError "TypeError" w
      end
  | _ => w
  end.

Definition openAfterConnectionOpen (w : World) : World :=
  scheduleDisconnect w.

(** [getSessionState], as [saveSessionState] uses it: up to its [await],
    after it, and its [catch] clause (which makes the result [undefined]). *)
Definition getSessionState (w : World) : World :=
  ensureSessionToken false AwaitedByGetSessionState w.

Definition getSessionStateAfterToken (w : World) : World :=
  let r := state_getSessionState E (calls w) in
  let w := called (emit (StateGetSessionState (session (service w))) w) in
  let settled :=
    match r with
    | Ok s => SaveSettled (Ok (Some s))
    | Err message => SaveSettled (Err message)
    end in
  enqueue (Delay (state_getSessionState_turns E) settled) w.

Definition getSessionStateCatch (message : string) (w : World) : World :=
  enqueue (SaveSettled (Ok None)) (onError message w).

End Service.

End ConnectionService.

(** ** SessionStateService *)

Module SessionStateService.

Section Saver.

Context (E : Collaborators).

Definition maxAttempts : nat := DEFAULT_SESSION_STATE_MAX_ATTEMPTS.

(** [history[history.length - 1]] *)
Definition lastItem (w : World) : option HistoryItem :=
  List.last (map Some (ConnectionService.getHistory w)) None.

(** [saved ? safeJSONParse<SessionState>(saved) : undefined] *)
Definition savedSessionState (w : World) : option SessionState :=
  match localStorage w with
  | Some (StoredState s) => Some s
  | _ => None
  end.

(** The test under "Don't save session state if it's already saved". *)
Definition alreadySaved (w : World) : bool :=
  match lastItem w with
  | None => true
  | Some item =>
      match savedSessionState w with
      | Some s =>
          match creationTime s, history_date item with
          | Some created, Some date => Z.ltb date created
          | _, _ => false
          end
      | None => false
      end
  end.

(** [this.intervalId] is never assigned, so it is [undefined] and
    [clearInterval] stops nothing. *)
Definition clearInterval (w : World) : World := w.

(** [saveSessionState] up to the point where it waits for the state. *)
Definition saveSessionState (w : World) : World :=
  ConnectionService.getSessionState E (clearInterval w).

(** The reactions [then], [catch] and [finally] of [saveSessionState]. *)
Definition saveSettled (r : Result (option SessionState)) (w : World) : World :=
  let w :=
    match r with
    | Ok (Some s) =>
        emit (LocalStorageSet (StoredState s))
             (with_localStorage (Some (StoredState s)) w)
    | Ok None =>
        emit (LocalStorageSet StoredUndefined)
             (with_localStorage (Some StoredUndefined) w)
    | Err message => ConnectionService.onError E message w
    end in
  with_saver (set_isSaving false) w.

(** [tryToSaveState]; when it goes on, it starts an interval whose
    [attempts] counter is 0. *)
Definition tryToSaveState (w : World) : World :=
  if isSaving (saver w) then w
  else
    let w := with_saver (set_isSaving true) w in
    if alreadySaved w then with_saver (set_isSaving false) w
    else with_saver (fun s => set_pollers (pollers s ++ [0]) s) w.

(** One firing of the interval started by [tryToSaveState] whose counter
    is the [i]-th of [pollers]. *)
Definition pollTick (i : nat) (w : World) : World :=
  match pollers (saver w) !! i with
  | None => w
  | Some attempts =>
      let attempts := S attempts in
      let w := with_saver (fun s => set_pollers (<[i := attempts]> (pollers s)) s) w in
      if Nat.leb maxAttempts attempts then saveSessionState w
      else if ConnectionService.hasPacketsInProgress w then w
      else
        match lastItem w with
        | Some item =>
            match history_type item with
            | INTERACTION_END_ITEM => saveSessionState w
            | _ => w
            end
        | None => w
        end
  end.

(** The interval of the constructor, the [blur] and the [focus] listener.
    ([focus] also starts one more interval that calls [tryToSaveState].) *)
Definition intervalTick (w : World) : World :=
  if isBlurred (saver w) then w else tryToSaveState w.

Definition onWindowBlur (w : World) : World :=
  tryToSaveState (with_saver (set_isBlurred true) w).

Definition onWindowFocus (w : World) : World :=
  with_saver (set_isBlurred false) w.

End Saver.

End SessionStateService.

(** ** The event loop *)

Section EventLoop.

Context (E : Collaborators).

(** One job of the microtask queue. *)
Fixpoint run (t : Task) (w : World) : World :=
  match t with
  | Done => w
  | Delay n t' =>
      match n with
      | O => run t' w
      | S n' => enqueue (Delay n' t') w
      end
  | WriteResume item packet inworldPacket =>
      WebSocketConnection.writeResume (ConnectionService.callAfter E)
        item packet inworldPacket w
  | BeforeWritingResume getPacket packet next =>
      ConnectionService.beforeWritingResume getPacket packet next w
  | InterruptResume packets next => ConnectionService.interruptResume E packets next w
  | OnMessageResume inworldPacket => ConnectionService.onMessageResume E inworldPacket w
  | OpenAfterLoadScene packets => ConnectionService.openAfterLoadScene E packets w
  | OpenAfterConnectionOpen => ConnectionService.openAfterConnectionOpen w
  | LoadSceneAfterToken next => ConnectionService.loadSceneAfterToken E next w
  | LoadSceneCatch message next => ConnectionService.loadSceneCatch E message next w
  | LoadSceneAfterEngine r next => ConnectionService.loadSceneAfterEngine E r next w
  | EnsureTokenResume previous r awaiter =>
      ConnectionService.ensureTokenResume previous r awaiter w
  | GetSessionStateAfterToken => ConnectionService.getSessionStateAfterToken E w
  | GetSessionStateCatch message => ConnectionService.getSessionStateCatch E message w
  | SaveSettled r => SessionStateService.saveSettled E r w
  | OnReadyResume => ConnectionService.onReadyResume w
  end.

(** The microtask checkpoint: jobs run in the order they were queued, and
    the jobs they queue run after those already waiting. *)
Fixpoint drain (fuel : nat) (w : World) : World :=
  match fuel with
  | O => w
  | S fuel' =>
      match microtasks w with
      | [] => w
      | t :: rest => drain fuel' (run t (with_microtasks rest w))
      end
  end.

(** What the page can do to the program: call the public methods, deliver
    a socket event, fire a timer. *)
Inductive SocketEvent :=
| Opened
| Received (frame : option Frame)
| Errored
| Closed.

Definition callListener (l : Listener) (e : SocketEvent) (w : World) : World :=
  match l with
  | BoundOnReady => WebSocketConnection.onReady w
  | BoundOnMessage =>
      match e with
      | Received frame =>
          WebSocketConnection.onMessage
            (ConnectionService.onError E) (ConnectionService.onMessage E) frame w
      | _ => w
      end
  | BoundOnError => WebSocketConnection.onError (ConnectionService.onError E) w
  | PropsOnDisconnect => ConnectionService.onDisconnect w
  | MethodOnReady | MethodOnMessage | MethodOnError => w
  end.

Definition fire (sock : nat) (name : EventName) (e : SocketEvent) (w : World) : World :=
  fold_left (fun w l => callListener l e w) (listenersFor sock name w) w.

(** A message is delivered only while the socket is open. *)
Definition dispatch (sock : nat) (e : SocketEvent) (w : World) : World :=
  match e with
  | Opened => fire sock ev_open e (socket_update sock (set_readyState OPEN) w)
  | Received _ =>
      match socketState sock w with
      | Some OPEN => fire sock ev_message e w
      | _ => w
      end
  | Errored => fire sock ev_error e w
  | Closed => fire sock ev_close e (socket_update sock (set_readyState CLOSED) w)
  end.

(** The oldest pending timer of [onReady] fires. *)
Definition fireFlushTimer (w : World) : World :=
  match timers w with
  | FlushTimer :: rest =>
      WebSocketConnection.flush E (ConnectionService.callBefore E)
        (ConnectionService.onReady E) (with_timers rest w)
  | [] => w
  end.

(** The idle timer fires, if it is pending. *)
Definition fireDisconnectTimer (w : World) : World :=
  if disconnectArmed (service w) then
    ConnectionService.close (with_service (set_disconnectArmed false) w)
  else w.

Inductive Action :=
| CallSend (getPacket : Producer)
| CallOpenManually
| CallClose
| CallInterrupt
| OnSocket (sock : nat) (e : SocketEvent)
| OnFlushTimer
| OnDisconnectTimer
| OnSaveInterval
| OnSavePoll (i : nat)
| OnWindowBlur
| OnWindowFocus.

Definition act (a : Action) (w : World) : World :=
  match a with
  | CallSend getPacket => ConnectionService.send E getPacket w
  | CallOpenManually => ConnectionService.openManually E w
  | CallClose => ConnectionService.close w
  | CallInterrupt => ConnectionService.interrupt E w
  | OnSocket sock e => dispatch sock e w
  | OnFlushTimer => fireFlushTimer w
  | OnDisconnectTimer => fireDisconnectTimer w
  | OnSaveInterval => SessionStateService.intervalTick w
  | OnSavePoll i => SessionStateService.pollTick E i w
  | OnWindowBlur => SessionStateService.onWindowBlur w
  | OnWindowFocus => SessionStateService.onWindowFocus w
  end.

(** One macrotask: the handler, then the microtask checkpoint. *)
Definition step (fuel : nat) (a : Action) (w : World) : World :=
  drain fuel (act a w).

Definition steps (fuel : nat) (l : list Action) (w : World) : World :=
  fold_left (fun w a => step fuel a w) l w.

End EventLoop.

(** The frames put on a socket, in the order of [send]. *)
Definition wire (l : list Event) : list ProtoPacket :=
  omap (fun e => match e with SocketSend _ p => Some p | _ => None end) l.

(** A service that was just constructed, and the world around it. *)
Definition newService : Service :=
  {| state := INACTIVE; audioSessionAction := AUDIO_UNKNOWN;
     ttsPlaybackAction := TTS_UNKNOWN; scene := None; session := None;
     disconnectArmed := false; cancelResponses := ∅; packetsInProgress := [];
     history := [] |}.

Definition newWorld (c : InternalClientConfiguration) : World :=
  {| config := c;
     transport := {| ws := None; packetQueue := [] |};
     service := newService;
     saver := {| isBlurred := false; isSaving := false; pollers := [] |};
     sockets := []; localStorage := None; microtasks := []; timers := [];
     calls := 0; log := [] |}.

(** ** A concrete page, for running the definitions *)

Module Sample.

Definition player : Actor := {| name := "player"; isPlayer := true; isCharacter := false |}.
Definition character : Actor := {| name := "character"; isPlayer := false; isCharacter := true |}.

Definition packetIdOf (packet interaction utterance : string) : PacketId :=
  {| packetId := packet; interactionId := interaction; utteranceId := utterance;
     correlationId := None |}.

(** A wire packet whose body names its payload. *)
Definition proto (body packet interaction utterance : string) (from to : Actor) : ProtoPacket :=
  {| proto_packetId := packetIdOf packet interaction utterance;
     proto_routing := {| source := from; targets := [to] |};
     proto_body := body |}.

Definition typeOfBody (body : string) : InworldPacketType :=
  if String.eqb body "text" then TEXT
  else if String.eqb body "audio" then AUDIO
  else if String.eqb body "trigger" then TRIGGER
  else if String.eqb body "silence" then SILENCE
  else if String.eqb body "cancelResponses" then CANCEL_RESPONSE
  else if String.eqb body "interactionEnd" then CONTROL
  else if String.eqb body "mute" then CONTROL
  else UNKNOWN.

Definition fromProto (p : ProtoPacket) : InworldPacket :=
  {| inworld_packetId := proto_packetId p;
     inworld_routing := proto_routing p;
     inworld_date := "";
     inworld_type := typeOfBody (proto_body p);
     inworld_control :=
       if String.eqb (proto_body p) "interactionEnd" then Some INTERACTION_END
       else if String.eqb (proto_body p) "mute" then Some UNKNOWN_CONTROL
       else None |}.

Definition historyItemOf (p : InworldPacket) : HistoryItem :=
  {| history_id := packetId (inworld_packetId p);
     history_date := Some 0%Z;
     history_type := if isInteractionEnd p then INTERACTION_END_ITEM else ACTOR |}.

Definition freshToken : SessionToken :=
  {| token := "fresh-token"; type := "Bearer"; expirationTime := "later";
     sessionId := "fresh-session" |}.

Definition staleToken : SessionToken :=
  {| token := "stale-token"; type := "Bearer"; expirationTime := "past";
     sessionId := "first-session" |}.

Definition loadedScene : LoadSceneResponse :=
  {| agents := [{| id := "character" |}]; previousState := [] |}.

(** Collaborators that always answer the same; [playing] is what the audio
    player reports as current packet and as stopped packets. *)
Definition collaborators (playing : list InworldPacket) : Collaborators :=
  {| convertPacketFromProto := fromProto;
     isExpired := fun _ s => String.eqb (expirationTime s) "past";
     generateSessionToken := fun _ => Ok freshToken;
     engine_loadScene := fun _ => Ok loadedScene;
     state_getSessionState := fun _ =>
       Ok {| creationTime := Some 1%Z; sessionState_state := Some "snapshot" |};
     getCurrentPacket := fun _ => List.head playing;
     stopForInteraction := fun _ _ => playing;
     history_addOrUpdate := fun p h => (h ++ [historyItemOf p], [historyItemOf p]);
     history_filter := fun _ h => h;
     cancelResponse := fun props characters =>
       {| proto_packetId :=
            packetIdOf "cancel" (cancel_interactionId props)
              (String.concat "," (cancel_utteranceId props));
          proto_routing :=
            {| source := player;
               targets := map (fun c => {| name := id c; isPlayer := false;
                                           isCharacter := true |}) characters |};
          proto_body := "cancelResponses" |};
     ttsPlaybackMute := fun _ => proto "mute" "mute" "" "" player character;
     generateSessionToken_turns := 0;
     engine_loadScene_turns := 0;
     state_getSessionState_turns := 0;
     stopForInteraction_turns := 0;
     startSession_turns := 0 |}.

Definition configuration (reconnect canInterrupt : bool) : InternalClientConfiguration :=
  {| autoReconnect := Some reconnect; disconnectTimeout := 0;
     interruptions := canInterrupt; history_previousState := false |}.

Definition hello : ProtoPacket := proto "text" "p1" "i1" "u1" player character.
Definition wave : ProtoPacket := proto "trigger" "p2" "i2" "u2" player character.
Definition speech : ProtoPacket := proto "audio" "p4" "i1" "u3" character player.
Definition goodbye : ProtoPacket := proto "interactionEnd" "p5" "i1" "u4" character player.

End Sample.

(** Worlds for running the definitions: a page whose connection is up
    (socket 0 is open, the service is ACTIVE), one whose socket is still
    connecting, and one in the middle of a save. *)
Module Scenario.

Import Sample.

Definition openSocket : WebSocket :=
  {| readyState := OPEN;
     listeners := [(ev_open, BoundOnReady); (ev_message, BoundOnMessage);
                   (ev_error, BoundOnError); (ev_close, PropsOnDisconnect)] |}.

Definition connected (c : InternalClientConfiguration) : World :=
  with_sockets (fun _ => [openSocket])
    (with_transport (set_ws (Some 0))
      (with_service (fun s =>
         set_state ACTIVE (set_session (Some freshToken) (set_scene (Some loadedScene) s)))
        (newWorld c))).

(** Interaction "i1" was sent, is not yet acknowledged, and was interrupted. *)
Definition interrupted (c : InternalClientConfiguration) : World :=
  with_service (fun s =>
      set_cancelResponses {[ "i1" := true ]}
        (set_packetsInProgress [("i1", UserProducer hello)] s))
    (connected c).

(** The same, when only the packet is unacknowledged. *)
Definition waiting (c : InternalClientConfiguration) : World :=
  with_service (set_packetsInProgress [("i1", UserProducer hello)]) (connected c).

(** What the player reports while it plays the character's answer. *)
Definition playing : list InworldPacket := [fromProto speech].


(** [open()] has run up to the creation of socket 0, which is not yet ready. *)
Definition connecting (c : InternalClientConfiguration) : World :=
  WebSocketConnection.open freshToken []
    (with_service (fun s =>
       set_state ACTIVATING (set_session (Some freshToken) (set_scene (Some loadedScene) s)))
      (newWorld c)).

Definition answered : list HistoryItem :=
  [ {| history_id := "p1"; history_date := Some 10%Z; history_type := ACTOR |};
    {| history_id := "p5"; history_date := Some 20%Z; history_type := INTERACTION_END_ITEM |} ].

Definition unanswered : list HistoryItem :=
  [ {| history_id := "p1"; history_date := Some 10%Z; history_type := ACTOR |} ].

(** A save has started: the poller's counter is [attempts]. *)
Definition saving (attempts : nat) (items : list HistoryItem)
    (inProgress : list (string * Producer)) : World :=
  with_saver (fun s => set_isSaving true (set_pollers [attempts] s))
    (with_service (fun s => set_history items (set_packetsInProgress inProgress s))
      (connected (configuration true true))).

End Scenario.

(** The pages on which the properties are run. *)
Module Page.

Import Sample.

(** The player is silent / is playing the character's speech. *)
Definition silent : Collaborators := collaborators [].
Definition speaking : Collaborators := collaborators Scenario.playing.

(** The player has a current packet but nothing left to stop. *)
Definition idle : Collaborators :=
  {| convertPacketFromProto := convertPacketFromProto speaking;
     isExpired := isExpired speaking;
     generateSessionToken := generateSessionToken speaking;
     engine_loadScene := engine_loadScene speaking;
     state_getSessionState := state_getSessionState speaking;
     getCurrentPacket := getCurrentPacket speaking;
     stopForInteraction := fun _ _ => [];
     history_addOrUpdate := history_addOrUpdate speaking;
     history_filter := history_filter speaking;
     cancelResponse := cancelResponse speaking;
     ttsPlaybackMute := ttsPlaybackMute speaking;
     generateSessionToken_turns := 0;
     engine_loadScene_turns := 0;
     state_getSessionState_turns := 0;
     stopForInteraction_turns := 3;
     startSession_turns := 0 |}.

(** The player is speaking and takes three turns to stop. *)
Definition slowPlayer : Collaborators :=
  {| convertPacketFromProto := convertPacketFromProto speaking;
     isExpired := isExpired speaking;
     generateSessionToken := generateSessionToken speaking;
     engine_loadScene := engine_loadScene speaking;
     state_getSessionState := state_getSessionState speaking;
     getCurrentPacket := getCurrentPacket speaking;
     stopForInteraction := stopForInteraction speaking;
     history_addOrUpdate := history_addOrUpdate speaking;
     history_filter := history_filter speaking;
     cancelResponse := cancelResponse speaking;
     ttsPlaybackMute := ttsPlaybackMute speaking;
     generateSessionToken_turns := 0;
     engine_loadScene_turns := 0;
     state_getSessionState_turns := 0;
     stopForInteraction_turns := 3;
     startSession_turns := 0 |}.

(** Configurations: auto-reconnect on without and with interruptions, and
    auto-reconnect off. *)
Definition reconnecting : InternalClientConfiguration := configuration true false.
Definition interruptible : InternalClientConfiguration := configuration true true.
Definition manual : InternalClientConfiguration := configuration false true.

(** The cancel response for the speech of interaction "i1". *)
Definition cancelSpeech : CancelResponsesProps :=
  {| cancel_interactionId := "i1"; cancel_utteranceId := ["u3"] |}.

(** Two sends on a fresh page, then the socket opens and the timer of
    [onReady] fires. *)
Definition twoQueued : World :=
  steps silent 20 [CallSend (UserProducer hello); CallSend (UserProducer wave)]
    (newWorld reconnecting).
Definition twoFlushed : World :=
  steps silent 20 [OnSocket 0 Opened; OnFlushTimer] twoQueued.

(** The server rejects the token while "i1" is not yet acknowledged; then
    the new socket opens and the queue is flushed. *)
Definition rejected : World :=
  step silent 20 (OnSocket 0 (Received (Some (FrameError invalidToken))))
    (Scenario.waiting reconnecting).
Definition reopened : World :=
  steps silent 20 [OnSocket 1 Opened; OnFlushTimer] rejected.

(** A TEXT packet is sent on a fresh page while the player is speaking;
    then the socket opens and the queue is flushed. *)
Definition interruptingFlushed : World :=
  steps speaking 20 [CallSend (UserProducer hello); OnSocket 0 Opened; OnFlushTimer]
    (newWorld interruptible).

(** The same with the slow player: the service is ACTIVE before the
    player has answered. *)
Definition interruptingFlushedLate : World :=
  steps slowPlayer 20 [CallSend (UserProducer hello); OnSocket 0 Opened; OnFlushTimer]
    (newWorld interruptible).

(** A page whose session has expired sends a packet. *)
Definition expired : World :=
  with_service (set_session (Some staleToken)) (newWorld reconnecting).
Definition refreshed : World :=
  step silent 20 (CallSend (UserProducer wave)) expired.

End Page.

(** ** Notions used in the statements *)

(** The frames put on a socket are [wire (log w)].  Events that are
    neither a delivery to the host's [onMessage], nor an entry added to the
    history, nor audio handed to the player: *)
Definition quiet (e : Event) : Prop :=
  match e with
  | CallbackMessage _ | HistoryAddOrUpdate _ | PlayerAddToQueue _ => False
  | _ => True
  end.

(** Questions put to the audio player. *)
Definition playerQuery (e : Event) : Prop :=
  match e with
  | PlayerGetCurrentPacket | PlayerStopForInteraction _ => True
  | _ => False
  end.

(** [w'] has the log of [w] and then events that satisfy [P]. *)
Definition logs (P : Event -> Prop) (w w' : World) : Prop :=
  exists l, log w' = log w ++ l /\ Forall P l.

(** [v] has the configuration, the sockets, the transport and the
    connection state of [w]. *)
Definition sameLink (w v : World) : Prop :=
  transport v = transport w /\ sockets v = sockets w
  /\ config v = config w /\ state (service v) = state (service w).

(** The four calls of [removeEventListener] in [WebSocketConnection.close]. *)
Definition detached (sock : nat) (w : World) : World :=
  removeEventListener sock ev_message MethodOnMessage
    (removeEventListener sock ev_open MethodOnReady
      (removeEventListener sock ev_close PropsOnDisconnect
        (removeEventListener sock ev_error MethodOnError w))).

(** The socket that [WebSocketConnection.open] creates. *)
Definition freshSocket : WebSocket :=
  {| readyState := CONNECTING;
     listeners := [(ev_open, BoundOnReady); (ev_message, BoundOnMessage);
                   (ev_error, BoundOnError); (ev_close, PropsOnDisconnect)] |}.

(** The latest history entry is an interaction-end marker. *)
Definition endsWithInteractionEnd (w : World) : bool :=
  match SessionStateService.lastItem w with
  | Some item =>
      match history_type item with
      | INTERACTION_END_ITEM => true
      | _ => false
      end
  | None => false
  end.

(** The job that is left of the transport's [write item] after its [await]. *)
Definition resumeOf (E : Collaborators) (item : QueueItem) : Task :=
  WriteResume item (WebSocketConnection.producedPacket E (getPacket item))
    (convertPacketFromProto E (WebSocketConnection.producedPacket E (getPacket item))).

(** The promise of the item's [beforeWriting] hook is settled when the
    hook returns: there is no hook, or the packet is no TEXT packet. *)
Definition settlesAtOnce (E : Collaborators) (item : QueueItem) : bool :=
  match beforeWriting item with
  | None => true
  | Some (BeforeWrite _) =>
      negb (isText (convertPacketFromProto E
                      (WebSocketConnection.producedPacket E (getPacket item))))
  end.

(** What [open] hands to the transport apart from the replay. *)
Definition muteOnOpen (w : World) : list QueueItem :=
  if ConnectionService.isAutoReconnected w then
    match ConnectionService.getTtsPlaybackAction w with
    | TTS_MUTE => [ConnectionService.muteItem]
    | _ => []
    end
  else [].

(** The state in which the error handler leaves the service before it
    calls [open]. *)
Definition forgotten (w : World) : World :=
  with_service (set_state INACTIVE)
    (with_service (set_scene None) (with_service (set_session None) w)).





(** Every poller of [w] is still a poller of [w'], and its count of
    attempts has not gone down. *)
Definition pollersKept (w w' : World) : Prop :=
  forall i attempts,
    pollers (saver w) !! i = Some attempts ->
    exists attempts', pollers (saver w') !! i = Some attempts' /\ attempts <= attempts'.

(** ** The window around the save loop

    [SessionStateService] registers two listeners on [window] and starts
    repeating timers.  A listener is a function object: every evaluation
    of [this.onWindowBlur.bind(this)] makes a new one, and
    [removeEventListener] removes a listener only when it is handed the
    very object that was registered.  A repeating timer runs until
    [clearInterval] is given its id. *)

Inductive WindowEventName := ev_blur | ev_focus.

(** The function objects made by [bind]; [object] tells them apart. *)
Inductive WindowListener :=
| BoundOnWindowBlur (object : nat)
| BoundOnWindowFocus (object : nat).

(** The callbacks handed to [setInterval] by the constructor and by
    [onWindowFocus].  (The timer that [tryToSaveState] starts is a poller
    of [Saver].) *)
Inductive Interval := ConstructorInterval | FocusInterval.

(** [intervals] holds the repeating timers by id, [None] for one that was
    cleared; [intervalId] is [this.intervalId]; [objects] counts the
    function objects made so far. *)
Record Window := {
  page : World;
  windowListeners : list (WindowEventName * WindowListener);
  intervals : list (option Interval);
  intervalId : option nat;
  objects : nat
}.

Definition WindowEventName_eqb (a b : WindowEventName) : bool :=
  match a, b with
  | ev_blur, ev_blur | ev_focus, ev_focus => true
  | _, _ => false
  end.

Definition WindowListener_eqb (a b : WindowListener) : bool :=
  match a, b with
  | BoundOnWindowBlur m, BoundOnWindowBlur n => Nat.eqb m n
  | BoundOnWindowFocus m, BoundOnWindowFocus n => Nat.eqb m n
  | _, _ => false
  end.

Definition objectOf (l : WindowListener) : nat :=
  match l with
  | BoundOnWindowBlur n | BoundOnWindowFocus n => n
  end.

Definition with_page (f : World -> World) (win : Window) : Window :=
  {| page := f (page win); windowListeners := windowListeners win;
     intervals := intervals win; intervalId := intervalId win; objects := objects win |}.

(** [method.bind(this)] *)
Definition bind (method : nat -> WindowListener) (win : Window) : WindowListener * Window :=
  (method (objects win),
   {| page := page win; windowListeners := windowListeners win;
      intervals := intervals win; intervalId := intervalId win;
      objects := S (objects win) |}).

Definition window_addEventListener (e : WindowEventName) (l : WindowListener)
    (win : Window) : Window :=
  {| page := page win; windowListeners := windowListeners win ++ [(e, l)];
     intervals := intervals win; intervalId := intervalId win; objects := objects win |}.

Definition window_removeEventListener (e : WindowEventName) (l : WindowListener)
    (win : Window) : Window :=
  {| page := page win;
     windowListeners :=
       List.filter (fun r => negb (WindowEventName_eqb (fst r) e && WindowListener_eqb (snd r) l))
                   (windowListeners win);
     intervals := intervals win; intervalId := intervalId win; objects := objects win |}.

(** [setInterval(callback, ..)] gives the id of the new timer. *)
Definition setInterval (callback : Interval) (win : Window) : nat * Window :=
  (length (intervals win),
   {| page := page win; windowListeners := windowListeners win;
      intervals := intervals win ++ [Some callback]; intervalId := intervalId win;
      objects := objects win |}).

(** The host's [clearInterval(id)]; with [undefined] it does nothing. *)
Definition host_clearInterval (id : option nat) (win : Window) : Window :=
  match id with
  | Some i =>
      {| page := page win; windowListeners := windowListeners win;
         intervals := <[i := None]> (intervals win); intervalId := intervalId win;
         objects := objects win |}
  | None => win
  end.

Module SessionStateWindow.

(** The constructor.  The id that [setInterval] gives back is dropped. *)
Definition constructor (win : Window) : Window :=
  let (blur, win) := bind BoundOnWindowBlur win in
  let win := window_addEventListener ev_blur blur win in
  let (focus, win) := bind BoundOnWindowFocus win in
  let win := window_addEventListener ev_focus focus win in
  snd (setInterval ConstructorInterval win).

Definition clearInterval (win : Window) : Window :=
  let win := host_clearInterval (intervalId win) win in
  {| page := page win; windowListeners := windowListeners win;
     intervals := intervals win; intervalId := None; objects := objects win |}.

Definition destroy (win : Window) : Window :=
  let win := clearInterval win in
  let (blur, win) := bind BoundOnWindowBlur win in
  let win := window_removeEventListener ev_blur blur win in
  let (focus, win) := bind BoundOnWindowFocus win in
  window_removeEventListener ev_focus focus win.

Definition onWindowBlur (win : Window) : Window :=
  with_page SessionStateService.onWindowBlur win.

(** [onWindowFocus]: the flag, and one more repeating timer. *)
Definition onWindowFocus (win : Window) : Window :=
  let win := with_page SessionStateService.onWindowFocus win in
  snd (setInterval FocusInterval win).

End SessionStateWindow.

Definition callWindowListener (l : WindowListener) (win : Window) : Window :=
  match l with
  | BoundOnWindowBlur _ => SessionStateWindow.onWindowBlur win
  | BoundOnWindowFocus _ => SessionStateWindow.onWindowFocus win
  end.

(** The window gets an event: the listeners registered for it are called
    in the order of their registration. *)
Definition fireWindow (e : WindowEventName) (win : Window) : Window :=
  fold_left (fun win l => callWindowListener l win)
    (map snd (List.filter (fun r => WindowEventName_eqb (fst r) e) (windowListeners win)))
    win.

(** The repeating timer with id [i] fires, if it has not been cleared. *)
Definition fireInterval (i : nat) (win : Window) : Window :=
  match intervals win !! i with
  | Some (Some ConstructorInterval) => with_page SessionStateService.intervalTick win
  | Some (Some FocusInterval) => with_page SessionStateService.tryToSaveState win
  | _ => win
  end.

(** A window in which no service has been constructed yet. *)
Definition newWindow (w : World) : Window :=
  {| page := w; windowListeners := []; intervals := []; intervalId := None; objects := 0 |}.

(** The function objects that are registered have been made before. *)
Definition registeredBefore (win : Window) : Prop :=
  Forall (fun r => objectOf (snd r) < objects win) (windowListeners win).

(** Pages on which something goes wrong, and a page with an idle timeout. *)
Module Trouble.

Import Sample.

(** The token generator fails. *)
Definition offline : Collaborators :=
  {| convertPacketFromProto := convertPacketFromProto Page.silent;
     isExpired := isExpired Page.silent;
     generateSessionToken := fun _ => Err "Failed to fetch";
     engine_loadScene := engine_loadScene Page.silent;
     state_getSessionState := state_getSessionState Page.silent;
     getCurrentPacket := getCurrentPacket Page.silent;
     stopForInteraction := stopForInteraction Page.silent;
     history_addOrUpdate := history_addOrUpdate Page.silent;
     history_filter := history_filter Page.silent;
     cancelResponse := cancelResponse Page.silent;
     ttsPlaybackMute := ttsPlaybackMute Page.silent;
     generateSessionToken_turns := 1;
     engine_loadScene_turns := 0;
     state_getSessionState_turns := 0;
     stopForInteraction_turns := 0;
     startSession_turns := 0 |}.

(** The connection is closed after a second without traffic. *)
Definition idling : InternalClientConfiguration :=
  {| autoReconnect := Some true; disconnectTimeout := 1000;
     interruptions := false; history_previousState := false |}.

(** The stored snapshot is the text that a failed save leaves behind. *)
Definition spoiled : World :=
  with_localStorage (Some StoredUndefined) (newWorld Page.reconnecting).


(** The window after the save loop has been constructed. *)
Definition watched : Window :=
  SessionStateWindow.constructor (newWindow (newWorld Page.reconnecting)).

End Trouble.
(** * Properties *)

(** ** Proof tools *)

(** Case analysis on a test of the goal that contains no other test. *)
Ltac case_inner :=
  match goal with
  | |- context [match ?x with _ => _ end] =>
      lazymatch x with
      | context [match _ with _ => _ end] => fail
      | _ => destruct x eqn:?
      end
  end.

Ltac run_cases := cbn; repeat (case_inner; cbn).

Lemma wire_app (l l' : list Event) : wire (l ++ l') = wire l ++ wire l'.
Proof. unfold wire. apply omap_app. Qed.

Ltac solve_logs :=
  eexists; split;
  [ first [ symmetry; apply app_nil_r | repeat rewrite <- app_assoc; reflexivity ]
  | repeat constructor ].

(** ** Objects as maps *)

Lemma object_get_delete {V : Type} (key : string) (obj : list (string * V)) :
  object_get key (object_delete key obj) = None.
Proof.
  induction obj as [|[k v] rest IH]; simpl; [reflexivity|].
  destruct (String.eqb k key) eqn:Hk; [exact IH|].
  simpl. rewrite Hk. exact IH.
Qed.

Lemma object_keys_delete {V : Type} (key : string) (obj : list (string * V)) :
  ~ In key (object_keys (object_delete key obj)).
Proof.
  induction obj as [|[k v] rest IH]; simpl; [tauto|].
  destruct (String.eqb k key) eqn:Hk; [exact IH|].
  simpl. intros [Heq|Hin]; [|tauto].
  subst k. rewrite String.eqb_refl in Hk. discriminate.
Qed.

(** ** Packets *)

Lemma isInteractionEnd_not_text (p : InworldPacket) :
  isInteractionEnd p = true ->
  isText p = false /\ isAudio p = false /\ isSilence p = false.
Proof.
  unfold isInteractionEnd, isControl, isText, isAudio, isSilence.
  destruct (inworld_type p); simpl; intros H; try discriminate; auto.
Qed.


(** ** The service *)

Section ServiceFacts.

Context (E : Collaborators).

Lemma addPacketToHistory_service packet w :
  service (ConnectionService.addPacketToHistory E packet w)
  = set_history (fst (history_addOrUpdate E packet (history (service w)))) (service w).
Proof.
  unfold ConnectionService.addPacketToHistory.
  destruct (history_addOrUpdate E packet (history (service w))) as [entries changed].
  destruct changed; reflexivity.
Qed.

(** What [send] leaves alone before its first [await]: the history and
    the cancel markers; and it tells the host's [onMessage] nothing. *)
Lemma send_frame g w :
  history (service (ConnectionService.send E g w)) = history (service w)
  /\ cancelResponses (service (ConnectionService.send E g w)) = cancelResponses (service w)
  /\ logs quiet w (ConnectionService.send E g w).
Proof.
  unfold logs.
  unfold ConnectionService.send, ConnectionService.write, ConnectionService.onError,
    ConnectionService.open, ConnectionService.getPacketsToSentOnOpen,
    ConnectionService.loadScene, ConnectionService.ensureSessionToken,
    WebSocketConnection.write, ConnectionService.callBefore,
    ConnectionService.interruptByPacket, ConnectionService.beforeWritingResume,
    ConnectionService.recordInProgress, ConnectionService.cancelScheduler,
    ConnectionService.isActive, ConnectionService.isAutoReconnected,
    WebSocketConnection.isActive, ConnectionService.queueItem.
  run_cases; (split; [reflexivity | split; [reflexivity | solve_logs]]).
Qed.

End ServiceFacts.

Section InteractionEnd.

Context (E : Collaborators).

(** C4.  After the inbound handler has processed an interaction-end packet
    of interaction [I], neither [packetsInProgress] nor [cancelResponses]
    has an entry for [I]. *)
Theorem C4_interaction_end_clears_both_maps (w : World) (packet : ProtoPacket) :
  isInteractionEnd (convertPacketFromProto E packet) = true ->
  let I := interactionId (inworld_packetId (convertPacketFromProto E packet)) in
  let w' := ConnectionService.onMessage E packet w in
  object_get I (packetsInProgress (service w')) = None
  /\ ~ In I (object_keys (packetsInProgress (service w')))
  /\ cancelResponses (service w') !! I = None.
Proof.
  intros Hend I w'.
  destruct (isInteractionEnd_not_text _ Hend) as (Htext & Haudio & Hsilence).
  assert (Hs : service w' =
    set_history
      (fst (history_addOrUpdate E (convertPacketFromProto E packet) (history (service w))))
      (set_cancelResponses (delete I (cancelResponses (service w)))
        (set_packetsInProgress (object_delete I (packetsInProgress (service w)))
          (service w)))).
  { subst w'. unfold ConnectionService.onMessage.
    rewrite Hend, Htext. simpl.
    unfold ConnectionService.onMessageResume.
    rewrite Hend, Haudio, Hsilence. simpl.
    rewrite addPacketToHistory_service. reflexivity. }
  rewrite Hs. simpl. split; [|split].
  - apply object_get_delete.
  - apply object_keys_delete.
  - apply lookup_delete_eq.
Qed.

End InteractionEnd.

Section ServiceShapes.

Context (E : Collaborators).

Lemma open_frame w :
  transport (ConnectionService.open E w) = transport w
  /\ sockets (ConnectionService.open E w) = sockets w
  /\ history (service (ConnectionService.open E w)) = history (service w)
  /\ cancelResponses (service (ConnectionService.open E w)) = cancelResponses (service w).
Proof.
  unfold ConnectionService.open, ConnectionService.getPacketsToSentOnOpen,
    ConnectionService.loadScene, ConnectionService.ensureSessionToken.
  run_cases; repeat split; reflexivity.
Qed.

(** What [sendCancelResponses] does around its call of [send]. *)
Lemma sendCancelResponses_shape props characters w :
  truthy (cancel_interactionId props) = true ->
  let sent := ConnectionService.send E (CancelResponseProducer props characters) w in
  let w' := ConnectionService.sendCancelResponses E props characters w in
  transport w' = transport sent
  /\ sockets w' = sockets sent
  /\ microtasks w' = microtasks sent
  /\ log w' = log sent ++ [CallbackInterruption props; HistoryFilter props]
  /\ history (service w') = history_filter E props (history (service w))
  /\ cancelResponses (service w')
     = <[cancel_interactionId props := true]> (cancelResponses (service w)).
Proof.
  intros Hid sent w'. subst w'. unfold ConnectionService.sendCancelResponses.
  rewrite Hid. fold sent. cbn.
  destruct (send_frame E (CancelResponseProducer props characters) w) as (Hh & Hc & _).
  fold sent in Hh, Hc. rewrite Hh, Hc, <- app_assoc.
  repeat split; reflexivity.
Qed.

(** [send] on a live connection, for a packet that is no text: the rest
    of the transport's [write] is the only new job. *)
Lemma send_live g w :
  ConnectionService.isActive w = true ->
  WebSocketConnection.isActive w = true ->
  let packet := WebSocketConnection.producedPacket E g in
  let inworldPacket := convertPacketFromProto E packet in
  isText inworldPacket = false ->
  ConnectionService.send E g w
  = enqueue (WriteResume (ConnectionService.queueItem g) packet inworldPacket)
      (ConnectionService.recordInProgress g inworldPacket
         (ConnectionService.cancelScheduler w)).
Proof.
  intros Hactive Hopen packet inworldPacket Htext.
  unfold ConnectionService.send.
  assert (Ha : ConnectionService.isActive (ConnectionService.cancelScheduler w) = true)
    by exact Hactive.
  rewrite Ha. cbn [negb andb].
  unfold ConnectionService.write, WebSocketConnection.write.
  assert (Ho : WebSocketConnection.isActive (ConnectionService.cancelScheduler w) = true)
    by exact Hopen.
  rewrite Ho. cbn [beforeWriting ConnectionService.queueItem getPacket].
  fold packet. fold inworldPacket.
  unfold ConnectionService.callBefore. rewrite Htext.
  unfold ConnectionService.beforeWritingResume.
  assert (Hb : forall t v, ConnectionService.isActive
            (enqueue t (ConnectionService.recordInProgress g inworldPacket v))
          = ConnectionService.isActive v).
  { intros t v. unfold ConnectionService.recordInProgress.
    destruct (isText inworldPacket || isAudio inworldPacket); reflexivity. }
  rewrite Hb, Ha. reflexivity.
Qed.

End ServiceShapes.

(** ** The microtask queue *)

Section QueueFacts.

Context (E : Collaborators).

Lemma drain_empty fuel w : microtasks w = [] -> drain E fuel w = w.
Proof. intros H. destruct fuel; simpl; [reflexivity|]. rewrite H. reflexivity. Qed.

Lemma drain_next fuel t rest w :
  microtasks w = t :: rest ->
  drain E (S fuel) w = drain E fuel (run E t (with_microtasks rest w)).
Proof. intros H. simpl. rewrite H. reflexivity. Qed.

(** A promise that stays pending for [n] turns, alone in the queue. *)
Lemma drain_delay n t fuel w :
  microtasks w = [Delay n t] ->
  drain E (S n + fuel) w = drain E fuel (run E t (with_microtasks [] w)).
Proof.
  revert w. induction n as [|n IH]; intros w H.
  - rewrite (drain_next _ _ _ _ H). reflexivity.
  - change (S (S n) + fuel) with (S (S n + fuel)).
    rewrite (drain_next _ _ _ _ H). cbn [run].
    rewrite IH by reflexivity. reflexivity.
Qed.

End QueueFacts.

Section SendFacts.

Context (E : Collaborators).

Lemma wire_playerQuery (l : list Event) : Forall playerQuery l -> wire l = [].
Proof.
  induction 1 as [|e l He _ IH]; [reflexivity|].
  destruct e; try contradiction; exact IH.
Qed.

(** C10.  [interrupt()], when the player has no current packet or when
    [stopForInteraction] gives back no packet, changes nothing: the service
    (state, cancel markers, packets in progress, history) and the transport
    are as before, nothing is put on the wire or left to be written, and
    the host hears nothing; only the player was asked. *)
Theorem C10_interrupt_without_playback_changes_nothing (w : World) (fuel : nat) :
  microtasks w = [] ->
  (getCurrentPacket E (calls w) = None
   \/ exists packet, getCurrentPacket E (calls w) = Some packet
        /\ stopForInteraction E (S (calls w)) (interactionId (inworld_packetId packet)) = []) ->
  stopForInteraction_turns E + 2 <= fuel ->
  let w' := step E fuel CallInterrupt w in
  service w' = service w
  /\ transport w' = transport w
  /\ sockets w' = sockets w
  /\ microtasks w' = []
  /\ wire (log w') = wire (log w)
  /\ exists l, log w' = log w ++ l /\ Forall playerQuery l.
Proof.
  intros Hq Hplayer Hfuel w'.
  assert (Hgoal : service w' = service w /\ transport w' = transport w
                  /\ sockets w' = sockets w /\ microtasks w' = []
                  /\ exists l, log w' = log w ++ l /\ Forall playerQuery l).
  { subst w'. unfold step, act, ConnectionService.interrupt.
    destruct Hplayer as [Hnone | (packet & Hsome & Hstop)].
    - rewrite Hnone. rewrite drain_empty by exact Hq.
      cbn. repeat split; try assumption. solve_logs.
    - rewrite Hsome. unfold ConnectionService.interruptByPacket.
      cbn [config called emit calls].
      destruct (negb (interruptions (config w))).
      + destruct fuel as [|fuel]; [lia|].
        rewrite (drain_next E fuel Done []) by (cbn; rewrite Hq; reflexivity).
        rewrite drain_empty by reflexivity.
        cbn. repeat split. solve_logs.
      + rewrite Hstop.
        replace fuel with (S (stopForInteraction_turns E) + (fuel - S (stopForInteraction_turns E)))
          by lia.
        rewrite (drain_delay E _ (InterruptResume [] Done))
          by (cbn; rewrite Hq; reflexivity).
        destruct (fuel - S (stopForInteraction_turns E)) as [|fuel'] eqn:Hf; [lia|].
        rewrite (drain_next E fuel' Done []) by reflexivity.
        rewrite drain_empty by reflexivity.
        cbn. repeat split. solve_logs. }
  destruct Hgoal as (Hs & Ht & Hk & Hm & l & Hl & Hall).
  repeat split; try assumption.
  - rewrite Hl, wire_app, (wire_playerQuery l Hall). apply app_nil_r.
  - exists l. split; assumption.
Qed.

(** [send] when sending is allowed. *)
Lemma send_delegates (w : World) (g : Producer) :
  ConnectionService.isActive w = true \/ ConnectionService.isAutoReconnected w = true ->
  let written :=
    WebSocketConnection.write E (ConnectionService.callBefore E)
      (ConnectionService.queueItem g) (ConnectionService.cancelScheduler w) in
  ConnectionService.send E g w
  = (if ConnectionService.isActive w then written else ConnectionService.open E written)
  /\ (WebSocketConnection.isActive w = false ->
      packetQueue (transport (ConnectionService.send E g w))
      = packetQueue (transport w) ++ [ConnectionService.queueItem g]).
Proof.
  intros Hpermitted written.
  assert (Hsame : ConnectionService.isActive written = ConnectionService.isActive w).
  { subst written.
    unfold WebSocketConnection.write, ConnectionService.callBefore,
      ConnectionService.interruptByPacket, ConnectionService.beforeWritingResume,
      ConnectionService.recordInProgress, ConnectionService.isActive.
    run_cases; reflexivity. }
  assert (Heq : ConnectionService.send E g w
                = if ConnectionService.isActive w then written
                  else ConnectionService.open E written).
  { unfold ConnectionService.send.
    assert (Hgate : negb (ConnectionService.isActive (ConnectionService.cancelScheduler w))
                    && negb (ConnectionService.isAutoReconnected
                               (ConnectionService.cancelScheduler w)) = false).
    { change (negb (ConnectionService.isActive w)
              && negb (ConnectionService.isAutoReconnected w) = false).
      destruct Hpermitted as [H|H]; rewrite H; simpl;
        [reflexivity | apply andb_false_r]. }
    rewrite Hgate. unfold ConnectionService.write. fold written.
    rewrite Hsame. reflexivity. }
  split; [exact Heq|].
  intros Hclosed. rewrite Heq.
  assert (Hq : packetQueue (transport written)
               = packetQueue (transport w) ++ [ConnectionService.queueItem g]).
  { subst written. unfold WebSocketConnection.write.
    assert (Ho : WebSocketConnection.isActive (ConnectionService.cancelScheduler w) = false)
      by exact Hclosed.
    rewrite Ho. reflexivity. }
  destruct (ConnectionService.isActive w); [exact Hq|].
  destruct (open_frame E written) as (Ht & _). rewrite Ht. exact Hq.
Qed.




End SendFacts.

Section InboundFacts.

Context (E : Collaborators).

(** The rest of the transport's [write] on an open socket. *)
Lemma writeResume_live sock item packet inworldPacket w :
  ws (transport w) = Some sock ->
  socketState sock w = Some OPEN ->
  WebSocketConnection.writeResume (ConnectionService.callAfter E) item packet inworldPacket w
  = match afterWriting item with
    | Some hook => ConnectionService.callAfter E hook inworldPacket (emit (SocketSend sock packet) w)
    | None => emit (SocketSend sock packet) w
    end.
Proof.
  intros Hws Hopen. unfold WebSocketConnection.writeResume. rewrite Hws, Hopen. reflexivity.
Qed.

Lemma isActive_socket w :
  WebSocketConnection.isActive w = true ->
  exists sock, ws (transport w) = Some sock /\ socketState sock w = Some OPEN.
Proof.
  unfold WebSocketConnection.isActive. intros H.
  destruct (ws (transport w)) as [sock|]; [|discriminate].
  exists sock. split; [reflexivity|].
  destruct (socketState sock w) as [[]|]; try discriminate. reflexivity.
Qed.

(** The hook [AfterWrite] puts nothing on the wire and queues no job. *)
Lemma callAfter_AfterWrite packet w :
  let w' := ConnectionService.callAfter E AfterWrite packet w in
  wire (log w') = wire (log w) /\ microtasks w' = microtasks w
  /\ transport w' = transport w /\ sockets w' = sockets w
  /\ state (service w') = state (service w)
  /\ config w' = config w.
Proof.
  unfold ConnectionService.callAfter, ConnectionService.addPacketToHistory,
    ConnectionService.scheduleDisconnect, ConnectionService.cancelScheduler.
  run_cases; rewrite ?wire_app; cbn; rewrite ?app_nil_r; repeat split; reflexivity.
Qed.

(** A cancel response sent on a live connection reaches the wire at the
    next turn of the microtask queue. *)
Lemma sendCancelResponses_live props characters w :
  truthy (cancel_interactionId props) = true ->
  ConnectionService.isActive w = true ->
  WebSocketConnection.isActive w = true ->
  isText (convertPacketFromProto E (cancelResponse E props characters)) = false ->
  let w' := ConnectionService.sendCancelResponses E props characters w in
  microtasks w'
  = microtasks w ++
    [WriteResume (ConnectionService.queueItem (CancelResponseProducer props characters))
       (cancelResponse E props characters)
       (convertPacketFromProto E (cancelResponse E props characters))]
  /\ transport w' = transport w /\ sockets w' = sockets w
  /\ state (service w') = state (service w) /\ config w' = config w
  /\ wire (log w') = wire (log w).
Proof.
  intros Hid Hactive Hopen Htext w'.
  destruct (sendCancelResponses_shape E props characters w Hid)
    as (Ht & Hk & Hm & Hl & _ & _).
  fold w' in Ht, Hk, Hm, Hl.
  assert (Hstate : state (service w')
                   = state (service (ConnectionService.send E (CancelResponseProducer props characters) w))
                   /\ config w'
                   = config (ConnectionService.send E (CancelResponseProducer props characters) w)).
  { subst w'. unfold ConnectionService.sendCancelResponses. rewrite Hid. split; reflexivity. }
  destruct Hstate as (Hst & Hcf).
  rewrite Ht, Hk, Hm, Hl, Hst, Hcf, wire_app.
  rewrite (send_live E (CancelResponseProducer props characters) w Hactive Hopen Htext).
  unfold ConnectionService.recordInProgress.
  destruct (isText _ || isAudio _); cbn; rewrite app_nil_r; repeat split; reflexivity.
Qed.


End InboundFacts.

Section InterruptionFacts.

Context (E : Collaborators).

Lemma sameLink_trans w1 w2 w3 : sameLink w1 w2 -> sameLink w2 w3 -> sameLink w1 w3.
Proof.
  intros (A1 & A2 & A3 & A4) (B1 & B2 & B3 & B4).
  repeat split; etransitivity; eassumption.
Qed.

Lemma sameLink_live w v :
  sameLink w v ->
  WebSocketConnection.isActive v = WebSocketConnection.isActive w
  /\ ConnectionService.isActive v = ConnectionService.isActive w.
Proof.
  intros (Ht & Hk & _ & Hs).
  unfold WebSocketConnection.isActive, ConnectionService.isActive, socketState.
  rewrite Ht, Hk, Hs. split; reflexivity.
Qed.

(** One turn of the queue: the rest of a [write] of the service on an
    open socket puts the packet on the wire. *)
Lemma run_WriteResume_live g packet inworldPacket v :
  WebSocketConnection.isActive v = true ->
  let v' := run E (WriteResume (ConnectionService.queueItem g) packet inworldPacket) v in
  wire (log v') = wire (log v) ++ [packet]
  /\ microtasks v' = microtasks v
  /\ sameLink v v'.
Proof.
  intros Hopen v'. subst v'. cbn [run].
  destruct (isActive_socket v Hopen) as (sock & Hws & Hsock).
  rewrite (writeResume_live E sock _ _ _ _ Hws Hsock).
  cbn [afterWriting ConnectionService.queueItem].
  destruct (callAfter_AfterWrite E inworldPacket (emit (SocketSend sock packet) v))
    as (Hw & Hm & Ht & Hk & Hs & Hc).
  rewrite Hw, Hm. cbn [log emit]. rewrite wire_app.
  repeat split; assumption.
Qed.

(** One turn of the queue: the end of the hook [beforeWriting]. *)
Lemma run_BeforeWritingResume g packet next v :
  let v' := run E (BeforeWritingResume g packet next) v in
  log v' = log v
  /\ microtasks v' = microtasks v ++ [next]
  /\ sameLink v v'.
Proof.
  cbn [run]. unfold ConnectionService.beforeWritingResume, ConnectionService.recordInProgress.
  destruct (isText packet || isAudio packet); repeat split.
Qed.

(** [send] of a text packet on a live connection with interruptions on:
    the player is asked to stop, and everything else waits for its answer. *)
Lemma send_live_text g w :
  ConnectionService.isActive w = true ->
  WebSocketConnection.isActive w = true ->
  interruptions (config w) = true ->
  let packet := WebSocketConnection.producedPacket E g in
  let inworldPacket := convertPacketFromProto E packet in
  isText inworldPacket = true ->
  ConnectionService.send E g w
  = enqueue
      (Delay (stopForInteraction_turns E)
         (InterruptResume
            (stopForInteraction E (calls w) (interactionId (inworld_packetId inworldPacket)))
            (BeforeWritingResume g inworldPacket
               (WriteResume (ConnectionService.queueItem g) packet inworldPacket))))
      (called (emit (PlayerStopForInteraction (interactionId (inworld_packetId inworldPacket)))
                 (ConnectionService.cancelScheduler w))).
Proof.
  intros Hactive Hopen Hint packet inworldPacket Htext.
  destruct (send_delegates E w g (or_introl Hactive)) as (Heq & _).
  rewrite Heq, Hactive.
  unfold WebSocketConnection.write.
  assert (Ho : WebSocketConnection.isActive (ConnectionService.cancelScheduler w) = true)
    by exact Hopen.
  rewrite Ho. cbn [beforeWriting ConnectionService.queueItem getPacket].
  fold packet. fold inworldPacket.
  unfold ConnectionService.callBefore. rewrite Htext.
  unfold ConnectionService.interruptByPacket.
  cbn [config ConnectionService.cancelScheduler with_service].
  rewrite Hint. reflexivity.
Qed.

(** C2.  A TEXT packet is sent through the service on a live connection
    with interruptions enabled, while the player holds utterances of the
    packet's interaction and stops them.  Then a CANCEL_RESPONSE packet
    that names this interaction and the stopped utterances is put on the
    wire, and the TEXT packet after it; nothing else is put on the wire. *)
Theorem C2_cancel_response_precedes_text (w : World) (g : Producer)
    (first : InworldPacket) (others : list InworldPacket) (fuel : nat) :
  let packet := WebSocketConnection.producedPacket E g in
  let inworldPacket := convertPacketFromProto E packet in
  let I := interactionId (inworld_packetId inworldPacket) in
  let stopped := first :: others in
  let props :=
    {| cancel_interactionId := I;
       cancel_utteranceId := map (fun p => utteranceId (inworld_packetId p)) stopped |} in
  let characters := map (fun p => {| id := name (source (inworld_routing p)) |}) stopped in
  microtasks w = [] ->
  ConnectionService.isActive w = true ->
  WebSocketConnection.isActive w = true ->
  interruptions (config w) = true ->
  isText inworldPacket = true ->
  truthy I = true ->
  stopForInteraction E (calls w) I = stopped ->
  Forall (fun p => interactionId (inworld_packetId p) = I) stopped ->
  isText (convertPacketFromProto E (cancelResponse E props characters)) = false ->
  stopForInteraction_turns E + 4 <= fuel ->
  let w' := step E fuel (CallSend g) w in
  wire (log w') = wire (log w) ++ [cancelResponse E props characters; packet]
  /\ microtasks w' = [].
Proof.
  intros packet inworldPacket I stopped props characters
         Hq Hactive Hopen Hint Htext Hid Hstop Hsame Hcancel Hfuel w'.
  subst w'. unfold step, act.
  rewrite (send_live_text g w Hactive Hopen Hint Htext).
  fold packet. fold inworldPacket. fold I. rewrite Hstop.
  set (next := BeforeWritingResume g inworldPacket
                 (WriteResume (ConnectionService.queueItem g) packet inworldPacket)).
  set (w1 := called (emit (PlayerStopForInteraction I) (ConnectionService.cancelScheduler w))).
  replace fuel with (S (stopForInteraction_turns E) + (fuel - S (stopForInteraction_turns E)))
    by lia.
  rewrite (drain_delay E _ (InterruptResume stopped next))
    by (cbn; rewrite Hq; reflexivity).
  remember (fuel - S (stopForInteraction_turns E)) as k eqn:Hk.
  assert (Hk3 : 3 <= k) by lia. clear Hk Hfuel.
  (* the player's answer has arrived *)
  set (w2 := with_microtasks [] (enqueue (Delay (stopForInteraction_turns E)
                                            (InterruptResume stopped next)) w1)).
  assert (L2 : sameLink w w2) by (repeat split).
  assert (Hw2 : wire (log w2) = wire (log w)).
  { cbn. rewrite wire_app. apply app_nil_r. }
  cbn [run]. unfold ConnectionService.interruptResume.
  assert (Hfirst : interactionId (inworld_packetId first) = I)
    by (inversion Hsame; assumption).
  change (match stopped with
          | [] => w2
          | first0 :: _ =>
              ConnectionService.sendCancelResponses E
                {| cancel_interactionId := interactionId (inworld_packetId first0);
                   cancel_utteranceId := map (fun p => utteranceId (inworld_packetId p)) stopped |}
                (map (fun p => {| id := name (source (inworld_routing p)) |}) stopped) w2
          end)
    with (ConnectionService.sendCancelResponses E
            {| cancel_interactionId := interactionId (inworld_packetId first);
               cancel_utteranceId := map (fun p => utteranceId (inworld_packetId p)) stopped |}
            characters w2).
  rewrite Hfirst. fold props.
  destruct (sameLink_live w w2 L2) as (Ho2 & Ha2).
  rewrite Hopen in Ho2. rewrite Hactive in Ha2.
  destruct (sendCancelResponses_live E props characters w2 Hid Ha2 Ho2 Hcancel)
    as (Hm3 & Ht3 & Hk3' & Hs3 & Hc3 & Hw3).
  set (w3 := ConnectionService.sendCancelResponses E props characters w2) in *.
  assert (L3 : sameLink w w3).
  { apply (sameLink_trans w w2 w3 L2). repeat split; assumption. }
  (* the cancel response is written *)
  destruct k as [|k]; [lia|].
  rewrite (drain_next E k
             (WriteResume (ConnectionService.queueItem (CancelResponseProducer props characters))
                (cancelResponse E props characters)
                (convertPacketFromProto E (cancelResponse E props characters)))
             [next])
    by (cbn; rewrite Hm3; reflexivity).
  set (w4 := with_microtasks [next] (enqueue next w3)).
  assert (L4 : sameLink w w4) by (apply (sameLink_trans w w3 w4 L3); repeat split).
  destruct (sameLink_live w w4 L4) as (Ho4 & _). rewrite Hopen in Ho4.
  destruct (run_WriteResume_live (CancelResponseProducer props characters)
              (cancelResponse E props characters)
              (convertPacketFromProto E (cancelResponse E props characters)) w4 Ho4)
    as (Hw5 & Hm5 & L5).
  set (w5 := run E _ w4) in *.
  (* the hook of the text packet ends *)
  destruct k as [|k]; [lia|].
  rewrite (drain_next E k next []) by (rewrite Hm5; reflexivity).
  destruct (run_BeforeWritingResume g inworldPacket
              (WriteResume (ConnectionService.queueItem g) packet inworldPacket)
              (with_microtasks [] w5)) as (Hl6 & Hm6 & L6).
  fold next in Hl6, Hm6, L6.
  set (w6 := run E next (with_microtasks [] w5)) in *.
  assert (L6' : sameLink w w6).
  { apply (sameLink_trans w w4 w6 L4). apply (sameLink_trans w4 w5 w6 L5).
    apply (sameLink_trans w5 (with_microtasks [] w5) w6); [repeat split | exact L6]. }
  (* the text packet is written *)
  destruct k as [|k]; [lia|].
  rewrite (drain_next E k (WriteResume (ConnectionService.queueItem g) packet inworldPacket) [])
    by (rewrite Hm6; reflexivity).
  assert (L7 : sameLink w (with_microtasks [] w6))
    by (apply (sameLink_trans w w6 _ L6'); repeat split).
  destruct (sameLink_live w _ L7) as (Ho7 & _). rewrite Hopen in Ho7.
  destruct (run_WriteResume_live g packet inworldPacket (with_microtasks [] w6) Ho7)
    as (Hw8 & Hm8 & _).
  rewrite drain_empty by (rewrite Hm8; reflexivity).
  split; [|rewrite Hm8; reflexivity].
  rewrite Hw8.
  change (log (with_microtasks [] w6)) with (log w6). rewrite Hl6.
  change (log (with_microtasks [] w5)) with (log w5). rewrite Hw5.
  change (log w4) with (log w3). rewrite Hw3, Hw2, <- app_assoc. reflexivity.
Qed.

End InterruptionFacts.

(** ** Closing the transport *)

Section CloseFacts.

Lemma socket_update_readyState sock f w :
  (forall s, readyState (f s) = readyState s) ->
  map readyState (sockets (socket_update sock f w)) = map readyState (sockets w).
Proof.
  intros Hf. unfold socket_update. cbn.
  destruct (sockets w !! sock) as [s|] eqn:Hs; [|reflexivity].
  change (readyState <$> <[sock := f s]> (sockets w) = readyState <$> sockets w).
  rewrite list_fmap_insert, Hf.
  apply list_insert_id. rewrite list_lookup_fmap, Hs. reflexivity.
Qed.

Lemma removeEventListener_readyState sock e l w :
  map readyState (sockets (removeEventListener sock e l w)) = map readyState (sockets w).
Proof. apply socket_update_readyState. reflexivity. Qed.

Lemma socketState_map sock w v :
  map readyState (sockets v) = map readyState (sockets w) ->
  socketState sock v = socketState sock w.
Proof.
  intros H. unfold socketState.
  rewrite <- !list_lookup_fmap.
  change (map readyState (sockets v) !! sock = map readyState (sockets w) !! sock).
  rewrite H. reflexivity.
Qed.

Lemma listenersFor_removed sock e l w :
  ~ In l (listenersFor sock e (removeEventListener sock e l w)).
Proof.
  unfold listenersFor, removeEventListener, socket_update. cbn.
  destruct (sockets w !! sock) as [s|] eqn:Hs.
  - rewrite list_lookup_insert_eq by (eapply lookup_lt_Some; exact Hs).
    cbn. intros Hin. apply in_map_iff in Hin. destruct Hin as ([e' l'] & Heq & Hin).
    cbn in Heq. subst l'.
    apply filter_In in Hin. destruct Hin as (Hin & He).
    apply filter_In in Hin. destruct Hin as (_ & Hneg).
    cbn in He, Hneg. rewrite He in Hneg.
    destruct l; discriminate.
  - rewrite Hs. tauto.
Qed.

(** Removing a listener of another event, or another listener, keeps
    the listeners of [e] that are not the removed object. *)
Lemma listenersFor_remove_other sock e e' l l' w :
  ~ In l (listenersFor sock e w) ->
  ~ In l (listenersFor sock e (removeEventListener sock e' l' w)).
Proof.
  unfold listenersFor, removeEventListener, socket_update. cbn.
  destruct (sockets w !! sock) as [s|] eqn:Hs.
  - rewrite list_lookup_insert_eq by (eapply lookup_lt_Some; exact Hs).
    cbn. intros Hnot Hin. apply Hnot.
    apply in_map_iff in Hin. destruct Hin as ([e0 l0] & Heq & Hin).
    cbn in Heq. subst l0.
    apply filter_In in Hin. destruct Hin as (Hin & He).
    apply filter_In in Hin. destruct Hin as (Hin & _).
    apply in_map_iff. exists (e0, l). split; [reflexivity|].
    apply filter_In. split; assumption.
  - rewrite Hs. tauto.
Qed.

Lemma listenersFor_readyState sock e v w :
  listenersFor sock e (socket_update sock (set_readyState v) w) = listenersFor sock e w.
Proof.
  unfold listenersFor, socket_update. cbn.
  destruct (sockets w !! sock) as [s|] eqn:Hs.
  - rewrite list_lookup_insert_eq by (eapply lookup_lt_Some; exact Hs). reflexivity.
  - rewrite Hs. reflexivity.
Qed.

Lemma socketState_readyState sock v w :
  is_Some (sockets w !! sock) ->
  socketState sock (socket_update sock (set_readyState v) w) = Some v.
Proof.
  intros [s Hs]. unfold socketState, socket_update. cbn. rewrite Hs.
  rewrite list_lookup_insert_eq by (eapply lookup_lt_Some; exact Hs). reflexivity.
Qed.

Lemma detached_frame sock w :
  transport (detached sock w) = transport w
  /\ log (detached sock w) = log w
  /\ map readyState (sockets (detached sock w)) = map readyState (sockets w)
  /\ ~ In PropsOnDisconnect (listenersFor sock ev_close (detached sock w)).
Proof.
  unfold detached. repeat split.
  - rewrite !removeEventListener_readyState. reflexivity.
  - do 2 apply listenersFor_remove_other. apply listenersFor_removed.
Qed.

Lemma close_unfold w :
  WebSocketConnection.close ConnectionService.onDisconnect w
  = match ws (transport w) with
    | Some sock =>
        let w1 := detached sock w in
        let w2 :=
          if WebSocketConnection.isActive w then
            ConnectionService.onDisconnect
              (emit (SocketClose sock) (socket_update sock (set_readyState CLOSING) w1))
          else w1 in
        with_transport (set_packetQueue []) (with_transport (set_ws None) w2)
    | None =>
        with_transport (set_packetQueue []) (with_transport (set_ws None) w)
    end.
Proof.
  unfold WebSocketConnection.close.
  destruct (ws (transport w)) as [sock|] eqn:Hws.
  - fold (detached sock w).
    destruct (detached_frame sock w) as (Ht & _ & Hr & _).
    assert (Ha : WebSocketConnection.isActive (detached sock w)
                 = WebSocketConnection.isActive w).
    { unfold WebSocketConnection.isActive. rewrite Ht.
      destruct (ws (transport w)); [|reflexivity].
      rewrite (socketState_map _ w (detached sock w) Hr). reflexivity. }
    rewrite Ha. cbn zeta.
    destruct (WebSocketConnection.isActive w); [|reflexivity].
    rewrite Ht, Hws. reflexivity.
  - unfold WebSocketConnection.isActive. rewrite Hws. reflexivity.
Qed.

(** [close] on a transport that has no socket and an empty queue. *)
Lemma close_of_closed w :
  ws (transport w) = None ->
  packetQueue (transport w) = [] ->
  WebSocketConnection.close ConnectionService.onDisconnect w = w.
Proof.
  intros Hws Hq. rewrite close_unfold, Hws.
  destruct w as [c [x q] sv s k ls m tm n l]. cbn in Hws, Hq. subst x q. reflexivity.
Qed.

End CloseFacts.

Section CloseProperties.

(** C8 (amended).  [close()] of the transport, in every state: the
    listener of the socket's [close] event is detached, the socket
    reference is dropped and the queue is emptied.  If the channel is
    active the socket is closed and the disconnect collaborator is called,
    once; if it is not active no socket is closed and nothing is called.
    A second [close()] changes nothing and calls nothing. *)
Theorem C8_close_drops_socket_and_queue (w : World) :
  let w' := WebSocketConnection.close ConnectionService.onDisconnect w in
  ws (transport w') = None
  /\ packetQueue (transport w') = []
  /\ (forall sock, ws (transport w) = Some sock ->
        ~ In PropsOnDisconnect (listenersFor sock ev_close w'))
  /\ (WebSocketConnection.isActive w = true ->
        exists sock, ws (transport w) = Some sock
          /\ socketState sock w' = Some CLOSING
          /\ log w' = log w ++ [SocketClose sock; CallbackDisconnect])
  /\ (WebSocketConnection.isActive w = false ->
        log w' = log w
        /\ map readyState (sockets w') = map readyState (sockets w))
  /\ WebSocketConnection.close ConnectionService.onDisconnect w' = w'.
Proof.
  intros w'. subst w'. rewrite close_unfold.
  destruct (ws (transport w)) as [sock|] eqn:Hws.
  - destruct (detached_frame sock w) as (Ht & Hl & Hr & Hgone).
    cbn zeta.
    destruct (WebSocketConnection.isActive w) eqn:Hactive.
    + split; [reflexivity|]. split; [reflexivity|]. split; [|split; [|split]].
      * intros sock' Heq. injection Heq as <-.
        change (~ In PropsOnDisconnect
                  (listenersFor sock ev_close
                     (socket_update sock (set_readyState CLOSING) (detached sock w)))).
        rewrite listenersFor_readyState. exact Hgone.
      * intros _. exists sock. split; [reflexivity|]. split.
        -- change (socketState sock (socket_update sock (set_readyState CLOSING) (detached sock w))
                   = Some CLOSING).
           apply socketState_readyState.
           destruct (isActive_socket w Hactive) as (sock' & Hws' & Hopen).
           rewrite Hws in Hws'. injection Hws' as <-.
           rewrite <- (socketState_map sock w (detached sock w) Hr) in Hopen.
           unfold socketState in Hopen.
           destruct (sockets (detached sock w) !! sock); [eauto|discriminate].
        -- cbn. rewrite <- app_assoc. reflexivity.
      * discriminate.
      * apply close_of_closed; reflexivity.
    + split; [reflexivity|]. split; [reflexivity|]. split; [|split; [|split]].
      * intros sock' Heq. injection Heq as <-. exact Hgone.
      * discriminate.
      * intros _. split; [exact Hl | exact Hr].
      * apply close_of_closed; reflexivity.
  - split; [reflexivity|]. split; [reflexivity|]. split; [|split; [|split]].
    + discriminate.
    + unfold WebSocketConnection.isActive. rewrite Hws. discriminate.
    + intros _. split; reflexivity.
    + apply close_of_closed; reflexivity.
Qed.

End CloseProperties.

Section SaveFacts.

Context (E : Collaborators).

(** C9 (amended).  A tick of the save loop is skipped, and leaves the
    world and the stored snapshot as they are, when a save is in flight,
    when the history is empty, or when the stored snapshot was created
    after the date of the latest history entry.  A tick of the poller
    counts the attempt; it saves when the count has reached the maximum of
    3, and below that it saves only when no packet is in progress and the
    latest history entry is an interaction-end marker; otherwise it does
    nothing more. *)
Theorem C9_save_is_skipped_or_polled (w : World) :
  (isSaving (saver w) = true
   \/ SessionStateService.lastItem w = None
   \/ (exists item s created date,
         SessionStateService.lastItem w = Some item
         /\ SessionStateService.savedSessionState w = Some s
         /\ creationTime s = Some created
         /\ history_date item = Some date
         /\ (date < created)%Z) ->
   SessionStateService.tryToSaveState w = w)
  /\
  (forall i attempts,
     pollers (saver w) !! i = Some attempts ->
     let counted :=
       with_saver (fun s => set_pollers (<[i := S attempts]> (pollers s)) s) w in
     SessionStateService.pollTick E i w
     = if Nat.leb DEFAULT_SESSION_STATE_MAX_ATTEMPTS (S attempts)
          || (negb (ConnectionService.hasPacketsInProgress w) && endsWithInteractionEnd w)
       then SessionStateService.saveSessionState E counted
       else counted).
Proof.
  split.
  - intros Hskip. unfold SessionStateService.tryToSaveState.
    destruct (isSaving (saver w)) eqn:Hsaving; [reflexivity|].
    assert (Halready : SessionStateService.alreadySaved (with_saver (set_isSaving true) w) = true).
    { unfold SessionStateService.alreadySaved.
      change (SessionStateService.lastItem (with_saver (set_isSaving true) w))
        with (SessionStateService.lastItem w).
      change (SessionStateService.savedSessionState (with_saver (set_isSaving true) w))
        with (SessionStateService.savedSessionState w).
      destruct Hskip as [Hs | [Hnone | (item & s & created & date & Hi & Hsv & Hc & Hd & Hlt)]].
      - discriminate.
      - rewrite Hnone. reflexivity.
      - rewrite Hi, Hsv, Hc, Hd. apply Z.ltb_lt. exact Hlt. }
    rewrite Halready.
    destruct w as [c t sv [b s p] k ls m tm n l]. cbn in Hsaving. subst s. reflexivity.
  - intros i attempts Hi counted.
    unfold SessionStateService.pollTick. rewrite Hi. fold counted.
    unfold SessionStateService.maxAttempts.
    destruct (Nat.leb DEFAULT_SESSION_STATE_MAX_ATTEMPTS (S attempts)); [reflexivity|].
    change (ConnectionService.hasPacketsInProgress counted)
      with (ConnectionService.hasPacketsInProgress w).
    destruct (ConnectionService.hasPacketsInProgress w); [reflexivity|].
    unfold endsWithInteractionEnd.
    change (SessionStateService.lastItem counted) with (SessionStateService.lastItem w).
    destruct (SessionStateService.lastItem w) as [item|]; [|reflexivity].
    destruct (history_type item); reflexivity.
Qed.

End SaveFacts.

(** ** The order of the queue, when no hook makes a write wait *)

Section FlushFacts.

Context (E : Collaborators).

Lemma write_queues item w :
  WebSocketConnection.isActive w = false ->
  packetQueue (transport (WebSocketConnection.write E (ConnectionService.callBefore E) item w))
  = packetQueue (transport w) ++ [item].
Proof. intros H. unfold WebSocketConnection.write. rewrite H. reflexivity. Qed.

Lemma open_prepends s packets w :
  packetQueue (transport (WebSocketConnection.open s packets w))
  = packets ++ packetQueue (transport w).
Proof. unfold WebSocketConnection.open. destruct packets; reflexivity. Qed.

Lemma write_live_at_once item v :
  WebSocketConnection.isActive v = true ->
  settlesAtOnce E item = true ->
  let v' := WebSocketConnection.write E (ConnectionService.callBefore E) item v in
  microtasks v' = microtasks v ++ [resumeOf E item]
  /\ sameLink v v'
  /\ log v' = log v.
Proof.
  intros Hopen Hinstant. unfold WebSocketConnection.write, settlesAtOnce in *.
  rewrite Hopen. fold (resumeOf E item).
  destruct (beforeWriting item) as [[g]|]; [|repeat split].
  unfold ConnectionService.callBefore.
  apply negb_true_iff in Hinstant. rewrite Hinstant.
  unfold ConnectionService.beforeWritingResume, ConnectionService.recordInProgress.
  destruct (isText _ || isAudio _); repeat split.
Qed.

Lemma write_all_live items v :
  WebSocketConnection.isActive v = true ->
  Forall (fun item => settlesAtOnce E item = true) items ->
  let v' := fold_left (fun w item =>
                         WebSocketConnection.write E (ConnectionService.callBefore E) item w)
                      items v in
  microtasks v' = microtasks v ++ map (resumeOf E) items
  /\ sameLink v v'
  /\ log v' = log v.
Proof.
  revert v. induction items as [|item items IH]; intros v Hopen Hall.
  - cbn. rewrite app_nil_r. repeat split.
  - inversion Hall as [|? ? Hitem Hrest]; subst.
    destruct (write_live_at_once item v Hopen Hitem) as (Hm & Hl & Hlog).
    cbn [fold_left].
    set (v1 := WebSocketConnection.write E (ConnectionService.callBefore E) item v) in *.
    destruct (sameLink_live v v1 Hl) as (Ho1 & _). rewrite Hopen in Ho1.
    destruct (IH v1 Ho1 Hrest) as (Hm' & Hl' & Hlog').
    cbn zeta in Hm', Hl', Hlog'. cbn zeta.
    rewrite Hm', Hm, Hlog', Hlog, <- app_assoc.
    split; [reflexivity|]. split; [|reflexivity].
    apply (sameLink_trans v v1 _ Hl Hl').
Qed.

Lemma run_resume_live item v :
  WebSocketConnection.isActive v = true ->
  let v' := run E (resumeOf E item) v in
  wire (log v') = wire (log v) ++ [WebSocketConnection.producedPacket E (getPacket item)]
  /\ microtasks v' = microtasks v
  /\ sameLink v v'.
Proof.
  intros Hopen. unfold resumeOf. cbn [run].
  destruct (isActive_socket v Hopen) as (sock & Hws & Hsock).
  rewrite (writeResume_live E sock _ _ _ _ Hws Hsock).
  destruct (afterWriting item) as [[|g]|].
  - destruct (callAfter_AfterWrite E
                (convertPacketFromProto E (WebSocketConnection.producedPacket E (getPacket item)))
                (emit (SocketSend sock (WebSocketConnection.producedPacket E (getPacket item))) v))
      as (Hw & Hm & Ht & Hk & Hs & Hc).
    cbn zeta. rewrite Hw, Hm. cbn [log emit]. rewrite wire_app.
    repeat split; assumption.
  - cbn zeta. unfold ConnectionService.callAfter, ConnectionService.recordInProgress.
    destruct (isText _ || isAudio _); cbn; rewrite wire_app; repeat split.
  - cbn. rewrite wire_app. repeat split.
Qed.

Lemma drain_resumes items : forall v rest fuel,
  microtasks v = map (resumeOf E) items ++ rest ->
  WebSocketConnection.isActive v = true ->
  exists v',
    drain E (length items + fuel) v = drain E fuel v'
    /\ microtasks v' = rest
    /\ sameLink v v'
    /\ wire (log v')
       = wire (log v)
         ++ map (fun item => WebSocketConnection.producedPacket E (getPacket item)) items.
Proof.
  induction items as [|item items IH]; intros v rest fuel Hm Hopen.
  - exists v. cbn. rewrite app_nil_r. repeat split. exact Hm.
  - cbn [map app] in Hm. cbn [length plus].
    change (S (length items) + fuel) with (S (length items + fuel)).
    rewrite (drain_next E _ _ _ _ Hm).
    set (v0 := with_microtasks (map (resumeOf E) items ++ rest) v).
    assert (L0 : sameLink v v0) by repeat split.
    destruct (sameLink_live v v0 L0) as (Ho0 & _). rewrite Hopen in Ho0.
    destruct (run_resume_live item v0 Ho0) as (Hw1 & Hm1 & L1).
    set (v1 := run E (resumeOf E item) v0) in *.
    assert (L01 : sameLink v v1) by (apply (sameLink_trans v v0 v1 L0 L1)).
    destruct (sameLink_live v v1 L01) as (Ho1 & _). rewrite Hopen in Ho1.
    destruct (IH v1 rest fuel Hm1 Ho1) as (v' & Hd & Hm' & L' & Hw').
    exists v'. split; [exact Hd|]. split; [exact Hm'|]. split.
    + apply (sameLink_trans v v1 v' L01 L').
    + rewrite Hw', Hw1. cbn [map]. rewrite <- app_assoc. reflexivity.
Qed.

(** When the socket is ready and the timer of [onReady] fires, the queued
    items whose hooks settle at once are put on the wire in the order of
    the queue, each once; then the service becomes ACTIVE. *)
Lemma flush_keeps_order (w : World) (fuel : nat) :
  microtasks w = [] ->
  WebSocketConnection.isActive w = true ->
  Forall (fun item => settlesAtOnce E item = true) (packetQueue (transport w)) ->
  length (packetQueue (transport w)) + startSession_turns E + 1 <= fuel ->
  let w' := drain E fuel
              (WebSocketConnection.flush E (ConnectionService.callBefore E)
                 (ConnectionService.onReady E) w) in
  wire (log w')
  = wire (log w)
    ++ map (fun item => WebSocketConnection.producedPacket E (getPacket item))
           (packetQueue (transport w))
  /\ packetQueue (transport w') = []
  /\ microtasks w' = []
  /\ state (service w') = ACTIVE.
Proof.
  intros Hq Hopen Hall Hfuel.
  unfold WebSocketConnection.flush. cbn zeta.
  set (items := packetQueue (transport w)) in *.
  destruct (write_all_live items w Hopen Hall) as (Hm1 & L1 & Hl1).
  cbn zeta in Hm1, L1, Hl1.
  set (w1 := fold_left _ items w) in *.
  rewrite Hq in Hm1. cbn [app] in Hm1.
  unfold ConnectionService.onReady.
  set (w2 := enqueue (Delay (startSession_turns E) OnReadyResume)
               (called (emit StartSession (with_transport (set_packetQueue []) w1)))).
  assert (Hm2 : microtasks w2 = map (resumeOf E) items ++ [Delay (startSession_turns E) OnReadyResume]).
  { subst w2. cbn. rewrite Hm1. reflexivity. }
  assert (Ho2 : WebSocketConnection.isActive w2 = true).
  { destruct L1 as (Ht & Hk & _).
    rewrite <- Hopen. unfold WebSocketConnection.isActive, socketState.
    subst w2. cbn. rewrite Ht, Hk. reflexivity. }
  set (k := fuel - length items - S (startSession_turns E)).
  replace fuel with (length items + (S (startSession_turns E) + k)) by lia.
  destruct (drain_resumes items w2 _ (S (startSession_turns E) + k) Hm2 Ho2)
    as (w3 & Hd & Hm3 & L3 & Hw3).
  rewrite Hd. rewrite (drain_delay E _ _ _ _ Hm3).
  cbn [run]. unfold ConnectionService.onReadyResume.
  rewrite drain_empty by reflexivity.
  cbn. rewrite !wire_app. cbn. rewrite !app_nil_r.
  destruct L3 as (Ht3 & _).
  rewrite Hw3, Ht3. subst w2. cbn. rewrite wire_app, Hl1. cbn. rewrite app_nil_r.
  repeat split.
Qed.

End FlushFacts.

Section OrderFacts.

Context (E : Collaborators).

Lemma write_all_closed items : forall v,
  WebSocketConnection.isActive v = false ->
  let v' := fold_left (fun w item =>
                         WebSocketConnection.write E (ConnectionService.callBefore E) item w)
                      items v in
  packetQueue (transport v') = packetQueue (transport v) ++ items
  /\ ws (transport v') = ws (transport v)
  /\ sockets v' = sockets v
  /\ microtasks v' = microtasks v
  /\ timers v' = timers v
  /\ log v' = log v.
Proof.
  induction items as [|item items IH]; intros v Hclosed.
  - cbn. rewrite app_nil_r. repeat split.
  - cbn [fold_left].
    assert (Hw : WebSocketConnection.write E (ConnectionService.callBefore E) item v
                 = with_transport (set_packetQueue (packetQueue (transport v) ++ [item])) v).
    { unfold WebSocketConnection.write. rewrite Hclosed. reflexivity. }
    rewrite Hw.
    destruct (IH (with_transport (set_packetQueue (packetQueue (transport v) ++ [item])) v))
      as (Hq & Hws & Hk & Hm & Ht & Hl); [exact Hclosed|].
    cbn zeta in *. rewrite Hq, Hws, Hk, Hm, Ht, Hl. cbn. rewrite <- app_assoc.
    repeat split.
Qed.

Lemma socket_update_last l x f w :
  sockets w = l ++ [x] ->
  sockets (socket_update (length l) f w) = l ++ [f x].
Proof.
  intros H. unfold socket_update. cbn. rewrite H.
  rewrite list_lookup_middle by reflexivity.
  replace (length l) with (length l + 0) by lia.
  rewrite insert_app_r. reflexivity.
Qed.

Lemma addEventListener_last l x e li w :
  sockets w = l ++ [x] ->
  sockets (addEventListener (length l) e li w)
  = l ++ [{| readyState := readyState x; listeners := listeners x ++ [(e, li)] |}].
Proof.
  intros H. unfold addEventListener.
  exact (socket_update_last l x
           (fun s => {| readyState := readyState s; listeners := listeners s ++ [(e, li)] |})
           w H).
Qed.

Lemma open_shape s packets w :
  let w' := WebSocketConnection.open s packets w in
  packetQueue (transport w') = packets ++ packetQueue (transport w)
  /\ ws (transport w') = Some (length (sockets w))
  /\ sockets w' = sockets w ++ [freshSocket]
  /\ microtasks w' = microtasks w
  /\ timers w' = timers w
  /\ log w' = log w ++ [SocketCreated (length (sockets w)) s].
Proof.
  unfold WebSocketConnection.open, WebSocketConnection.createWebSocket.
  assert (Hs : forall v, sockets v = sockets w ->
     sockets
       (addEventListener (length (sockets w)) ev_close PropsOnDisconnect
          (addEventListener (length (sockets w)) ev_error BoundOnError
             (addEventListener (length (sockets w)) ev_message BoundOnMessage
                (addEventListener (length (sockets w)) ev_open BoundOnReady
                   (emit (SocketCreated (length (sockets w)) s)
                      (with_sockets
                         (fun l => l ++ [{| readyState := CONNECTING; listeners := [] |}])
                         v))))))
     = sockets w ++ [freshSocket]).
  { intros v Hv.
    set (v0 := emit _ _).
    assert (H0 : sockets v0 = sockets w ++ [{| readyState := CONNECTING; listeners := [] |}])
      by (subst v0; cbn; rewrite Hv; reflexivity).
    pose proof (addEventListener_last _ _ ev_open BoundOnReady _ H0) as H1.
    pose proof (addEventListener_last _ _ ev_message BoundOnMessage _ H1) as H2.
    pose proof (addEventListener_last _ _ ev_error BoundOnError _ H2) as H3.
    pose proof (addEventListener_last _ _ ev_close PropsOnDisconnect _ H3) as H4.
    exact H4. }
  destruct packets; cbn zeta;
    (split; [reflexivity|]; split; [reflexivity|];
     split; [apply Hs; reflexivity|]; repeat split).
Qed.

(** Items written while the socket is not open, before and after an
    [open] that brings its own items, when none of their hooks makes its
    write wait: once the socket is ready they are put on the wire, each
    once, the items of [open] first, then the others in the order in which
    they were written. *)
Lemma queued_items_keep_their_order (w : World) (s : SessionToken)
    (before packets after : list QueueItem) (fuel : nat) :
  microtasks w = [] ->
  timers w = [] ->
  WebSocketConnection.isActive w = false ->
  let writeAll :=
    fold_left (fun w item =>
                 WebSocketConnection.write E (ConnectionService.callBefore E) item w) in
  let opened := writeAll after (WebSocketConnection.open s packets (writeAll before w)) in
  let sock := length (sockets w) in
  let items := packets ++ packetQueue (transport w) ++ before ++ after in
  Forall (fun item => settlesAtOnce E item = true) items ->
  length items + startSession_turns E + 1 <= fuel ->
  let w' := steps E fuel [OnSocket sock Opened; OnFlushTimer] opened in
  wire (log w')
  = wire (log w)
    ++ map (fun item => WebSocketConnection.producedPacket E (getPacket item)) items
  /\ packetQueue (transport w') = [].
Proof.
  intros Hm Ht Hclosed writeAll opened sock items Hall Hfuel w'.
  (* the writes before [open] *)
  destruct (write_all_closed before w Hclosed) as (Hq1 & Hws1 & Hk1 & Hm1 & Ht1 & Hl1).
  fold writeAll in Hq1, Hws1, Hk1, Hm1, Ht1, Hl1.
  set (w1 := writeAll before w) in *.
  (* [open] *)
  destruct (open_shape s packets w1) as (Hq2 & Hws2 & Hk2 & Hm2 & Ht2 & Hl2).
  set (w2 := WebSocketConnection.open s packets w1) in *.
  rewrite Hk1 in Hws2, Hk2, Hl2. fold sock in Hws2, Hl2.
  assert (Hclosed2 : WebSocketConnection.isActive w2 = false).
  { unfold WebSocketConnection.isActive, socketState. rewrite Hws2, Hk2.
    unfold sock. rewrite list_lookup_middle by reflexivity. reflexivity. }
  (* the writes after [open] *)
  destruct (write_all_closed after w2 Hclosed2) as (Hq3 & Hws3 & Hk3 & Hm3 & Ht3 & Hl3).
  fold writeAll in Hq3, Hws3, Hk3, Hm3, Ht3, Hl3. fold opened in Hq3, Hws3, Hk3, Hm3, Ht3, Hl3.
  assert (Hq : packetQueue (transport opened) = items).
  { rewrite Hq3, Hq2, Hq1. unfold items. rewrite <- !app_assoc. reflexivity. }
  (* the socket opens: the listener starts the timer; then the timer fires *)
  set (w4 := socket_update sock (set_readyState OPEN) opened).
  assert (Hk4 : sockets w4 = sockets w ++ [set_readyState OPEN freshSocket]).
  { subst w4. unfold sock. apply socket_update_last. rewrite Hk3, Hk2. reflexivity. }
  assert (Hfire : fire E sock ev_open Opened w4 = WebSocketConnection.onReady w4).
  { unfold fire, listenersFor. rewrite Hk4. unfold sock.
    rewrite list_lookup_middle by reflexivity. reflexivity. }
  assert (Ht4 : timers (WebSocketConnection.onReady w4) = [FlushTimer]).
  { cbn. rewrite Ht3, Ht2, Ht1, Ht. reflexivity. }
  set (w5 := with_timers [] (WebSocketConnection.onReady w4)).
  assert (Hw' : w' = drain E fuel
                       (WebSocketConnection.flush E (ConnectionService.callBefore E)
                          (ConnectionService.onReady E) w5)).
  { subst w'. cbn [steps fold_left].
    assert (Hfirst : step E fuel (OnSocket sock Opened) opened = WebSocketConnection.onReady w4).
    { unfold step, act, dispatch. fold w4. rewrite Hfire.
      apply drain_empty. cbn. rewrite Hm3, Hm2, Hm1. exact Hm. }
    rewrite Hfirst. unfold step, act, fireFlushTimer. rewrite Ht4. reflexivity. }
  assert (Hm5 : microtasks w5 = []) by (cbn; rewrite Hm3, Hm2, Hm1; exact Hm).
  assert (Ho5 : WebSocketConnection.isActive w5 = true).
  { unfold WebSocketConnection.isActive, socketState.
    change (ws (transport w5)) with (ws (transport opened)).
    change (sockets w5) with (sockets w4).
    rewrite Hws3, Hws2, Hk4. unfold sock.
    rewrite list_lookup_middle by reflexivity. reflexivity. }
  assert (Hq5 : packetQueue (transport w5) = items) by exact Hq.
  rewrite Hw'.
  destruct (flush_keeps_order E w5 fuel Hm5 Ho5) as (Hwire & Hempty & _).
  - rewrite Hq5. exact Hall.
  - rewrite Hq5. exact Hfuel.
  - split; [|exact Hempty].
    rewrite Hwire, Hq5.
    change (log w5) with (log opened).
    rewrite Hl3, Hl2, Hl1, wire_app. cbn. rewrite app_nil_r. reflexivity.
Qed.

End OrderFacts.

(** ** Reconnection and the session token *)

Section ReconnectFacts.

Context (E : Collaborators).

Example sessionExpired_matches :
  sessionExpiredRegExp_test "Session 4f2a expired or invalid" = true
  /\ sessionExpiredRegExp_test "UNAUTHENTICATED: Session x-1 expired or invalid." = true
  /\ sessionExpiredRegExp_test "Session expired or invalid" = false
  /\ sessionExpiredRegExp_test "invalid JWT token" = false
  /\ sessionExpiredRegExp_test "Unable to send data due inactive connection" = false.
Proof. vm_compute. repeat split. Qed.

(** The packets in progress are taken for replay in state RECONNECTING and
    in no other state. *)
Lemma getPacketsToSentOnOpen_replay (w : World) :
  ConnectionService.getPacketsToSentOnOpen w
  = match state (service w) with
    | RECONNECTING =>
        (muteOnOpen w ++ map ConnectionService.replayItem (packetsInProgress (service w)),
         with_service (set_packetsInProgress []) w)
    | _ => (muteOnOpen w, w)
    end.
Proof.
  unfold ConnectionService.getPacketsToSentOnOpen, muteOnOpen.
  destruct (state (service w)); reflexivity.
Qed.

(** A session failure with auto-reconnect on: the host is told, session
    and scene are dropped, the state is INACTIVE, and [open] is called; it
    asks for a new token and will hand to the transport the mute signal at
    most, whatever is in progress. *)
Lemma onError_reconnects (message : string) (w : World) :
  sessionExpiredRegExp_test message || String.eqb invalidToken message = true ->
  ConnectionService.isAutoReconnected w = true ->
  let v := forgotten (emit (CallbackError message) w) in
  ConnectionService.onError E message w = ConnectionService.open E v
  /\ session (service v) = None /\ scene (service v) = None
  /\ state (service v) = INACTIVE
  /\ packetsInProgress (service v) = packetsInProgress (service w)
  /\ ConnectionService.open E v
     = enqueue (Delay (generateSessionToken_turns E)
                  (EnsureTokenResume "" (generateSessionToken E (calls w))
                     (AwaitedByLoadScene (OpenAfterLoadScene (muteOnOpen w)))))
         (called (emit GenerateSessionToken (with_service (set_state LOADING) v))).
Proof.
  intros Hmatch Hauto v. split; [|repeat split].
  unfold ConnectionService.onError.
  change (ConnectionService.isAutoReconnected (emit (CallbackError message) w))
    with (ConnectionService.isAutoReconnected w).
  rewrite Hmatch, Hauto. reflexivity.
Qed.

(** [ensureSessionToken] after the generator has answered: with a
    previous session whose id is not empty, the stored session stays what
    it was; the generated token is stored only when there was no id. *)
Lemma ensureTokenResume_session (previous : string) (generated : SessionToken)
    (awaiter : TokenAwaiter) (w : World) :
  session (service (ConnectionService.ensureTokenResume previous (Ok generated) awaiter w))
  = if truthy previous
    then Some (ConnectionService.spreadSession (session (service w)) previous)
    else Some generated.
Proof.
  unfold ConnectionService.ensureTokenResume. destruct (truthy previous); reflexivity.
Qed.

Lemma spreadSession_same (s : SessionToken) :
  ConnectionService.spreadSession (Some s) (sessionId s) = s.
Proof. destruct s. reflexivity. Qed.

End ReconnectFacts.

Section TokenFacts.

Context (E : Collaborators).

(** A refresh of an expired session whose id is not empty: a token is
    asked for, and when it arrives the stored session is still the
    expired one. *)
Lemma ensureSessionToken_refresh_keeps_session (w : World) (s generated : SessionToken)
    (beforeLoading : bool) (awaiter : TokenAwaiter) :
  microtasks w = [] ->
  session (service w) = Some s ->
  isExpired E (calls w) s = true ->
  truthy (sessionId s) = true ->
  generateSessionToken E (calls w) = Ok generated ->
  let w' := drain E (S (generateSessionToken_turns E))
              (ConnectionService.ensureSessionToken E beforeLoading awaiter w) in
  session (service w') = Some s
  /\ log w' = log w ++ [GenerateSessionToken].
Proof.
  intros Hm Hs Hexp Hid Hgen w'. subst w'.
  unfold ConnectionService.ensureSessionToken. rewrite Hs, Hexp.
  assert (Hcalls : calls (if beforeLoading then with_service (set_state LOADING) w else w)
                   = calls w) by (destruct beforeLoading; reflexivity).
  rewrite Hcalls, Hgen.
  replace (S (generateSessionToken_turns E)) with (S (generateSessionToken_turns E) + 0) by lia.
  rewrite (drain_delay E _ (EnsureTokenResume (sessionId s) (Ok generated) awaiter))
    by (destruct beforeLoading; cbn; rewrite Hm; reflexivity).
  cbn [drain run]. unfold ConnectionService.ensureTokenResume. rewrite Hid.
  destruct beforeLoading; cbn; rewrite Hs; destruct s; split; reflexivity.
Qed.

(** The first token: without a stored session the generated token is
    stored. *)
Lemma ensureSessionToken_first_token (w : World) (generated : SessionToken)
    (beforeLoading : bool) (awaiter : TokenAwaiter) :
  microtasks w = [] ->
  session (service w) = None ->
  generateSessionToken E (calls w) = Ok generated ->
  let w' := drain E (S (generateSessionToken_turns E))
              (ConnectionService.ensureSessionToken E beforeLoading awaiter w) in
  session (service w') = Some generated.
Proof.
  intros Hm Hs Hgen w'. subst w'.
  unfold ConnectionService.ensureSessionToken. rewrite Hs.
  assert (Hcalls : calls (if beforeLoading then with_service (set_state LOADING) w else w)
                   = calls w) by (destruct beforeLoading; reflexivity).
  rewrite Hcalls, Hgen.
  replace (S (generateSessionToken_turns E)) with (S (generateSessionToken_turns E) + 0) by lia.
  rewrite (drain_delay E _ (EnsureTokenResume "" (Ok generated) awaiter))
    by (destruct beforeLoading; cbn; rewrite Hm; reflexivity).
  destruct beforeLoading; reflexivity.
Qed.

(** A save that finds a valid session stores the snapshot the state
    service answers with, and the save is no longer in flight. *)
Lemma saveSessionState_stores (w : World) (s : SessionToken) (snapshot : SessionState)
    (fuel : nat) :
  microtasks w = [] ->
  session (service w) = Some s ->
  isExpired E (calls w) s = false ->
  state_getSessionState E (calls w) = Ok snapshot ->
  state_getSessionState_turns E + 2 <= fuel ->
  let w' := drain E fuel (SessionStateService.saveSessionState E w) in
  localStorage w' = Some (StoredState snapshot)
  /\ isSaving (saver w') = false
  /\ log w' = log w ++ [StateGetSessionState (Some s); LocalStorageSet (StoredState snapshot)].
Proof.
  intros Hm Hs Hexp Hstate Hfuel w'. subst w'.
  unfold SessionStateService.saveSessionState, SessionStateService.clearInterval,
    ConnectionService.getSessionState, ConnectionService.ensureSessionToken.
  rewrite Hs, Hexp. cbn [ConnectionService.tokenResolved].
  destruct fuel as [|fuel]; [lia|].
  rewrite (drain_next E fuel GetSessionStateAfterToken [])
    by (cbn; rewrite Hm; reflexivity).
  cbn [run]. unfold ConnectionService.getSessionStateAfterToken.
  cbn [calls with_microtasks enqueue]. rewrite Hstate.
  replace fuel with (S (state_getSessionState_turns E) + (fuel - S (state_getSessionState_turns E)))
    by lia.
  rewrite (drain_delay E _ (SaveSettled (Ok (Some snapshot)))) by reflexivity.
  cbn [run]. unfold SessionStateService.saveSettled.
  rewrite drain_empty by reflexivity.
  cbn. rewrite Hs, <- app_assoc. repeat split.
Qed.

End TokenFacts.

(** ** Runs on concrete pages *)

Section Runs.

Import Sample.

(** C1.  Two packets are sent while the connection is down, a TEXT packet
    and then a trigger.  Both wait in the queue in that order; when the
    socket is ready the queue is flushed, and the trigger is put on the
    wire before the TEXT packet: the hook of the TEXT packet awaits
    [interruptByPacket], the [forEach] of [onReady] does not wait for it. *)
Theorem C1_text_is_overtaken_when_the_queue_is_flushed :
  map getPacket (packetQueue (transport Page.twoQueued))
    = [UserProducer hello; UserProducer wave]
  /\ wire (log Page.twoQueued) = []
  /\ packetQueue (transport Page.twoFlushed) = []
  /\ microtasks Page.twoFlushed = []
  /\ wire (log Page.twoFlushed) = [wave; hello].
Proof. vm_compute. repeat split. Qed.

(** C3.  An "invalid JWT token" error arrives with auto-reconnect on
    while the packet of interaction "i1" is in progress.  The session and
    the scene are renewed and a new socket is opened, but no packet is
    handed to that [open]: the queue is empty, the entry stays in
    [packetsInProgress], and nothing is put on the wire when the new
    socket is ready. *)
Theorem C3_packets_in_progress_are_not_replayed :
  packetsInProgress (service (Scenario.waiting Page.reconnecting))
    = [("i1", UserProducer hello)]
  /\ log Page.rejected
     = [CallbackError invalidToken; GenerateSessionToken;
        EngineLoadScene (Some freshToken); SocketCreated 1 freshToken]
  /\ state (service Page.rejected) = ACTIVATING
  /\ ws (transport Page.rejected) = Some 1
  /\ packetQueue (transport Page.rejected) = []
  /\ packetsInProgress (service Page.rejected) = [("i1", UserProducer hello)]
  /\ wire (log Page.reopened) = [].
Proof. vm_compute. repeat split. Qed.

(** C6.  The stored session has expired.  A token is generated, but what
    is stored and used for the socket is the old credential: the new token
    is dropped. *)
Theorem C6_refresh_keeps_the_expired_credential :
  isExpired Page.silent 0 staleToken = true
  /\ generateSessionToken Page.silent 0 = Ok freshToken
  /\ session (service Page.refreshed) = Some staleToken
  /\ log Page.refreshed
     = [GenerateSessionToken; EngineLoadScene (Some staleToken);
        SocketCreated 0 staleToken].
Proof. vm_compute. repeat split. Qed.

End Runs.

Section Instances.

Import Sample.

Lemma C2_witness :
  wire (log (step Page.speaking 4 (CallSend (UserProducer hello))
               (Scenario.connected Page.interruptible)))
  = wire (log (Scenario.connected Page.interruptible))
    ++ [cancelResponse Page.speaking Page.cancelSpeech [{| id := "character" |}]; hello]
  /\ microtasks (step Page.speaking 4 (CallSend (UserProducer hello))
                   (Scenario.connected Page.interruptible)) = [].
Proof.
  apply (C2_cancel_response_precedes_text Page.speaking
           (Scenario.connected Page.interruptible) (UserProducer hello)
           (fromProto speech) [] 4);
    first [ reflexivity | cbn; lia | repeat constructor ].
Defined.

(** The same when the TEXT packet waits in the queue and is flushed,
    whether the player answers before or after the service is ACTIVE. *)
Example cancel_response_precedes_flushed_text :
  wire (log Page.interruptingFlushed)
  = [cancelResponse Page.speaking Page.cancelSpeech [{| id := "character" |}]; hello]
  /\ wire (log Page.interruptingFlushedLate)
     = [cancelResponse Page.speaking Page.cancelSpeech [{| id := "character" |}]; hello].
Proof. vm_compute. split; reflexivity. Qed.

Lemma C4_witness :
  (object_get "i1" (packetsInProgress (service (Scenario.interrupted Page.interruptible)))
     = Some (UserProducer hello)
   /\ cancelResponses (service (Scenario.interrupted Page.interruptible)) !! "i1" = Some true)
  /\ object_get "i1"
       (packetsInProgress
          (service (ConnectionService.onMessage Page.silent goodbye
                      (Scenario.interrupted Page.interruptible)))) = None
  /\ ~ In "i1"
       (object_keys
          (packetsInProgress
             (service (ConnectionService.onMessage Page.silent goodbye
                         (Scenario.interrupted Page.interruptible)))))
  /\ cancelResponses
       (service (ConnectionService.onMessage Page.silent goodbye
                   (Scenario.interrupted Page.interruptible))) !! "i1" = None.
Proof.
  split; [split; reflexivity|].
  apply (C4_interaction_end_clears_both_maps Page.silent
           (Scenario.interrupted Page.interruptible) goodbye).
  reflexivity.
Defined.



Lemma C8_witness :
  (* an active channel: the socket is closed, the collaborator is called once *)
  log (WebSocketConnection.close ConnectionService.onDisconnect
         (Scenario.connected Page.reconnecting))
  = [SocketClose 0; CallbackDisconnect]
  (* and the close event of the socket calls nothing any more *)
  /\ log (dispatch Page.silent 0 Closed
            (WebSocketConnection.close ConnectionService.onDisconnect
               (Scenario.connected Page.reconnecting)))
     = [SocketClose 0; CallbackDisconnect]
  /\ WebSocketConnection.close ConnectionService.onDisconnect
       (WebSocketConnection.close ConnectionService.onDisconnect
          (Scenario.connected Page.reconnecting))
     = WebSocketConnection.close ConnectionService.onDisconnect
         (Scenario.connected Page.reconnecting).
Proof.
  destruct (C8_close_drops_socket_and_queue (Scenario.connected Page.reconnecting))
    as (_ & _ & _ & Hactive & _ & Hagain).
  destruct (Hactive eq_refl) as (sock & Hws & _ & Hlog).
  injection Hws as <-.
  split; [exact Hlog|]. split; [reflexivity|]. exact Hagain.
Defined.

(** C8, as stated, fails on a channel that was opened and is closed before
    the socket is ready: the socket is not closed and the disconnect
    collaborator is not called at all in that open-close cycle; the [open]
    listener is still attached, so the flush timer still starts when the
    abandoned socket opens. *)
Lemma C8_counterexample :
  ws (transport (Scenario.connecting Page.reconnecting)) = Some 0
  /\ log (Scenario.connecting Page.reconnecting) = [SocketCreated 0 freshToken]
  /\ log (WebSocketConnection.close ConnectionService.onDisconnect
            (Scenario.connecting Page.reconnecting))
     = [SocketCreated 0 freshToken]
  /\ socketState 0 (WebSocketConnection.close ConnectionService.onDisconnect
                      (Scenario.connecting Page.reconnecting)) = Some CONNECTING
  /\ listenersFor 0 ev_open
       (WebSocketConnection.close ConnectionService.onDisconnect
          (Scenario.connecting Page.reconnecting)) = [BoundOnReady]
  /\ timers (dispatch Page.silent 0 Opened
               (WebSocketConnection.close ConnectionService.onDisconnect
                  (Scenario.connecting Page.reconnecting))) = [FlushTimer].
Proof. vm_compute. repeat split. Qed.

Lemma C9_witness :
  (* a save is in flight: the tick is skipped *)
  SessionStateService.tryToSaveState (Scenario.saving 0 Scenario.answered [])
  = Scenario.saving 0 Scenario.answered []
  (* the third attempt saves, whatever is in progress *)
  /\ localStorage (step Page.silent 20 (OnSavePoll 0)
                     (Scenario.saving 2 Scenario.unanswered [("i1", UserProducer hello)]))
     = Some (StoredState {| creationTime := Some 1%Z; sessionState_state := Some "snapshot" |})
  (* the first attempt saves when nothing is in progress after an interaction end *)
  /\ localStorage (step Page.silent 20 (OnSavePoll 0)
                     (Scenario.saving 0 Scenario.answered []))
     = Some (StoredState {| creationTime := Some 1%Z; sessionState_state := Some "snapshot" |}).
Proof.
  destruct (C9_save_is_skipped_or_polled Page.silent
              (Scenario.saving 0 Scenario.answered [])) as (Hskip & Hpoll).
  split; [apply Hskip; left; reflexivity|].
  split.
  - unfold step, act.
    destruct (C9_save_is_skipped_or_polled Page.silent
                (Scenario.saving 2 Scenario.unanswered [("i1", UserProducer hello)]))
      as (_ & Hpoll').
    rewrite (Hpoll' 0 2 eq_refl). vm_compute. reflexivity.
  - unfold step, act. rewrite (Hpoll 0 0 eq_refl). vm_compute. reflexivity.
Defined.

(** C9, as stated, fails both ways below the third attempt: the poller
    does not save when the latest entry is an interaction-end marker while
    a packet is in progress, and it does not save when nothing is in
    progress while the latest entry is no interaction-end marker. *)
Lemma C9_counterexample :
  (endsWithInteractionEnd
     (Scenario.saving 0 Scenario.answered [("i1", UserProducer hello)]) = true
   /\ localStorage (step Page.silent 20 (OnSavePoll 0)
                      (Scenario.saving 0 Scenario.answered [("i1", UserProducer hello)]))
      = None
   /\ log (step Page.silent 20 (OnSavePoll 0)
             (Scenario.saving 0 Scenario.answered [("i1", UserProducer hello)])) = [])
  /\
  (ConnectionService.hasPacketsInProgress (Scenario.saving 0 Scenario.unanswered []) = false
   /\ localStorage (step Page.silent 20 (OnSavePoll 0)
                      (Scenario.saving 0 Scenario.unanswered [])) = None
   /\ log (step Page.silent 20 (OnSavePoll 0)
             (Scenario.saving 0 Scenario.unanswered [])) = []).
Proof. vm_compute. repeat split. Qed.

Lemma C10_witness :
  service (step Page.silent 2 CallInterrupt (Scenario.interrupted Page.interruptible))
  = service (Scenario.interrupted Page.interruptible)
  /\ transport (step Page.silent 2 CallInterrupt (Scenario.interrupted Page.interruptible))
     = transport (Scenario.interrupted Page.interruptible)
  /\ wire (log (step Page.silent 2 CallInterrupt (Scenario.interrupted Page.interruptible)))
     = wire (log (Scenario.interrupted Page.interruptible))
  /\ log (step Page.silent 2 CallInterrupt (Scenario.interrupted Page.interruptible))
     = [PlayerGetCurrentPacket].
Proof.
  destruct (C10_interrupt_without_playback_changes_nothing Page.silent
              (Scenario.interrupted Page.interruptible) 2)
    as (Hs & Ht & _ & _ & Hw & _).
  - reflexivity.
  - left. reflexivity.
  - cbn. lia.
  - split; [exact Hs|]. split; [exact Ht|]. split; [exact Hw|]. reflexivity.
Defined.

(** The other case: there is a current packet, and nothing to stop. *)
Example interrupt_with_nothing_to_stop :
  getCurrentPacket Page.idle 0 = Some (fromProto speech)
  /\ service (step Page.idle 5 CallInterrupt (Scenario.interrupted Page.interruptible))
     = service (Scenario.interrupted Page.interruptible)
  /\ log (step Page.idle 5 CallInterrupt (Scenario.interrupted Page.interruptible))
     = [PlayerGetCurrentPacket; PlayerStopForInteraction "i1"].
Proof. vm_compute. repeat split. Qed.

End Instances.

(** ** Equality of records, field by field *)

Lemma World_ext (a b : World) :
  config a = config b -> transport a = transport b -> service a = service b ->
  saver a = saver b -> sockets a = sockets b -> localStorage a = localStorage b ->
  microtasks a = microtasks b -> timers a = timers b -> calls a = calls b ->
  log a = log b -> a = b.
Proof. destruct a, b; cbn; intros; subst; reflexivity. Qed.

Lemma Service_ext (a b : Service) :
  state a = state b -> audioSessionAction a = audioSessionAction b ->
  ttsPlaybackAction a = ttsPlaybackAction b -> scene a = scene b ->
  session a = session b -> disconnectArmed a = disconnectArmed b ->
  cancelResponses a = cancelResponses b -> packetsInProgress a = packetsInProgress b ->
  history a = history b -> a = b.
Proof. destruct a, b; cbn; intros; subst; reflexivity. Qed.

Lemma Transport_ext (a b : Transport) :
  ws a = ws b -> packetQueue a = packetQueue b -> a = b.
Proof. destruct a, b; cbn; intros; subst; reflexivity. Qed.

Lemma Saver_ext (a b : Saver) :
  isBlurred a = isBlurred b -> isSaving a = isSaving b -> pollers a = pollers b -> a = b.
Proof. destruct a, b; cbn; intros; subst; reflexivity. Qed.

(** Splits an equation between worlds into its fields. *)
Ltac world_eq :=
  apply World_ext; cbn;
  try (apply Service_ext; cbn);
  try (apply Transport_ext; cbn);
  try (apply Saver_ext; cbn);
  try reflexivity.

(** Brings a world that is built from record updates into record form. *)
Ltac norm :=
  cbv beta iota zeta delta
    [with_transport with_service with_saver with_sockets with_localStorage
     with_microtasks with_timers called emit enqueue
     set_ws set_packetQueue set_state set_audioSessionAction set_ttsPlaybackAction
     set_scene set_session set_disconnectArmed set_cancelResponses
     set_packetsInProgress set_history set_isBlurred set_isSaving set_pollers
     config transport service saver sockets localStorage microtasks timers calls log
     ws packetQueue
     state audioSessionAction ttsPlaybackAction scene session disconnectArmed
     cancelResponses packetsInProgress history
     isBlurred isSaving pollers];
  cbn [app].

Ltac norm_in H :=
  cbv beta iota zeta delta
    [with_transport with_service with_saver with_sockets with_localStorage
     with_microtasks with_timers called emit enqueue
     set_ws set_packetQueue set_state set_audioSessionAction set_ttsPlaybackAction
     set_scene set_session set_disconnectArmed set_cancelResponses
     set_packetsInProgress set_history set_isBlurred set_isSaving set_pollers
     config transport service saver sockets localStorage microtasks timers calls log
     ws packetQueue
     state audioSessionAction ttsPlaybackAction scene session disconnectArmed
     cancelResponses packetsInProgress history
     isBlurred isSaving pollers] in H;
  cbn [app] in H.

(** A world in record form. *)
Ltac open_world w :=
  let c := fresh "c" in let x := fresh "x" in let q := fresh "q" in
  let sv := fresh "sv" in let s := fresh "s" in let k := fresh "k" in
  let ls := fresh "ls" in let m := fresh "m" in let tm := fresh "tm" in
  let n := fresh "n" in let l := fresh "l" in
  let st := fresh "st" in let au := fresh "au" in let tts := fresh "tts" in
  let sc := fresh "sc" in let se := fresh "se" in let da := fresh "da" in
  let cr := fresh "cr" in let pip := fresh "pip" in let h := fresh "h" in
  destruct w as [c [x q] [st au tts sc se da cr pip h] s k ls m tm n l].

Section PatternFacts.






End PatternFacts.

Section ConnectFacts.

Context (E : Collaborators).

Lemma drain_S fuel w :
  drain E (S fuel) w
  = match microtasks w with
    | [] => w
    | t :: rest => drain E fuel (run E t (with_microtasks rest w))
    end.
Proof. reflexivity. Qed.

(** The transport's [open], in record form. *)
Lemma open_record (s : SessionToken) (packets : list QueueItem) (w : World) :
  WebSocketConnection.open s packets w
  = {| config := config w;
       transport := {| ws := Some (length (sockets w));
                       packetQueue := packets ++ packetQueue (transport w) |};
       service := service w;
       saver := saver w;
       sockets := sockets w ++ [freshSocket];
       localStorage := localStorage w;
       microtasks := microtasks w;
       timers := timers w;
       calls := calls w;
       log := log w ++ [SocketCreated (length (sockets w)) s] |}.
Proof.
  destruct (open_shape s packets w) as (Hq & Hws & Hk & Hm & Ht & Hl).
  apply World_ext; try assumption;
    try (unfold WebSocketConnection.open, WebSocketConnection.createWebSocket;
         destruct packets; reflexivity).
Qed.

(** [open] on a service that has neither session nor scene: the token is
    generated, the scene is loaded, the socket is created. *)
Lemma open_connects (w : World) (generated : SessionToken) (loaded : LoadSceneResponse)
    (fuel : nat) :
  microtasks w = [] ->
  state (service w) = INACTIVE ->
  session (service w) = None ->
  scene (service w) = None ->
  localStorage w <> Some StoredUndefined ->
  history_previousState (config w) = false ->
  generateSessionToken E (calls w) = Ok generated ->
  engine_loadScene E (S (calls w)) = Ok loaded ->
  generateSessionToken_turns E + engine_loadScene_turns E + 5 <= fuel ->
  drain E fuel (ConnectionService.open E w)
  = {| config := config w;
       transport := {| ws := Some (length (sockets w));
                       packetQueue := muteOnOpen w ++ packetQueue (transport w) |};
       service :=
         set_disconnectArmed
           (match disconnectTimeout (config w) with
            | O => disconnectArmed (service w)
            | S _ => true
            end)
           (set_state ACTIVATING
              (set_scene (Some loaded) (set_session (Some generated) (service w))));
       saver := saver w;
       sockets := sockets w ++ [freshSocket];
       localStorage := localStorage w;
       microtasks := [];
       timers := timers w;
       calls := S (S (calls w));
       log := log w ++ [GenerateSessionToken; EngineLoadScene (Some generated);
                        SocketCreated (length (sockets w)) generated] |}.
Proof.
  intros Hm Hst Hse Hsc Hls Hprev Hgen Hload Hfuel.
  unfold ConnectionService.open.
  rewrite getPacketsToSentOnOpen_replay, Hst.
  set (packets := muteOnOpen w). clearbody packets.
  open_world w. norm_in Hm. norm_in Hst. norm_in Hse. norm_in Hsc. norm_in Hls.
  norm_in Hprev. norm_in Hgen. norm_in Hload. subst.
  unfold ConnectionService.loadScene, ConnectionService.ensureSessionToken. norm.
  rewrite Hgen.
  replace fuel with (S (generateSessionToken_turns E) + (fuel - S (generateSessionToken_turns E)))
    by lia.
  erewrite drain_delay by reflexivity.
  remember (fuel - S (generateSessionToken_turns E)) as f eqn:Hf.
  assert (Hf' : engine_loadScene_turns E + 4 <= f) by lia. clear Hf Hfuel.
  cbn [run]. unfold ConnectionService.ensureTokenResume.
  change (truthy "") with false. cbn [ConnectionService.tokenResolved]. norm.
  destruct f as [|f]; [lia|]. rewrite drain_S. norm.
  cbn [run]. unfold ConnectionService.loadSceneAfterToken. norm.
  assert (Hstored : forall (A : Type) (a b : A),
            match ls with Some StoredUndefined => a | _ => b end = b).
  { intros A a b. destruct ls as [[?|]|]; try reflexivity. congruence. }
  rewrite Hstored, Hload.
  replace f with (S (engine_loadScene_turns E) + (f - S (engine_loadScene_turns E))) by lia.
  erewrite drain_delay by reflexivity.
  remember (f - S (engine_loadScene_turns E)) as j eqn:Hj.
  assert (Hj' : 2 <= j) by lia. clear Hj Hf'.
  cbn [run]. unfold ConnectionService.loadSceneAfterEngine. norm. rewrite Hprev.
  unfold ConnectionService.loadSceneEnd. norm.
  destruct j as [|j]; [lia|]. rewrite drain_S. norm.
  cbn [run]. unfold ConnectionService.openAfterLoadScene. norm.
  rewrite open_record. norm.
  destruct j as [|j]; [lia|]. rewrite drain_S. norm.
  cbn [run]. unfold ConnectionService.openAfterConnectionOpen, ConnectionService.scheduleDisconnect,
    ConnectionService.cancelScheduler.
  norm. rewrite drain_empty by (destruct (disconnectTimeout c); reflexivity).
  rewrite <- !app_assoc.
  destruct (disconnectTimeout c); reflexivity.
Qed.

End ConnectFacts.

Section ReadyFacts.

Context (E : Collaborators).

(** [write] of the transport while the socket is not open. *)
Lemma write_closed item w :
  WebSocketConnection.isActive w = false ->
  WebSocketConnection.write E (ConnectionService.callBefore E) item w
  = with_transport (set_packetQueue (packetQueue (transport w) ++ [item])) w.
Proof. intros H. unfold WebSocketConnection.write. rewrite H. reflexivity. Qed.

(** [send] of a service that is not ACTIVE, with auto-reconnect on and the
    socket not open: the item is queued and [open] is called. *)
Lemma send_closed g w :
  ConnectionService.isActive w = false ->
  ConnectionService.isAutoReconnected w = true ->
  WebSocketConnection.isActive w = false ->
  ConnectionService.send E g w
  = ConnectionService.open E
      (with_transport
         (set_packetQueue (packetQueue (transport w) ++ [ConnectionService.queueItem g]))
         (ConnectionService.cancelScheduler w)).
Proof.
  intros Hactive Hauto Hclosed.
  destruct (send_delegates E w g (or_intror Hauto)) as (Heq & _).
  rewrite Heq, Hactive. rewrite write_closed by exact Hclosed. reflexivity.
Qed.

(** The socket of the transport becomes ready and the timer of [onReady]
    fires: what is left is the flush of the queue. *)
Lemma socket_ready (v : World) (sock fuel : nat) :
  microtasks v = [] ->
  timers v = [] ->
  listenersFor sock ev_open v = [BoundOnReady] ->
  steps E fuel [OnSocket sock Opened; OnFlushTimer] v
  = drain E fuel
      (WebSocketConnection.flush E (ConnectionService.callBefore E) (ConnectionService.onReady E)
         (socket_update sock (set_readyState OPEN) v)).
Proof.
  intros Hm Ht Hl. cbn [steps fold_left].
  assert (Hfirst : step E fuel (OnSocket sock Opened) v
                   = with_timers [FlushTimer] (socket_update sock (set_readyState OPEN) v)).
  { unfold step, act, dispatch, fire. rewrite listenersFor_readyState, Hl.
    cbn [fold_left callListener]. unfold WebSocketConnection.onReady.
    rewrite drain_empty by exact Hm.
    cbn [timers socket_update with_sockets]. rewrite Ht. reflexivity. }
  rewrite Hfirst. unfold step, act, fireFlushTimer. cbn [timers with_timers].
  f_equal. f_equal.
  apply World_ext; try reflexivity. cbn. symmetry. exact Ht.
Qed.

Lemma freshSocket_listeners (v : World) (sock : nat) :
  sockets v !! sock = Some freshSocket ->
  listenersFor sock ev_open v = [BoundOnReady]
  /\ listenersFor sock ev_message v = [BoundOnMessage]
  /\ listenersFor sock ev_error v = [BoundOnError]
  /\ listenersFor sock ev_close v = [PropsOnDisconnect].
Proof. intros H. unfold listenersFor. rewrite H. repeat split. Qed.

End ReadyFacts.

Section TextFlush.

Context (E : Collaborators).

Lemma onReadyResume_facts v :
  let v' := ConnectionService.onReadyResume v in
  wire (log v') = wire (log v) /\ microtasks v' = microtasks v
  /\ transport v' = transport v /\ sockets v' = sockets v
  /\ state (service v') = ACTIVE.
Proof.
  unfold ConnectionService.onReadyResume. cbn. rewrite !wire_app. cbn.
  rewrite !app_nil_r. repeat split.
Qed.

Lemma live_same v v' :
  transport v' = transport v -> sockets v' = sockets v ->
  WebSocketConnection.isActive v' = WebSocketConnection.isActive v.
Proof.
  intros Ht Hk. unfold WebSocketConnection.isActive, socketState. rewrite Ht, Hk. reflexivity.
Qed.

(** The flush of a queue whose last item is a TEXT packet of the service,
    with interruptions off, after items whose hooks settle at once. *)
Lemma flush_then_text (w : World) (items : list QueueItem) (g : Producer) (fuel : nat) :
  microtasks w = [] ->
  WebSocketConnection.isActive w = true ->
  packetQueue (transport w) = items ++ [ConnectionService.queueItem g] ->
  Forall (fun item => settlesAtOnce E item = true) items ->
  interruptions (config w) = false ->
  isText (convertPacketFromProto E (WebSocketConnection.producedPacket E g)) = true ->
  length items + startSession_turns E + 3 <= fuel ->
  let w' := drain E fuel
              (WebSocketConnection.flush E (ConnectionService.callBefore E)
                 (ConnectionService.onReady E) w) in
  wire (log w')
  = wire (log w)
    ++ map (fun item => WebSocketConnection.producedPacket E (getPacket item)) items
    ++ [WebSocketConnection.producedPacket E g]
  /\ packetQueue (transport w') = []
  /\ microtasks w' = []
  /\ state (service w') = ACTIVE.
Proof.
  intros Hq Hopen Hqueue Hall Hint Htext Hfuel.
  set (packet := WebSocketConnection.producedPacket E g) in *.
  set (inworldPacket := convertPacketFromProto E packet) in *.
  set (item := ConnectionService.queueItem g) in *.
  set (hook := BeforeWritingResume g inworldPacket (WriteResume item packet inworldPacket)).
  unfold WebSocketConnection.flush. cbn zeta. rewrite Hqueue, fold_left_app.
  destruct (write_all_live E items w Hopen Hall) as (Hm1 & L1 & Hl1).
  cbn zeta in Hm1, L1, Hl1.
  set (w1 := fold_left _ items w) in *.
  rewrite Hq in Hm1. cbn [app] in Hm1.
  destruct (sameLink_live w w1 L1) as (Ho1 & _). rewrite Hopen in Ho1.
  cbn [fold_left].
  assert (Hwrite : WebSocketConnection.write E (ConnectionService.callBefore E) item w1
                   = enqueue hook w1).
  { unfold WebSocketConnection.write. rewrite Ho1.
    cbn [beforeWriting item ConnectionService.queueItem getPacket].
    fold packet. fold inworldPacket.
    unfold ConnectionService.callBefore. rewrite Htext.
    unfold ConnectionService.interruptByPacket.
    destruct L1 as (_ & _ & Hc & _). rewrite Hc, Hint. reflexivity. }
  rewrite Hwrite.
  unfold ConnectionService.onReady.
  set (w2 := enqueue (Delay (startSession_turns E) OnReadyResume)
               (called (emit StartSession
                  (with_transport (set_packetQueue []) (enqueue hook w1))))).
  assert (Hm2 : microtasks w2
                = map (resumeOf E) items ++ [hook; Delay (startSession_turns E) OnReadyResume]).
  { subst w2. cbn. rewrite Hm1, <- app_assoc. reflexivity. }
  assert (Ho2 : WebSocketConnection.isActive w2 = true).
  { destruct L1 as (Ht & Hk & _).
    rewrite <- Hopen. unfold WebSocketConnection.isActive, socketState.
    subst w2. cbn. rewrite Ht, Hk. reflexivity. }
  assert (Hl2 : wire (log w2) = wire (log w)).
  { subst w2. cbn. rewrite wire_app, Hl1. cbn. apply app_nil_r. }
  assert (Hq2 : packetQueue (transport w2) = []) by reflexivity.
  set (k := fuel - length items - (startSession_turns E + 3)).
  replace fuel with (length items + (S (S (S (startSession_turns E))) + k)) by lia.
  destruct (drain_resumes E items w2 _ (S (S (S (startSession_turns E))) + k) Hm2 Ho2)
    as (w3 & Hd & Hm3 & L3 & Hw3).
  rewrite Hd. clear Hd.
  assert (Ho3 : WebSocketConnection.isActive w3 = true).
  { destruct (sameLink_live w2 w3 L3) as (H & _). rewrite H. exact Ho2. }
  assert (Hq3 : packetQueue (transport w3) = []).
  { destruct L3 as (Ht & _). rewrite Ht. exact Hq2. }
  (* the hook of the text packet ends *)
  change (S (S (S (startSession_turns E))) + k) with (S (S (S (startSession_turns E)) + k)).
  rewrite (drain_next E _ _ _ _ Hm3).
  destruct (run_BeforeWritingResume E g inworldPacket (WriteResume item packet inworldPacket)
              (with_microtasks [Delay (startSession_turns E) OnReadyResume] w3))
    as (Hl4 & Hm4 & L4).
  fold hook in Hl4, Hm4, L4.
  set (w4 := run E hook _) in *.
  cbn [microtasks with_microtasks app] in Hm4.
  assert (Ho4 : WebSocketConnection.isActive w4 = true).
  { destruct (sameLink_live _ w4 L4) as (H & _). rewrite H. exact Ho3. }
  assert (Hq4 : packetQueue (transport w4) = []).
  { destruct L4 as (Ht & _). rewrite Ht. exact Hq3. }
  assert (Hw4 : wire (log w4)
                = wire (log w)
                  ++ map (fun item => WebSocketConnection.producedPacket E (getPacket item)) items).
  { rewrite Hl4. cbn [log with_microtasks]. rewrite Hw3, Hl2. reflexivity. }
  change (S (S (startSession_turns E)) + k) with (S (S (startSession_turns E) + k)).
  rewrite (drain_next E _ _ _ _ Hm4).
  destruct (startSession_turns E) as [|turns].
  - (* the audio session is ready first *)
    cbn [run].
    destruct (onReadyResume_facts
                (with_microtasks [WriteResume item packet inworldPacket] w4))
      as (Hw5 & Hm5 & Ht5 & Hk5 & Hs5).
    set (w5 := ConnectionService.onReadyResume _) in *.
    cbn [microtasks with_microtasks] in Hm5.
    change (1 + k) with (S k).
    rewrite (drain_next E _ _ _ _ Hm5).
    assert (Ho5 : WebSocketConnection.isActive (with_microtasks [] w5) = true).
    { rewrite <- Ho4. apply live_same; [exact Ht5 | exact Hk5]. }
    destruct (run_WriteResume_live E g packet inworldPacket (with_microtasks [] w5) Ho5)
      as (Hw6 & Hm6 & (Ht6 & _ & _ & Hs6)).
    fold item in Hw6, Hm6, Ht6, Hs6.
    set (w6 := run E (WriteResume item packet inworldPacket) (with_microtasks [] w5)) in *.
    clearbody w6.
    rewrite drain_empty by (rewrite Hm6; reflexivity).
    rewrite Hw6, Hm6, Ht6, Hs6. cbn [log transport service microtasks with_microtasks].
    rewrite Hw5. cbn [log with_microtasks]. rewrite Hw4, <- app_assoc, Ht5.
    repeat split; assumption.
  - (* the text packet is written first *)
    cbn [run].
    set (w5 := enqueue (Delay turns OnReadyResume)
                 (with_microtasks [WriteResume item packet inworldPacket] w4)).
    assert (Hm5 : microtasks w5 = [WriteResume item packet inworldPacket; Delay turns OnReadyResume])
      by reflexivity.
    change (S (S turns) + k) with (S (S turns + k)).
    rewrite (drain_next E _ _ _ _ Hm5).
    assert (Ho5 : WebSocketConnection.isActive (with_microtasks [Delay turns OnReadyResume] w5) = true)
      by exact Ho4.
    destruct (run_WriteResume_live E g packet inworldPacket
                (with_microtasks [Delay turns OnReadyResume] w5) Ho5)
      as (Hw6 & Hm6 & (Ht6 & Hk6 & _ & _)).
    fold item in Hw6, Hm6, Ht6, Hk6.
    set (w6 := run E (WriteResume item packet inworldPacket)
                 (with_microtasks [Delay turns OnReadyResume] w5)) in *.
    clearbody w6.
    cbn [microtasks with_microtasks] in Hm6.
    rewrite (drain_delay E _ _ _ _ Hm6).
    cbn [run].
    destruct (onReadyResume_facts (with_microtasks [] w6)) as (Hw7 & Hm7 & Ht7 & Hk7 & Hs7).
    rewrite drain_empty by (rewrite Hm7; reflexivity).
    rewrite Hw7, Hm7, Ht7, Hs7. cbn [log transport microtasks with_microtasks].
    rewrite Hw6, Ht6. cbn [log transport with_microtasks enqueue w5].
    rewrite Hw4, <- app_assoc.
    repeat split. exact Hq4.
Qed.

End TextFlush.

Section FirstSend.

Context (E : Collaborators).

Lemma muteOnOpen_settles (w : World) :
  Forall (fun item => settlesAtOnce E item = true) (muteOnOpen w).
Proof.
  unfold muteOnOpen.
  destruct (ConnectionService.isAutoReconnected w); [|constructor].
  destruct (ConnectionService.getTtsPlaybackAction w); repeat constructor.
Qed.

Lemma muteOnOpen_length (w : World) : length (muteOnOpen w) <= 1.
Proof.
  unfold muteOnOpen.
  destruct (ConnectionService.isAutoReconnected w); [|cbn; lia].
  destruct (ConnectionService.getTtsPlaybackAction w); cbn; lia.
Qed.

(** The socket created last becomes ready. *)
Lemma last_socket_ready (v : World) (before : list WebSocket) :
  sockets v = before ++ [freshSocket] ->
  ws (transport v) = Some (length before) ->
  let v' := socket_update (length before) (set_readyState OPEN) v in
  WebSocketConnection.isActive v' = true
  /\ listenersFor (length before) ev_open v = [BoundOnReady]
  /\ transport v' = transport v /\ service v' = service v /\ config v' = config v
  /\ microtasks v' = microtasks v /\ log v' = log v.
Proof.
  intros Hk Hws v'.
  assert (Hk' : sockets v' = before ++ [set_readyState OPEN freshSocket])
    by (apply socket_update_last; exact Hk).
  split; [|split; [|repeat split]].
  - unfold WebSocketConnection.isActive, socketState.
    change (transport v') with (transport v). rewrite Hws, Hk'.
    rewrite list_lookup_middle by reflexivity. reflexivity.
  - apply freshSocket_listeners. rewrite Hk. apply list_lookup_middle. reflexivity.
Qed.

(** The first [send] on a page that has no session yet (auto-reconnect on):
    the packet waits in the queue while a token is generated and the scene
    is loaded; then a socket is created for the generated token.  When that
    socket is ready and the timer of [onReady] has fired, the mute signal
    (if playback is muted) and then the packet are on the wire, and the
    service is ACTIVE.  The packet is no TEXT packet, or interruptions are
    off. *)
Theorem first_send_opens_the_connection (w : World) (g : Producer)
    (generated : SessionToken) (loaded : LoadSceneResponse) (fuel : nat) :
  let packet := WebSocketConnection.producedPacket E g in
  microtasks w = [] ->
  timers w = [] ->
  state (service w) = INACTIVE ->
  session (service w) = None ->
  scene (service w) = None ->
  WebSocketConnection.isActive w = false ->
  packetQueue (transport w) = [] ->
  ConnectionService.isAutoReconnected w = true ->
  localStorage w <> Some StoredUndefined ->
  history_previousState (config w) = false ->
  generateSessionToken E (calls w) = Ok generated ->
  engine_loadScene E (S (calls w)) = Ok loaded ->
  isText (convertPacketFromProto E packet) = false \/ interruptions (config w) = false ->
  generateSessionToken_turns E + engine_loadScene_turns E + startSession_turns E + 6 <= fuel ->
  let sock := length (sockets w) in
  let connecting := step E fuel (CallSend g) w in
  let ready := steps E fuel [OnSocket sock Opened; OnFlushTimer] connecting in
  log connecting
  = log w ++ [GenerateSessionToken; EngineLoadScene (Some generated);
              SocketCreated sock generated]
  /\ state (service connecting) = ACTIVATING
  /\ session (service connecting) = Some generated
  /\ scene (service connecting) = Some loaded
  /\ ws (transport connecting) = Some sock
  /\ packetQueue (transport connecting) = muteOnOpen w ++ [ConnectionService.queueItem g]
  /\ wire (log ready)
     = wire (log w)
       ++ map (fun item => WebSocketConnection.producedPacket E (getPacket item)) (muteOnOpen w)
       ++ [packet]
  /\ state (service ready) = ACTIVE
  /\ packetQueue (transport ready) = []
  /\ microtasks ready = [].
Proof.
  intros packet Hm Htm Hst Hse Hsc Hclosed Hq Hauto Hls Hprev Hgen Hload Hkind Hfuel
         sock connecting ready.
  assert (Hinactive : ConnectionService.isActive w = false).
  { unfold ConnectionService.isActive. rewrite Hst. reflexivity. }
  set (written := with_transport
                    (set_packetQueue (packetQueue (transport w) ++ [ConnectionService.queueItem g]))
                    (ConnectionService.cancelScheduler w)).
  assert (Hconnecting : connecting = drain E fuel (ConnectionService.open E written)).
  { subst connecting. unfold step, act.
    rewrite (send_closed E g w Hinactive Hauto Hclosed). reflexivity. }
  rewrite (open_connects E written generated loaded fuel) in Hconnecting;
    try assumption; [|lia].
  change (muteOnOpen written) with (muteOnOpen w) in Hconnecting.
  cbn [config transport service saver sockets localStorage timers calls log
       written with_transport ConnectionService.cancelScheduler with_service
       set_packetQueue packetQueue] in Hconnecting.
  rewrite Hq in Hconnecting. cbn [app] in Hconnecting. fold sock in Hconnecting.
  assert (Hrest : microtasks connecting = [] /\ timers connecting = []
                  /\ sockets connecting = sockets w ++ [freshSocket]
                  /\ config connecting = config w
                  /\ wire (log connecting) = wire (log w)).
  { rewrite Hconnecting. cbn. rewrite wire_app. cbn. rewrite app_nil_r. repeat split.
    exact Htm. }
  destruct Hrest as (Hm1 & Htm1 & Hk1 & Hc1 & Hw1).
  assert (Hws1 : ws (transport connecting) = Some sock) by (rewrite Hconnecting; reflexivity).
  assert (Hq1 : packetQueue (transport connecting)
                = muteOnOpen w ++ [ConnectionService.queueItem g])
    by (rewrite Hconnecting; reflexivity).
  split; [rewrite Hconnecting; reflexivity|].
  split; [rewrite Hconnecting; reflexivity|].
  split; [rewrite Hconnecting; reflexivity|].
  split; [rewrite Hconnecting; reflexivity|].
  split; [exact Hws1|]. split; [exact Hq1|].
  (* the socket is ready *)
  destruct (last_socket_ready connecting (sockets w) Hk1 Hws1)
    as (Hlive & Hlisten & Ht2 & Hs2 & Hc2 & Hm2 & Hl2).
  fold sock in Hlive, Hlisten, Ht2, Hs2, Hc2, Hm2, Hl2.
  set (opened := socket_update sock (set_readyState OPEN) connecting) in *.
  assert (Hready : ready
                   = drain E fuel
                       (WebSocketConnection.flush E (ConnectionService.callBefore E)
                          (ConnectionService.onReady E) opened)).
  { subst ready. apply socket_ready; assumption. }
  rewrite Hm1 in Hm2.
  assert (Hq2 : packetQueue (transport opened)
                = muteOnOpen w ++ [ConnectionService.queueItem g])
    by (rewrite Ht2; exact Hq1).
  pose proof (muteOnOpen_length w) as Hlen.
  destruct (isText (convertPacketFromProto E packet)) eqn:Htext.
  - destruct Hkind as [Hkind|Hint]; [discriminate|].
    destruct (flush_then_text E opened (muteOnOpen w) g fuel) as (Hwire & Hempty & Hdone & Hactive);
      try assumption.
    + apply muteOnOpen_settles.
    + rewrite Hc2, Hc1. exact Hint.
    + lia.
    + rewrite <- Hready in Hwire, Hempty, Hdone, Hactive.
      rewrite Hwire, Hl2, Hw1. repeat split; assumption.
  - destruct (flush_keeps_order E opened fuel) as (Hwire & Hempty & Hdone & Hactive);
      try assumption.
    + rewrite Hq2. apply Forall_app. split; [apply (muteOnOpen_settles w)|].
      constructor; [|constructor]. unfold settlesAtOnce. cbn. fold packet.
      rewrite Htext. reflexivity.
    + rewrite Hq2, length_app. cbn. lia.
    + rewrite <- Hready in Hwire, Hempty, Hdone, Hactive.
      rewrite Hwire, Hl2, Hw1, Hq2, map_app. repeat split; assumption.
Qed.

End FirstSend.

Section BusyFacts.

Context (E : Collaborators).

(** [open] while a load is under way returns without doing anything. *)
Lemma open_while_loading (w : World) (fuel : nat) :
  microtasks w = [] ->
  state (service w) = LOADING ->
  1 <= fuel ->
  drain E fuel (ConnectionService.open E w) = w.
Proof.
  intros Hm Hst Hfuel. unfold ConnectionService.open.
  rewrite getPacketsToSentOnOpen_replay, Hst.
  unfold ConnectionService.loadScene. rewrite Hst.
  destruct fuel as [|fuel]; [lia|]. rewrite drain_S.
  cbn [microtasks enqueue with_microtasks]. rewrite Hm. cbn [app run].
  unfold ConnectionService.openAfterLoadScene.
  cbn [state service with_microtasks enqueue]. rewrite Hst.
  rewrite drain_empty by reflexivity.
  apply World_ext; try reflexivity. cbn. symmetry. exact Hm.
Qed.



End BusyFacts.

Section FailureFacts.

Context (E : Collaborators).

(** An error that asks for no reconnection is only reported. *)
Lemma onError_reports (message : string) (w : World) :
  sessionExpiredRegExp_test message = false ->
  message <> invalidToken ->
  ConnectionService.onError E message w = emit (CallbackError message) w.
Proof.
  intros Hexp Htoken. unfold ConnectionService.onError. rewrite Hexp.
  destruct (String.eqb invalidToken message) eqn:Heq.
  - apply String.eqb_eq in Heq. congruence.
  - reflexivity.
Qed.

(** [open] when the token generator or the scene loader fails. *)
Lemma open_fails (w : World) (message : string) (fuel : nat) :
  microtasks w = [] ->
  state (service w) = INACTIVE ->
  session (service w) = None ->
  scene (service w) = None ->
  localStorage w <> Some StoredUndefined ->
  sessionExpiredRegExp_test message = false ->
  message <> invalidToken ->
  match generateSessionToken E (calls w) with
  | Err m => m = message
  | Ok _ => engine_loadScene E (S (calls w)) = Err message
  end ->
  generateSessionToken_turns E + engine_loadScene_turns E + 4 <= fuel ->
  drain E fuel (ConnectionService.open E w)
  = {| config := config w;
       transport := transport w;
       service :=
         set_state LOADING
           (match generateSessionToken E (calls w) with
            | Err _ => service w
            | Ok generated => set_session (Some generated) (service w)
            end);
       saver := saver w;
       sockets := sockets w;
       localStorage := localStorage w;
       microtasks := [];
       timers := timers w;
       calls := match generateSessionToken E (calls w) with
                | Err _ => S (calls w)
                | Ok _ => S (S (calls w))
                end;
       log := log w
              ++ GenerateSessionToken
                 :: match generateSessionToken E (calls w) with
                    | Err _ => []
                    | Ok generated => [EngineLoadScene (Some generated)]
                    end
              ++ [CallbackError message] |}.
Proof.
  intros Hm Hst Hse Hsc Hls Hexp Htoken Hfail Hfuel.
  unfold ConnectionService.open.
  rewrite getPacketsToSentOnOpen_replay, Hst.
  set (packets := muteOnOpen w). clearbody packets.
  open_world w. norm_in Hm. norm_in Hst. norm_in Hse. norm_in Hsc. norm_in Hls.
  norm_in Hfail. subst. norm.
  unfold ConnectionService.loadScene, ConnectionService.ensureSessionToken. norm.
  replace fuel with (S (generateSessionToken_turns E) + (fuel - S (generateSessionToken_turns E)))
    by lia.
  erewrite drain_delay by reflexivity.
  remember (fuel - S (generateSessionToken_turns E)) as f eqn:Hf.
  assert (Hf' : engine_loadScene_turns E + 3 <= f) by lia. clear Hf Hfuel.
  cbn [run]. unfold ConnectionService.ensureTokenResume.
  destruct (generateSessionToken E n) as [generated|m].
  - change (truthy "") with false. cbn [ConnectionService.tokenResolved]. norm.
    destruct f as [|f]; [lia|]. rewrite drain_S. norm.
    cbn [run]. unfold ConnectionService.loadSceneAfterToken. norm.
    assert (Hstored : forall (A : Type) (a b : A),
              match ls with Some StoredUndefined => a | _ => b end = b).
    { intros A a b. destruct ls as [[?|]|]; try reflexivity. congruence. }
    rewrite Hstored, Hfail.
    replace f with (S (engine_loadScene_turns E) + (f - S (engine_loadScene_turns E))) by lia.
    erewrite drain_delay by reflexivity.
    remember (f - S (engine_loadScene_turns E)) as j eqn:Hj.
    assert (Hj' : 1 <= j) by lia. clear Hj Hf'.
    cbn [run]. unfold ConnectionService.loadSceneAfterEngine, ConnectionService.loadSceneCatch.
    rewrite onError_reports by assumption. norm.
    destruct j as [|j]; [lia|]. rewrite drain_S. norm.
    cbn [run]. unfold ConnectionService.openAfterLoadScene. norm.
    rewrite drain_empty by reflexivity.
    rewrite <- !app_assoc. reflexivity.
  - subst m. cbn [ConnectionService.tokenRejected]. norm.
    destruct f as [|f]; [lia|]. rewrite drain_S. norm.
    cbn [run]. unfold ConnectionService.loadSceneCatch.
    rewrite onError_reports by assumption. norm.
    destruct f as [|f]; [lia|]. rewrite drain_S. norm.
    cbn [run]. unfold ConnectionService.openAfterLoadScene. norm.
    rewrite drain_empty by reflexivity.
    rewrite <- !app_assoc. reflexivity.
Qed.

(** The first [send] when the token generator or the scene loader fails
    with an error that asks for no reconnection: the error is reported
    once, no socket is created, and the service is left in state LOADING.
    In that state every later [send] only queues its packet: the load is
    not tried again. *)
Theorem failed_load_leaves_the_service_loading (w : World) (g : Producer)
    (message : string) (fuel : nat) :
  microtasks w = [] ->
  state (service w) = INACTIVE ->
  session (service w) = None ->
  scene (service w) = None ->
  WebSocketConnection.isActive w = false ->
  ConnectionService.isAutoReconnected w = true ->
  localStorage w <> Some StoredUndefined ->
  sessionExpiredRegExp_test message = false ->
  message <> invalidToken ->
  match generateSessionToken E (calls w) with
  | Err m => m = message
  | Ok _ => engine_loadScene E (S (calls w)) = Err message
  end ->
  generateSessionToken_turns E + engine_loadScene_turns E + 4 <= fuel ->
  let w' := step E fuel (CallSend g) w in
  state (service w') = LOADING
  /\ sockets w' = sockets w
  /\ ws (transport w') = ws (transport w)
  /\ packetQueue (transport w') = packetQueue (transport w) ++ [ConnectionService.queueItem g]
  /\ log w'
     = log w
       ++ GenerateSessionToken
          :: match generateSessionToken E (calls w) with
             | Err _ => []
             | Ok generated => [EngineLoadScene (Some generated)]
             end
       ++ [CallbackError message]
  /\ (forall g' fuel', 3 <= fuel' ->
        let w'' := step E fuel' (CallSend g') w' in
        log w'' = log w' /\ sockets w'' = sockets w'
        /\ state (service w'') = LOADING
        /\ packetQueue (transport w'')
           = packetQueue (transport w') ++ [ConnectionService.queueItem g']).
Proof.
  intros Hm Hst Hse Hsc Hclosed Hauto Hls Hexp Htoken Hfail Hfuel w'.
  assert (Hinactive : ConnectionService.isActive w = false).
  { unfold ConnectionService.isActive. rewrite Hst. reflexivity. }
  set (written := with_transport
                    (set_packetQueue (packetQueue (transport w) ++ [ConnectionService.queueItem g]))
                    (ConnectionService.cancelScheduler w)).
  assert (Hw' : w' = drain E fuel (ConnectionService.open E written)).
  { subst w'. unfold step, act.
    rewrite (send_closed E g w Hinactive Hauto Hclosed). reflexivity. }
  rewrite (open_fails written message fuel) in Hw'; try assumption.
  cbn [config transport service saver sockets localStorage timers calls log
       written with_transport ConnectionService.cancelScheduler with_service] in Hw'.
  split; [rewrite Hw'; reflexivity|].
  split; [rewrite Hw'; reflexivity|].
  split; [rewrite Hw'; reflexivity|].
  split; [rewrite Hw'; reflexivity|].
  split; [rewrite Hw'; reflexivity|].
  intros g' fuel' Hfuel' w''. subst w''. unfold step, act.
  assert (Hloading : state (service w') = LOADING) by (rewrite Hw'; reflexivity).
  rewrite (send_closed E g' w').
  - rewrite open_while_loading; [ | rewrite Hw'; reflexivity | exact Hloading | lia ].
    cbn. rewrite Hloading. repeat split.
  - unfold ConnectionService.isActive. rewrite Hloading. reflexivity.
  - rewrite <- Hauto. rewrite Hw'. reflexivity.
  - rewrite <- Hclosed. rewrite Hw'. reflexivity.
Qed.

(** [loadScene] reads the stored snapshot with [JSON.parse].  When the
    store holds a text that is no JSON, the first [send] of a page
    generates the token and then reports an error: the scene loader is not
    called, no socket is created, and the service is left in state
    LOADING. *)
Theorem unparsable_store_blocks_the_load (w : World) (g : Producer)
    (generated : SessionToken) (fuel : nat) :
  microtasks w = [] ->
  state (service w) = INACTIVE ->
  session (service w) = None ->
  scene (service w) = None ->
  WebSocketConnection.isActive w = false ->
  ConnectionService.isAutoReconnected w = true ->
  localStorage w = Some StoredUndefined ->
  generateSessionToken E (calls w) = Ok generated ->
  generateSessionToken_turns E + 4 <= fuel ->
  let w' := step E fuel (CallSend g) w in
  state (service w') = LOADING
  /\ scene (service w') = None
  /\ sockets w' = sockets w
  /\ ws (transport w') = ws (transport w)
  /\ microtasks w' = []
  /\ exists message, log w' = log w ++ [GenerateSessionToken; CallbackError message].
Proof.
  intros Hm Hst Hse Hsc Hclosed Hauto Hls Hgen Hfuel w'.
  assert (Hinactive : ConnectionService.isActive w = false).
  { unfold ConnectionService.isActive. rewrite Hst. reflexivity. }
  subst w'. unfold step, act.
  rewrite (send_closed E g w Hinactive Hauto Hclosed).
  unfold ConnectionService.open.
  rewrite getPacketsToSentOnOpen_replay.
  cbn [state service with_transport ConnectionService.cancelScheduler with_service
       set_disconnectArmed].
  rewrite Hst.
  set (packets := muteOnOpen _). clearbody packets.
  open_world w. norm_in Hm. norm_in Hst. norm_in Hse. norm_in Hsc. norm_in Hls.
  norm_in Hgen. subst. norm.
  unfold ConnectionService.cancelScheduler. norm.
  unfold ConnectionService.loadScene, ConnectionService.ensureSessionToken. norm.
  rewrite Hgen.
  replace fuel with (S (generateSessionToken_turns E) + (fuel - S (generateSessionToken_turns E)))
    by lia.
  erewrite drain_delay by reflexivity.
  remember (fuel - S (generateSessionToken_turns E)) as f eqn:Hf.
  assert (Hf' : 3 <= f) by lia. clear Hf Hfuel.
  cbn [run]. unfold ConnectionService.ensureTokenResume.
  change (truthy "") with false. cbn [ConnectionService.tokenResolved]. norm.
  destruct f as [|f]; [lia|]. rewrite drain_S. norm.
  cbn [run]. unfold ConnectionService.loadSceneAfterToken. norm.
  rewrite onError_reports by (first [reflexivity | discriminate]). norm.
  destruct f as [|f]; [lia|]. rewrite drain_S. norm.
  cbn [run]. unfold ConnectionService.openAfterLoadScene. norm.
  rewrite drain_empty by reflexivity. norm.
  repeat split. eexists. rewrite <- app_assoc. reflexivity.
Qed.

(** A save whose token refresh fails: [getSessionState] reports the error
    and answers [undefined], and the save stores that, a text that is no
    JSON, in place of the snapshot. *)
Theorem failed_refresh_stores_no_snapshot (w : World) (message : string) (fuel : nat) :
  microtasks w = [] ->
  match session (service w) with
  | Some s => isExpired E (calls w) s = true
  | None => True
  end ->
  generateSessionToken E (calls w) = Err message ->
  sessionExpiredRegExp_test message = false ->
  message <> invalidToken ->
  generateSessionToken_turns E + 4 <= fuel ->
  let w' := drain E fuel (SessionStateService.saveSessionState E w) in
  localStorage w' = Some StoredUndefined
  /\ SessionStateService.savedSessionState w' = None
  /\ isSaving (saver w') = false
  /\ service w' = service w
  /\ microtasks w' = []
  /\ log w' = log w ++ [GenerateSessionToken; CallbackError message;
                        LocalStorageSet StoredUndefined].
Proof.
  intros Hm Hstale Hgen Hexp Htoken Hfuel w'. subst w'.
  unfold SessionStateService.saveSessionState, SessionStateService.clearInterval,
    ConnectionService.getSessionState, ConnectionService.ensureSessionToken.
  assert (Hs : match session (service w) with
               | Some s => isExpired E (calls w) s
               | None => true
               end = true).
  { destruct (session (service w)); [exact Hstale | reflexivity]. }
  rewrite Hs, Hgen.
  set (previous := match session (service w) with Some s => sessionId s | None => "" end).
  clearbody previous.
  open_world w. norm_in Hm. subst. norm.
  replace fuel with (S (generateSessionToken_turns E) + (fuel - S (generateSessionToken_turns E)))
    by lia.
  erewrite drain_delay by reflexivity.
  remember (fuel - S (generateSessionToken_turns E)) as f eqn:Hf.
  assert (Hf' : 3 <= f) by lia. clear Hf Hfuel.
  cbn [run]. unfold ConnectionService.ensureTokenResume.
  cbn [ConnectionService.tokenRejected]. norm.
  destruct f as [|f]; [lia|]. rewrite drain_S. norm.
  cbn [run]. unfold ConnectionService.getSessionStateCatch.
  rewrite onError_reports by assumption. norm.
  destruct f as [|f]; [lia|]. rewrite drain_S. norm.
  cbn [run]. unfold SessionStateService.saveSettled. norm.
  rewrite drain_empty by reflexivity. norm.
  rewrite <- !app_assoc. repeat split.
Qed.

End FailureFacts.

Section ServiceClose.

Context (E : Collaborators).

Lemma socket_update_lookup sock f s w :
  sockets w !! sock = Some s ->
  sockets (socket_update sock f w) !! sock = Some (f s).
Proof.
  intros H. unfold socket_update. cbn. rewrite H.
  apply list_lookup_insert_eq. eapply lookup_lt_Some. exact H.
Qed.

(** What the four calls of [removeEventListener] leave of the listeners
    that [createWebSocket] registered. *)
Lemma detached_socket sock s w :
  sockets w !! sock = Some s ->
  listeners s = listeners freshSocket ->
  sockets (detached sock w) !! sock
  = Some {| readyState := readyState s;
            listeners := [(ev_open, BoundOnReady); (ev_message, BoundOnMessage);
                          (ev_error, BoundOnError)] |}.
Proof.
  intros Hs Hl. unfold detached, removeEventListener.
  erewrite socket_update_lookup;
    [ | erewrite socket_update_lookup;
        [ | erewrite socket_update_lookup;
            [ | erewrite socket_update_lookup; [ | exact Hs ]; reflexivity ]; reflexivity ];
        reflexivity ].
  cbn. rewrite Hl. reflexivity.
Qed.

Lemma detached_fields sock w :
  config (detached sock w) = config w /\ service (detached sock w) = service w
  /\ saver (detached sock w) = saver w /\ localStorage (detached sock w) = localStorage w
  /\ microtasks (detached sock w) = microtasks w /\ timers (detached sock w) = timers w
  /\ calls (detached sock w) = calls w.
Proof. repeat split. Qed.

(** [close()] of the service.  The state is INACTIVE, the idle timer is
    cancelled, the transport has no socket and an empty queue: packets that
    were waiting for the socket are dropped.  The session, the scene, the
    history, the cancel markers, the packets in progress and the playback
    action are kept.  The host's [onDisconnect] is called, and the audio
    session action reset, only if the socket was open.  A second [close()]
    changes nothing. *)
Theorem service_close_keeps_the_session (w : World) :
  let w' := ConnectionService.close w in
  state (service w') = INACTIVE
  /\ disconnectArmed (service w') = false
  /\ ws (transport w') = None
  /\ packetQueue (transport w') = []
  /\ session (service w') = session (service w)
  /\ scene (service w') = scene (service w)
  /\ history (service w') = history (service w)
  /\ cancelResponses (service w') = cancelResponses (service w)
  /\ packetsInProgress (service w') = packetsInProgress (service w)
  /\ ttsPlaybackAction (service w') = ttsPlaybackAction (service w)
  /\ microtasks w' = microtasks w
  /\ (if WebSocketConnection.isActive w
      then exists sock, ws (transport w) = Some sock
             /\ log w' = log w ++ [SocketClose sock; CallbackDisconnect]
             /\ audioSessionAction (service w') = AUDIO_UNKNOWN
      else log w' = log w
           /\ audioSessionAction (service w') = audioSessionAction (service w))
  /\ ConnectionService.close w' = w'.
Proof.
  intros w'. subst w'. unfold ConnectionService.close.
  set (v := with_service (set_state INACTIVE) (ConnectionService.cancelScheduler w)).
  assert (Hlive : WebSocketConnection.isActive v = WebSocketConnection.isActive w) by reflexivity.
  assert (Hagain : forall closed,
            ws (transport closed) = None -> packetQueue (transport closed) = [] ->
            state (service closed) = INACTIVE -> disconnectArmed (service closed) = false ->
            WebSocketConnection.close ConnectionService.onDisconnect
              (with_service (set_state INACTIVE) (ConnectionService.cancelScheduler closed))
            = closed).
  { intros closed Hws Hq Hst Hda.
    assert (Hsame : with_service (set_state INACTIVE) (ConnectionService.cancelScheduler closed)
                    = closed).
    { apply World_ext; try reflexivity. apply Service_ext; try reflexivity.
      - cbn. symmetry. exact Hst.
      - cbn. symmetry. exact Hda. }
    rewrite Hsame. apply close_of_closed; assumption. }
  rewrite close_unfold.
  change (ws (transport v)) with (ws (transport w)).
  destruct (ws (transport w)) as [sock|] eqn:Hws.
  - cbn zeta. rewrite Hlive.
    destruct (WebSocketConnection.isActive w) eqn:Hactive.
    + do 11 (split; [reflexivity|]). split.
      * exists sock. split; [reflexivity|]. split; [|reflexivity].
        cbn. rewrite <- app_assoc. reflexivity.
      * apply Hagain; reflexivity.
    + do 11 (split; [reflexivity|]). split.
      * split; reflexivity.
      * apply Hagain; reflexivity.
  - assert (Hdead : WebSocketConnection.isActive w = false).
    { unfold WebSocketConnection.isActive. rewrite Hws. reflexivity. }
    rewrite Hdead.
    do 11 (split; [reflexivity|]). split.
    + split; reflexivity.
    + apply Hagain; reflexivity.
Qed.

End ServiceClose.

Section TimerFacts.

Context (E : Collaborators).

(** The hook [AfterWrite] arms the idle timer when a timeout is configured. *)
Lemma callAfter_AfterWrite_armed packet v :
  disconnectArmed (service (ConnectionService.callAfter E AfterWrite packet v))
  = match disconnectTimeout (config v) with
    | O => disconnectArmed (service v)
    | S _ => true
    end.
Proof.
  unfold ConnectionService.callAfter. rewrite addPacketToHistory_service.
  unfold ConnectionService.scheduleDisconnect.
  destruct (disconnectTimeout (config v)); reflexivity.
Qed.

Lemma service_close_microtasks (v : World) :
  microtasks (ConnectionService.close v) = microtasks v.
Proof.
  unfold ConnectionService.close. rewrite close_unfold.
  cbn [transport with_service ConnectionService.cancelScheduler].
  destruct (ws (transport v)); [|reflexivity].
  cbn zeta. destruct (WebSocketConnection.isActive _); reflexivity.
Qed.

(** An idle timeout is configured: a packet written on the live connection
    arms the idle timer, and when the timer fires the service closes the
    connection: the socket is closed and the host's [onDisconnect] is
    called.  No timeout is configured: no timer is pending after the write,
    and the connection stays up. *)
Theorem idle_timer_closes_the_connection (w : World) (g : Producer) (fuel : nat) :
  let packet := WebSocketConnection.producedPacket E g in
  microtasks w = [] ->
  ConnectionService.isActive w = true ->
  WebSocketConnection.isActive w = true ->
  isText (convertPacketFromProto E packet) = false ->
  2 <= fuel ->
  let sent := step E fuel (CallSend g) w in
  let idle := step E fuel OnDisconnectTimer sent in
  wire (log sent) = wire (log w) ++ [packet]
  /\ match disconnectTimeout (config w) with
     | O => disconnectArmed (service sent) = false /\ idle = sent
     | S _ =>
         disconnectArmed (service sent) = true
         /\ state (service idle) = INACTIVE
         /\ ws (transport idle) = None
         /\ disconnectArmed (service idle) = false
         /\ exists sock, ws (transport w) = Some sock
              /\ log idle = log sent ++ [SocketClose sock; CallbackDisconnect]
     end.
Proof.
  intros packet Hm Hactive Hopen Htext Hfuel sent idle.
  set (inworldPacket := convertPacketFromProto E packet) in *.
  set (v := with_microtasks []
              (enqueue (WriteResume (ConnectionService.queueItem g) packet inworldPacket)
                 (ConnectionService.recordInProgress g inworldPacket
                    (ConnectionService.cancelScheduler w)))).
  assert (Hsent : sent = run E (WriteResume (ConnectionService.queueItem g) packet inworldPacket) v).
  { subst sent. unfold step, act.
    rewrite (send_live E g w Hactive Hopen Htext). fold packet. fold inworldPacket.
    destruct fuel as [|fuel]; [lia|].
    rewrite (drain_next E fuel (WriteResume (ConnectionService.queueItem g) packet inworldPacket) []).
    - fold v.
      destruct (run_WriteResume_live E g packet inworldPacket v) as (_ & Hq & _).
      + rewrite <- Hopen. apply live_same;
          unfold v, ConnectionService.recordInProgress;
          destruct (isText inworldPacket || isAudio inworldPacket); reflexivity.
      + apply drain_empty. rewrite Hq. reflexivity.
    - unfold ConnectionService.recordInProgress.
      destruct (isText inworldPacket || isAudio inworldPacket); cbn; rewrite Hm; reflexivity. }
  assert (Hv : transport v = transport w /\ sockets v = sockets w /\ config v = config w
               /\ disconnectArmed (service v) = false /\ log v = log w).
  { unfold v, ConnectionService.recordInProgress.
    destruct (isText inworldPacket || isAudio inworldPacket); repeat split. }
  destruct Hv as (Hvt & Hvk & Hvc & Hva & Hvl).
  assert (Hvo : WebSocketConnection.isActive v = true).
  { rewrite <- Hopen. apply live_same; assumption. }
  destruct (run_WriteResume_live E g packet inworldPacket v Hvo) as (Hwire & Hq & (Ht & Hk & Hc & Hs)).
  rewrite <- Hsent in Hwire, Hq, Ht, Hk, Hc, Hs.
  assert (Harmed : disconnectArmed (service sent)
                   = match disconnectTimeout (config w) with O => false | S _ => true end).
  { rewrite Hsent. cbn [run].
    destruct (isActive_socket v Hvo) as (sock & Hws & Hsock).
    rewrite (writeResume_live E sock _ _ _ _ Hws Hsock).
    cbn [afterWriting ConnectionService.queueItem].
    rewrite callAfter_AfterWrite_armed. cbn [config emit service]. rewrite Hvc, Hva.
    destruct (disconnectTimeout (config w)); reflexivity. }
  split; [rewrite Hwire, Hvl; reflexivity|].
  assert (Hlive : WebSocketConnection.isActive sent = true).
  { rewrite <- Hvo. apply live_same; assumption. }
  destruct (disconnectTimeout (config w)) as [|timeout].
  - split; [exact Harmed|]. subst idle. unfold step, act, fireDisconnectTimer.
    rewrite Harmed. apply drain_empty. exact Hq.
  - split; [exact Harmed|].
    assert (Hidle : idle = ConnectionService.close (with_service (set_disconnectArmed false) sent)).
    { subst idle. unfold step, act, fireDisconnectTimer. rewrite Harmed.
      apply drain_empty. rewrite service_close_microtasks. cbn. rewrite Hq. reflexivity. }
    destruct (isActive_socket sent Hlive) as (sock & Hws & _).
    rewrite Hidle. unfold ConnectionService.close.
    set (v2 := with_service (set_state INACTIVE)
                 (ConnectionService.cancelScheduler
                    (with_service (set_disconnectArmed false) sent))).
    assert (Hl2 : WebSocketConnection.isActive v2 = true) by exact Hlive.
    assert (Hws2 : ws (transport v2) = Some sock) by exact Hws.
    rewrite close_unfold, Hws2. cbn zeta. rewrite Hl2.
    do 3 (split; [reflexivity|]).
    exists sock. split.
    + rewrite <- Hvt, <- Ht. exact Hws.
    + cbn. rewrite <- app_assoc. reflexivity.
Qed.

(** [close()] while the socket is still connecting does not close that
    socket and leaves its [open] listener attached.  So when the socket
    opens later, the service starts the audio session, tells the host it
    is ready and turns ACTIVE, although the transport holds no socket; a
    packet sent then is queued, nothing is written and no connection is
    opened for it. *)
Theorem close_while_connecting_leaves_the_socket (w : World) (sock fuel : nat) :
  microtasks w = [] ->
  timers w = [] ->
  ws (transport w) = Some sock ->
  sockets w !! sock = Some freshSocket ->
  startSession_turns E + 2 <= fuel ->
  let closed := step E fuel CallClose w in
  let late := steps E fuel [OnSocket sock Opened; OnFlushTimer] closed in
  log closed = log w
  /\ state (service closed) = INACTIVE
  /\ ws (transport closed) = None
  /\ socketState sock closed = Some CONNECTING
  /\ listenersFor sock ev_open closed = [BoundOnReady]
  /\ log late = log w ++ [StartSession; PlayerSetStream; CallbackReady]
  /\ state (service late) = ACTIVE
  /\ ws (transport late) = None
  /\ socketState sock late = Some OPEN
  /\ (forall g, let queued := step E fuel (CallSend g) late in
        packetQueue (transport queued) = [ConnectionService.queueItem g]
        /\ log queued = log late
        /\ sockets queued = sockets late
        /\ microtasks queued = []).
Proof.
  intros Hm Htm Hws Hsock Hfuel closed late.
  set (v := with_service (set_state INACTIVE) (ConnectionService.cancelScheduler w)).
  assert (Hdead : WebSocketConnection.isActive v = false).
  { unfold WebSocketConnection.isActive, socketState. cbn. rewrite Hws, Hsock. reflexivity. }
  assert (Hclosed : closed
                    = with_transport (set_packetQueue [])
                        (with_transport (set_ws None) (detached sock v))).
  { subst closed. unfold step, act, ConnectionService.close. fold v.
    rewrite close_unfold.
    change (ws (transport v)) with (ws (transport w)). rewrite Hws. cbn zeta.
    rewrite Hdead. apply drain_empty. exact Hm. }
  assert (Hks : sockets closed !! sock
                = Some {| readyState := CONNECTING;
                          listeners := [(ev_open, BoundOnReady); (ev_message, BoundOnMessage);
                                        (ev_error, BoundOnError)] |}).
  { rewrite Hclosed. cbn [sockets with_transport].
    apply (detached_socket sock freshSocket v); [exact Hsock | reflexivity]. }
  assert (Hlisten : listenersFor sock ev_open closed = [BoundOnReady]).
  { unfold listenersFor. rewrite Hks. reflexivity. }
  destruct (detached_frame sock v) as (_ & Hdl & _ & _).
  assert (Hfields : log closed = log w /\ state (service closed) = INACTIVE
                    /\ ws (transport closed) = None /\ microtasks closed = []
                    /\ timers closed = [] /\ packetQueue (transport closed) = []).
  { rewrite Hclosed. cbn. repeat split; assumption. }
  destruct Hfields as (Hl1 & Hs1 & Hw1 & Hm1 & Htm1 & Hq1).
  split; [exact Hl1|]. split; [exact Hs1|]. split; [exact Hw1|].
  split; [unfold socketState; rewrite Hks; reflexivity|].
  split; [exact Hlisten|].
  (* the socket opens *)
  set (opened := socket_update sock (set_readyState OPEN) closed).
  assert (Hlate : late = ConnectionService.onReadyResume
                           (with_microtasks []
                              (enqueue (Delay (startSession_turns E) OnReadyResume)
                                 (called (emit StartSession
                                    (with_transport (set_packetQueue []) opened)))))).
  { subst late. rewrite (socket_ready E closed sock fuel Hm1 Htm1 Hlisten). fold opened.
    unfold WebSocketConnection.flush.
    change (packetQueue (transport opened)) with (packetQueue (transport closed)).
    rewrite Hq1. cbn [fold_left]. unfold ConnectionService.onReady.
    replace fuel with (S (startSession_turns E) + (fuel - S (startSession_turns E))) by lia.
    erewrite drain_delay by (cbn; rewrite Hm1; reflexivity).
    cbn [run]. apply drain_empty. cbn. reflexivity. }
  assert (Hfields2 : log late = log w ++ [StartSession; PlayerSetStream; CallbackReady]
                     /\ state (service late) = ACTIVE /\ ws (transport late) = None
                     /\ sockets late = sockets opened /\ microtasks late = []
                     /\ packetQueue (transport late) = []).
  { rewrite Hlate. cbn. rewrite Hl1, <- !app_assoc. repeat split. exact Hw1. }
  destruct Hfields2 as (Hl2 & Hs2 & Hw2 & Hk2 & Hm2 & Hq2).
  split; [exact Hl2|]. split; [exact Hs2|]. split; [exact Hw2|].
  split.
  { unfold socketState. rewrite Hk2. unfold opened.
    rewrite (socket_update_lookup sock _ _ closed Hks). reflexivity. }
  clear Hlate. clearbody late.
  intros g queued. subst queued. unfold step, act, ConnectionService.send.
  assert (Ha : ConnectionService.isActive (ConnectionService.cancelScheduler late) = true).
  { unfold ConnectionService.isActive. cbn. rewrite Hs2. reflexivity. }
  rewrite Ha. cbn [negb andb]. unfold ConnectionService.write.
  assert (Hd : WebSocketConnection.isActive (ConnectionService.cancelScheduler late) = false).
  { unfold WebSocketConnection.isActive. cbn. rewrite Hw2. reflexivity. }
  rewrite (write_closed E _ _ Hd).
  change (ConnectionService.isActive (with_transport _ (ConnectionService.cancelScheduler late)))
    with (ConnectionService.isActive (ConnectionService.cancelScheduler late)).
  rewrite Ha. rewrite drain_empty by (cbn; exact Hm2).
  cbn. rewrite Hq2. repeat split. exact Hm2.
Qed.

(** An [error] event of a socket on which the transport listens is
    reported to the host as the text of the event and changes nothing
    else: the state of the service is kept and no reconnection starts.
    This is so after [close()] too: the listener stays attached. *)
Theorem socket_error_is_only_reported (w : World) (sock : nat) (s : WebSocket) :
  sockets w !! sock = Some s ->
  listeners s = listeners freshSocket ->
  dispatch E sock Errored w = emit (CallbackError "[object Event]") w
  /\ (ws (transport w) = Some sock ->
      dispatch E sock Errored (ConnectionService.close w)
      = emit (CallbackError "[object Event]") (ConnectionService.close w)).
Proof.
  intros Hs Hl.
  assert (Hreport : forall v, listenersFor sock ev_error v = [BoundOnError] ->
            dispatch E sock Errored v = emit (CallbackError "[object Event]") v).
  { intros v Hv. unfold dispatch, fire. rewrite Hv. cbn [fold_left callListener].
    unfold WebSocketConnection.onError.
    apply onError_reports; [reflexivity | discriminate]. }
  split.
  - apply Hreport. unfold listenersFor. rewrite Hs, Hl. reflexivity.
  - intros Hws. apply Hreport.
    unfold ConnectionService.close. rewrite close_unfold.
    cbn [transport with_service ConnectionService.cancelScheduler]. rewrite Hws. cbn zeta.
    set (v := with_service (set_state INACTIVE) (ConnectionService.cancelScheduler w)).
    pose proof (detached_socket sock s v Hs Hl) as Hd.
    destruct (WebSocketConnection.isActive v).
    + unfold listenersFor. cbn [sockets with_transport ConnectionService.onDisconnect
                                  with_service emit].
      rewrite (socket_update_lookup sock _ _ _ Hd). reflexivity.
    + unfold listenersFor. cbn [sockets with_transport]. rewrite Hd. reflexivity.
Qed.

End TimerFacts.

(** ** What the connection code leaves alone: the save loop's own state *)

Section SaverFrame.

Context (E : Collaborators).

Ltac service_defs :=
  unfold ConnectionService.onMessage, ConnectionService.onMessageResume,
    ConnectionService.interrupt, ConnectionService.interruptResume,
    ConnectionService.sendCancelResponses,
    ConnectionService.send, ConnectionService.write, ConnectionService.openManually,
    ConnectionService.open, ConnectionService.getPacketsToSentOnOpen,
    ConnectionService.loadScene, ConnectionService.getSessionState,
    ConnectionService.getSessionStateAfterToken, ConnectionService.getSessionStateCatch,
    ConnectionService.ensureSessionToken, ConnectionService.ensureTokenResume,
    ConnectionService.loadSceneAfterToken, ConnectionService.loadSceneCatch,
    ConnectionService.loadSceneEnd,
    ConnectionService.openAfterConnectionOpen,
    ConnectionService.onReady, ConnectionService.onReadyResume, ConnectionService.onDisconnect,
    WebSocketConnection.write, WebSocketConnection.writeResume,
    WebSocketConnection.onReady, WebSocketConnection.onMessage, WebSocketConnection.onError,
    ConnectionService.callBefore, ConnectionService.callAfter,
    ConnectionService.interruptByPacket, ConnectionService.beforeWritingResume,
    ConnectionService.recordInProgress, ConnectionService.addPacketToHistory,
    ConnectionService.scheduleDisconnect, ConnectionService.cancelScheduler,
    ConnectionService.isActive, ConnectionService.isAutoReconnected,
    WebSocketConnection.isActive, ConnectionService.queueItem.

Lemma open_saver w :
  saver (ConnectionService.open E w) = saver w
  /\ localStorage (ConnectionService.open E w) = localStorage w.
Proof. service_defs. run_cases; split; reflexivity. Qed.

Lemma onError_saver message w :
  saver (ConnectionService.onError E message w) = saver w
  /\ localStorage (ConnectionService.onError E message w) = localStorage w.
Proof.
  unfold ConnectionService.onError.
  destruct (_ && _); [|split; reflexivity].
  apply (open_saver
           (with_service (set_state INACTIVE)
              (with_service (set_scene None)
                 (with_service (set_session None) (emit (CallbackError message) w))))).
Qed.

Lemma send_saver g w :
  saver (ConnectionService.send E g w) = saver w
  /\ localStorage (ConnectionService.send E g w) = localStorage w.
Proof.
  unfold ConnectionService.send.
  destruct (_ && _); [apply (onError_saver _ (ConnectionService.cancelScheduler w))|].
  service_defs. run_cases; split; reflexivity.
Qed.

Lemma sendCancelResponses_saver props characters w :
  saver (ConnectionService.sendCancelResponses E props characters w) = saver w
  /\ localStorage (ConnectionService.sendCancelResponses E props characters w) = localStorage w.
Proof.
  unfold ConnectionService.sendCancelResponses.
  destruct (truthy (cancel_interactionId props)); [|split; reflexivity].
  cbn. apply send_saver.
Qed.

Lemma onMessage_saver packet w :
  saver (ConnectionService.onMessage E packet w) = saver w
  /\ localStorage (ConnectionService.onMessage E packet w) = localStorage w.
Proof.
  unfold ConnectionService.onMessage.
  set (p := convertPacketFromProto E packet).
  set (w1 := if isInteractionEnd p then _ else w).
  assert (H1 : saver w1 = saver w /\ localStorage w1 = localStorage w)
    by (subst w1; destruct (isInteractionEnd p); split; reflexivity).
  destruct H1 as (H1 & H1').
  destruct (isText p && negb (isPlayer (source (inworld_routing p))) && _).
  - rewrite <- H1, <- H1'. apply sendCancelResponses_saver.
  - rewrite <- H1, <- H1'.
    destruct (isText p && isPlayer (source (inworld_routing p)));
      unfold ConnectionService.interruptByPacket, ConnectionService.onMessageResume,
        ConnectionService.addPacketToHistory;
      run_cases; split; reflexivity.
Qed.

Lemma setPreviousState_saver packets w :
  saver (ConnectionService.setPreviousState E packets w) = saver w
  /\ localStorage (ConnectionService.setPreviousState E packets w) = localStorage w.
Proof.
  unfold ConnectionService.setPreviousState.
  set (f := fun (w : World) (packet : ProtoPacket) => _).
  assert (H : saver (fold_left f packets w) = saver w
              /\ localStorage (fold_left f packets w) = localStorage w).
  { revert w. induction packets as [|p ps IH]; intros w; [split; reflexivity|].
    cbn [fold_left]. destruct (IH (f w p)) as (A & B). rewrite A, B. split; reflexivity. }
  destruct H as (A & B).
  destruct (history (service (fold_left f packets w))); cbn; rewrite ?A, ?B; split; reflexivity.
Qed.

Lemma socket_update_saver sock f w :
  saver (socket_update sock f w) = saver w
  /\ localStorage (socket_update sock f w) = localStorage w.
Proof. split; reflexivity. Qed.

Lemma transport_open_saver s packets w :
  saver (WebSocketConnection.open s packets w) = saver w
  /\ localStorage (WebSocketConnection.open s packets w) = localStorage w.
Proof. rewrite open_record. split; reflexivity. Qed.

Lemma transport_close_saver w :
  saver (WebSocketConnection.close ConnectionService.onDisconnect w) = saver w
  /\ localStorage (WebSocketConnection.close ConnectionService.onDisconnect w) = localStorage w.
Proof.
  rewrite close_unfold. destruct (ws (transport w)); [|split; reflexivity].
  cbn zeta. destruct (WebSocketConnection.isActive w); split; reflexivity.
Qed.

(** A job of the microtask queue changes the save loop's state in one
    way only: the end of a save clears [isSaving]. *)
Lemma run_pollers t : forall w,
  pollers (saver (run E t w)) = pollers (saver w)
  /\ isBlurred (saver (run E t w)) = isBlurred (saver w).
Proof.
  induction t; intros w; cbn [run].
  - split; reflexivity.
  - destruct n; [apply IHt | split; reflexivity].
  - service_defs. run_cases; split; reflexivity.
  - service_defs. run_cases; split; reflexivity.
  - unfold ConnectionService.interruptResume. destruct packets as [|first rest].
    + split; reflexivity.
    + cbn [saver enqueue with_microtasks].
      destruct (sendCancelResponses_saver
                  {| cancel_interactionId := interactionId (inworld_packetId first);
                     cancel_utteranceId :=
                       map (fun p => utteranceId (inworld_packetId p)) (first :: rest) |}
                  (map (fun p => {| id := name (source (inworld_routing p)) |}) (first :: rest))
                  w) as (A & _).
      rewrite A. split; reflexivity.
  - service_defs. run_cases; split; reflexivity.
  - unfold ConnectionService.openAfterLoadScene.
    destruct (state (service w)); try (split; reflexivity).
    cbn [session service with_service set_state].
    destruct (session (service w)) as [s|].
    + cbn [saver enqueue with_microtasks].
      destruct (transport_open_saver s packets (with_service (set_state ACTIVATING) w)) as (A & _).
      rewrite A. split; reflexivity.
    + destruct (onError_saver "TypeError" (with_service (set_state ACTIVATING) w)) as (A & _).
      rewrite A. split; reflexivity.
  - unfold ConnectionService.openAfterConnectionOpen. service_defs. run_cases; split; reflexivity.
  - unfold ConnectionService.loadSceneAfterToken.
    destruct (scene (service w)); [service_defs; run_cases; split; reflexivity|].
    destruct (localStorage w) as [[?|]|]; service_defs; run_cases; split; reflexivity.
  - unfold ConnectionService.loadSceneCatch.
    destruct (onError_saver message w) as (A & _).
    cbn. rewrite A. split; reflexivity.
  - unfold ConnectionService.loadSceneAfterEngine. destruct r as [loaded|message].
    + destruct (history_previousState _).
      * unfold ConnectionService.loadSceneEnd.
        destruct (setPreviousState_saver (previousState loaded)
                    (with_service (set_scene (Some loaded)) w)) as (A & _).
        destruct (state _); cbn; rewrite A; split; reflexivity.
      * service_defs. run_cases; split; reflexivity.
    + unfold ConnectionService.loadSceneCatch.
      destruct (onError_saver message w) as (A & _).
      cbn. rewrite A. split; reflexivity.
  - service_defs. run_cases; split; reflexivity.
  - service_defs. run_cases; split; reflexivity.
  - unfold ConnectionService.getSessionStateCatch.
    destruct (onError_saver message w) as (A & _).
    cbn. rewrite A. split; reflexivity.
  - unfold SessionStateService.saveSettled.
    destruct r as [[s|]|message]; try (split; reflexivity).
    destruct (onError_saver message w) as (A & _).
    cbn. rewrite A. split; reflexivity.
  - split; reflexivity.
Qed.

End SaverFrame.

Section PollerFacts.

Context (E : Collaborators).

Lemma pollersKept_same w w' :
  pollers (saver w') = pollers (saver w) -> pollersKept w w'.
Proof. intros H i attempts Hi. exists attempts. rewrite H. split; [exact Hi | lia]. Qed.

Lemma pollersKept_trans w1 w2 w3 :
  pollersKept w1 w2 -> pollersKept w2 w3 -> pollersKept w1 w3.
Proof.
  intros H12 H23 i a Hi.
  destruct (H12 i a Hi) as (b & Hb & Hab).
  destruct (H23 i b Hb) as (c & Hc & Hbc).
  exists c. split; [exact Hc | lia].
Qed.

Lemma drain_pollers fuel : forall w,
  pollers (saver (drain E fuel w)) = pollers (saver w).
Proof.
  induction fuel as [|fuel IH]; intros w; [reflexivity|].
  cbn [drain]. destruct (microtasks w) as [|t rest]; [reflexivity|].
  rewrite IH. destruct (run_pollers E t (with_microtasks rest w)) as (H & _).
  rewrite H. reflexivity.
Qed.

Lemma transport_write_saver item w :
  saver (WebSocketConnection.write E (ConnectionService.callBefore E) item w) = saver w.
Proof.
  unfold WebSocketConnection.write, ConnectionService.callBefore,
    ConnectionService.interruptByPacket, ConnectionService.beforeWritingResume,
    ConnectionService.recordInProgress.
  run_cases; reflexivity.
Qed.

Lemma flush_saver w :
  saver (WebSocketConnection.flush E (ConnectionService.callBefore E)
           (ConnectionService.onReady E) w) = saver w.
Proof.
  unfold WebSocketConnection.flush.
  assert (H : forall items v,
            saver (fold_left (fun w item =>
                     WebSocketConnection.write E (ConnectionService.callBefore E) item w)
                     items v) = saver v).
  { induction items as [|item items IH]; intros v; [reflexivity|].
    cbn [fold_left]. rewrite IH. apply transport_write_saver. }
  cbn. apply H.
Qed.

Lemma callListener_saver l e w :
  saver (callListener E l e w) = saver w.
Proof.
  destruct l; cbn [callListener]; try reflexivity.
  - destruct e; try reflexivity.
    unfold WebSocketConnection.onMessage. destruct frame as [[p|message]|]; [| |reflexivity].
    + apply onMessage_saver.
    + apply onError_saver.
Qed.

Lemma fire_saver sock name e w :
  saver (fire E sock name e w) = saver w.
Proof.
  unfold fire. generalize (listenersFor sock name w). intros ls. revert w.
  induction ls as [|l ls IH]; intros w; [reflexivity|].
  cbn [fold_left]. rewrite IH. apply callListener_saver.
Qed.

Lemma service_close_saver w :
  saver (ConnectionService.close w) = saver w.
Proof.
  unfold ConnectionService.close.
  destruct (transport_close_saver
              (with_service (set_state INACTIVE) (ConnectionService.cancelScheduler w)))
    as (H & _).
  rewrite H. reflexivity.
Qed.

Lemma tryToSaveState_pollers w :
  pollers (saver (SessionStateService.tryToSaveState w)) = pollers (saver w)
  \/ pollers (saver (SessionStateService.tryToSaveState w)) = pollers (saver w) ++ [0].
Proof.
  unfold SessionStateService.tryToSaveState.
  destruct (isSaving (saver w)); [left; reflexivity|].
  destruct (SessionStateService.alreadySaved _); [left | right]; reflexivity.
Qed.

Lemma pollersKept_more w w' more :
  pollers (saver w') = pollers (saver w) ++ more -> pollersKept w w'.
Proof.
  intros H i attempts Hi. exists attempts. rewrite H. split; [|lia].
  apply lookup_app_l_Some. exact Hi.
Qed.

Lemma saveSessionState_saver w :
  saver (SessionStateService.saveSessionState E w) = saver w.
Proof.
  unfold SessionStateService.saveSessionState, SessionStateService.clearInterval,
    ConnectionService.getSessionState, ConnectionService.ensureSessionToken.
  run_cases; reflexivity.
Qed.

Lemma pollTick_pollers i w :
  pollersKept w (SessionStateService.pollTick E i w).
Proof.
  unfold SessionStateService.pollTick.
  destruct (pollers (saver w) !! i) as [a|] eqn:Hi; [|apply pollersKept_same; reflexivity].
  set (counted := with_saver _ w).
  assert (Hc : pollersKept w counted).
  { intros j b Hj. subst counted. cbn.
    destruct (decide (j = i)) as [->|Hne].
    - exists (S a). rewrite Hi in Hj. injection Hj as <-.
      split; [|lia]. apply list_lookup_insert_eq. eapply lookup_lt_Some. exact Hi.
    - exists b. split; [|lia]. rewrite list_lookup_insert_ne by congruence. exact Hj. }
  assert (Hs : pollersKept w (SessionStateService.saveSessionState E counted)).
  { apply (pollersKept_trans w counted _ Hc). apply pollersKept_same.
    rewrite saveSessionState_saver. reflexivity. }
  destruct (Nat.leb _ _); [exact Hs|].
  destruct (ConnectionService.hasPacketsInProgress counted); [exact Hc|].
  destruct (SessionStateService.lastItem counted) as [item|]; [|exact Hc].
  destruct (history_type item); first [exact Hs | exact Hc].
Qed.

Lemma act_pollers a w : pollersKept w (act E a w).
Proof.
  destruct a as [producer| | | |sock e| | | |i| |]; cbn [act].
  - apply pollersKept_same. destruct (send_saver E producer w) as (H & _). rewrite H. reflexivity.
  - apply pollersKept_same. unfold ConnectionService.openManually.
    destruct (ConnectionService.isAutoReconnected w).
    + destruct (onError_saver E "Impossible to open connection manually with `autoReconnect` enabled" w)
        as (H & _). rewrite H. reflexivity.
    + destruct (state (service w));
        first [ destruct (open_saver E w) as (H & _); rewrite H; reflexivity
              | destruct (onError_saver E "Connection is already open" w) as (H & _);
                rewrite H; reflexivity ].
  - apply pollersKept_same. rewrite service_close_saver. reflexivity.
  - apply pollersKept_same. unfold ConnectionService.interrupt, ConnectionService.interruptByPacket.
    run_cases; reflexivity.
  - apply pollersKept_same. unfold dispatch.
    destruct e; try (rewrite fire_saver; reflexivity).
    destruct (socketState sock w) as [[]|]; try reflexivity. rewrite fire_saver. reflexivity.
  - apply pollersKept_same. unfold fireFlushTimer.
    destruct (timers w) as [|[] rest]; [reflexivity|]. rewrite flush_saver. reflexivity.
  - apply pollersKept_same. unfold fireDisconnectTimer.
    destruct (disconnectArmed (service w)); [|reflexivity].
    rewrite service_close_saver. reflexivity.
  - unfold SessionStateService.intervalTick.
    destruct (isBlurred (saver w)); [apply pollersKept_same; reflexivity|].
    destruct (tryToSaveState_pollers w) as [H|H];
      [apply pollersKept_same | apply (pollersKept_more _ _ [0])]; exact H.
  - apply pollTick_pollers.
  - unfold SessionStateService.onWindowBlur.
    destruct (tryToSaveState_pollers (with_saver (set_isBlurred true) w)) as [H|H];
      [apply pollersKept_same | apply (pollersKept_more _ _ [0])]; exact H.
  - apply pollersKept_same. reflexivity.
Qed.

(** Whatever happens on the page, in whatever order: a poller that
    [tryToSaveState] has started is never stopped, and its count of
    attempts never goes down.  (So from its third tick on it saves at
    every tick.) *)
Theorem pollers_are_never_stopped (fuel : nat) (actions : list Action) (w : World) :
  pollersKept w (steps E fuel actions w).
Proof.
  revert w. induction actions as [|a actions IH]; intros w.
  - apply pollersKept_same. reflexivity.
  - cbn [steps fold_left].
    apply (pollersKept_trans w (step E fuel a w)); [|apply IH].
    unfold step. apply (pollersKept_trans w (act E a w)); [apply act_pollers|].
    apply pollersKept_same. apply drain_pollers.
Qed.

End PollerFacts.

Section PollerSaves.

Context (E : Collaborators).

(** A tick of a poller that has counted two attempts or more saves: with
    a valid session, the snapshot of the state service is stored.  The
    poller is still there afterwards, with one attempt more, so its next
    tick saves again. *)
Theorem poller_saves_at_every_tick_from_the_third (w : World) (i attempts : nat)
    (s : SessionToken) (snapshot : SessionState) (fuel : nat) :
  microtasks w = [] ->
  pollers (saver w) !! i = Some attempts ->
  2 <= attempts ->
  session (service w) = Some s ->
  isExpired E (calls w) s = false ->
  state_getSessionState E (calls w) = Ok snapshot ->
  state_getSessionState_turns E + 2 <= fuel ->
  let w' := step E fuel (OnSavePoll i) w in
  localStorage w' = Some (StoredState snapshot)
  /\ log w' = log w ++ [StateGetSessionState (Some s); LocalStorageSet (StoredState snapshot)]
  /\ pollers (saver w') !! i = Some (S attempts)
  /\ length (pollers (saver w')) = length (pollers (saver w)).
Proof.
  intros Hm Hi Hmax Hs Hexp Hstate Hfuel w'. subst w'. unfold step, act.
  unfold SessionStateService.pollTick. rewrite Hi.
  set (counted := with_saver (fun sv => set_pollers (<[i := S attempts]> (pollers sv)) sv) w).
  assert (Hleb : Nat.leb SessionStateService.maxAttempts (S attempts) = true).
  { apply Nat.leb_le. unfold SessionStateService.maxAttempts, DEFAULT_SESSION_STATE_MAX_ATTEMPTS.
    lia. }
  rewrite Hleb.
  destruct (saveSessionState_stores E counted s snapshot fuel Hm Hs Hexp Hstate Hfuel)
    as (Hstore & _ & Hlog).
  split; [exact Hstore|]. split; [exact Hlog|].
  rewrite drain_pollers, saveSessionState_saver.
  unfold counted. cbn [pollers saver with_saver set_pollers].
  split.
  - apply list_lookup_insert_eq. eapply lookup_lt_Some. exact Hi.
  - apply length_insert.
Qed.

End PollerSaves.

Section InboundDelivery.

Context (E : Collaborators).

(** An inbound packet that is no TEXT packet is handled in one go: audio
    and silence are handed to the player unless the interaction carries a
    cancel marker, then the packet is added to the history, then it is
    passed to the host's [onMessage], once.  This holds for the packets of
    a cancelled interaction too; nothing is written and no job is
    queued. *)
Theorem inbound_packet_is_recorded_and_delivered (w : World) (packet : ProtoPacket) :
  let p := convertPacketFromProto E packet in
  let I := interactionId (inworld_packetId p) in
  let played :=
    if (isAudio p || isSilence p) && negb (isCancelled I (cancelResponses (service w)))
    then [PlayerAddToQueue p] else [] in
  let recorded := history_addOrUpdate E p (history (service w)) in
  let told :=
    match snd recorded with
    | [] => []
    | changed => [CallbackHistoryChange changed]
    end in
  isText p = false ->
  let w' := ConnectionService.onMessage E packet w in
  log w' = log w ++ played ++ [HistoryAddOrUpdate p] ++ told ++ [CallbackMessage p]
  /\ history (service w') = fst recorded
  /\ microtasks w' = microtasks w
  /\ transport w' = transport w
  /\ sockets w' = sockets w
  /\ state (service w') = state (service w).
Proof.
  intros p I played recorded told Htext w'. subst w'.
  unfold ConnectionService.onMessage. fold p. fold I. rewrite Htext. cbn [andb].
  unfold ConnectionService.onMessageResume. fold I.
  unfold ConnectionService.addPacketToHistory.
  subst played told recorded.
  assert (Hc : forall v : World,
            cancelResponses (service
              (if isInteractionEnd p
               then with_service (fun s =>
                      set_packetsInProgress (object_delete I (packetsInProgress s)) s) v
               else v)) = cancelResponses (service v))
    by (intros v; destruct (isInteractionEnd p); reflexivity).
  rewrite Hc.
  destruct (isInteractionEnd p);
    destruct ((isAudio p || isSilence p) && negb (isCancelled I (cancelResponses (service w))));
    cbn [history service with_service set_packetsInProgress set_cancelResponses called emit];
    destruct (history_addOrUpdate E p (history (service w))) as [entries changed];
    destruct changed; cbn; rewrite <- ?app_assoc; repeat split.
Qed.

End InboundDelivery.

Section ManualOpen.

Context (E : Collaborators).

(** [openManually] with auto-reconnect on (it is on when the option is not
    set) is refused: the host gets an error and nothing else happens.  With
    auto-reconnect off, on a service that is INACTIVE and has no session
    yet, it generates the token, loads the scene and creates the socket;
    a second [openManually] while that socket is connecting is refused
    with an error and changes nothing either. *)
Theorem openManually_opens_or_refuses (w : World) (generated : SessionToken)
    (loaded : LoadSceneResponse) (fuel : nat) :
  (ConnectionService.isAutoReconnected w = true ->
   ConnectionService.openManually E w
   = emit (CallbackError
             "Impossible to open connection manually with `autoReconnect` enabled") w)
  /\
  (ConnectionService.isAutoReconnected w = false ->
   microtasks w = [] ->
   state (service w) = INACTIVE ->
   session (service w) = None ->
   scene (service w) = None ->
   localStorage w <> Some StoredUndefined ->
   history_previousState (config w) = false ->
   generateSessionToken E (calls w) = Ok generated ->
   engine_loadScene E (S (calls w)) = Ok loaded ->
   generateSessionToken_turns E + engine_loadScene_turns E + 5 <= fuel ->
   let opened := step E fuel CallOpenManually w in
   log opened
   = log w ++ [GenerateSessionToken; EngineLoadScene (Some generated);
               SocketCreated (length (sockets w)) generated]
   /\ state (service opened) = ACTIVATING
   /\ ws (transport opened) = Some (length (sockets w))
   /\ sockets opened = sockets w ++ [freshSocket]
   /\ packetQueue (transport opened) = packetQueue (transport w)
   /\ step E fuel CallOpenManually opened
      = emit (CallbackError "Connection is already open") opened).
Proof.
  split.
  - intros Hauto. unfold ConnectionService.openManually. rewrite Hauto.
    apply onError_reports; [reflexivity | discriminate].
  - intros Hauto Hm Hst Hse Hsc Hls Hprev Hgen Hload Hfuel opened.
    assert (Hopened : opened = drain E fuel (ConnectionService.open E w)).
    { subst opened. unfold step, act, ConnectionService.openManually.
      rewrite Hauto, Hst. reflexivity. }
    rewrite (open_connects E w generated loaded fuel) in Hopened by assumption.
    assert (Hmute : muteOnOpen w = []) by (unfold muteOnOpen; rewrite Hauto; reflexivity).
    rewrite Hmute in Hopened. cbn [app] in Hopened.
    split; [rewrite Hopened; reflexivity|].
    split; [rewrite Hopened; reflexivity|].
    split; [rewrite Hopened; reflexivity|].
    split; [rewrite Hopened; reflexivity|].
    split; [rewrite Hopened; reflexivity|].
    unfold step, act, ConnectionService.openManually.
    assert (Hauto' : ConnectionService.isAutoReconnected opened = false)
      by (rewrite Hopened; exact Hauto).
    assert (Hst' : state (service opened) = ACTIVATING) by (rewrite Hopened; reflexivity).
    rewrite Hauto', Hst'.
    rewrite onError_reports by (first [reflexivity | discriminate]).
    apply drain_empty. rewrite Hopened. reflexivity.
Qed.

End ManualOpen.

Section LiveSend.

Context (E : Collaborators).

Lemma object_get_set {V : Type} (key : string) (value : V) (obj : list (string * V)) :
  object_get key (object_set key value obj) = Some value.
Proof.
  induction obj as [|[k v] rest IH]; cbn.
  - rewrite String.eqb_refl. reflexivity.
  - destruct (String.eqb k key) eqn:Hk; cbn; rewrite Hk; [reflexivity | exact IH].
Qed.

Lemma object_delete_set {V : Type} (key : string) (value : V) (obj : list (string * V)) :
  object_delete key (object_set key value obj) = object_delete key obj.
Proof.
  induction obj as [|[k v] rest IH]; cbn.
  - rewrite String.eqb_refl. reflexivity.
  - destruct (String.eqb k key) eqn:Hk; cbn; rewrite Hk; [reflexivity|].
    rewrite IH. reflexivity.
Qed.

Lemma object_keys_set {V : Type} (key : string) (value : V) (obj : list (string * V)) :
  object_keys (object_set key value obj)
  = if existsb (String.eqb key) (object_keys obj)
    then object_keys obj
    else object_keys obj ++ [key].
Proof.
  unfold object_keys. induction obj as [|[k v] rest IH]; cbn; [reflexivity|].
  rewrite (String.eqb_sym key k).
  destruct (String.eqb k key) eqn:Hk; cbn; [reflexivity|].
  rewrite IH. destruct (existsb (String.eqb key) (map fst rest)); reflexivity.
Qed.

(** The world in which the transport's [write] of the service resumes,
    when the hook of the packet does not wait for the player. *)
Lemma send_live_run (g : Producer) (w : World) (fuel : nat) :
  let packet := WebSocketConnection.producedPacket E g in
  let p := convertPacketFromProto E packet in
  microtasks w = [] ->
  ConnectionService.isActive w = true ->
  WebSocketConnection.isActive w = true ->
  isText p = false \/ interruptions (config w) = false ->
  3 <= fuel ->
  step E fuel (CallSend g) w
  = run E (WriteResume (ConnectionService.queueItem g) packet p)
      (ConnectionService.recordInProgress g p (ConnectionService.cancelScheduler w)).
Proof.
  intros packet p Hm Hactive Hopen Hkind Hfuel.
  set (v := ConnectionService.recordInProgress g p (ConnectionService.cancelScheduler w)).
  assert (Hv : microtasks v = [] /\ transport v = transport w /\ sockets v = sockets w).
  { unfold v, ConnectionService.recordInProgress.
    destruct (isText p || isAudio p); repeat split; exact Hm. }
  destruct Hv as (Hvm & Hvt & Hvk).
  assert (Hvo : WebSocketConnection.isActive v = true).
  { rewrite <- Hopen. apply live_same; assumption. }
  destruct (run_WriteResume_live E g packet p v Hvo) as (_ & Hq & _).
  assert (Hsame : forall u,
            config u = config v -> transport u = transport v -> service u = service v ->
            saver u = saver v -> sockets u = sockets v -> localStorage u = localStorage v ->
            timers u = timers v -> calls u = calls v -> log u = log v ->
            with_microtasks [] u = v).
  { intros u H1 H2 H3 H4 H5 H6 H7 H8 H9.
    apply World_ext; cbn; try assumption. symmetry. exact Hvm. }
  unfold step, act.
  destruct (isText p) eqn:Htext.
  - destruct Hkind as [Hkind|Hint]; [discriminate|].
    assert (Hsend : ConnectionService.send E g w
                    = enqueue (BeforeWritingResume g p
                                 (WriteResume (ConnectionService.queueItem g) packet p))
                        (ConnectionService.cancelScheduler w)).
    { destruct (send_delegates E w g (or_introl Hactive)) as (Heq & _).
      rewrite Heq, Hactive. unfold WebSocketConnection.write.
      assert (Ho : WebSocketConnection.isActive (ConnectionService.cancelScheduler w) = true)
        by exact Hopen.
      rewrite Ho. cbn [beforeWriting ConnectionService.queueItem getPacket].
      fold packet. fold p. unfold ConnectionService.callBefore. rewrite Htext.
      unfold ConnectionService.interruptByPacket.
      cbn [config ConnectionService.cancelScheduler with_service]. rewrite Hint.
      reflexivity. }
    rewrite Hsend.
    destruct fuel as [|fuel]; [lia|].
    rewrite drain_S. cbn [microtasks enqueue with_microtasks ConnectionService.cancelScheduler
                            with_service]. rewrite Hm. cbn [app run].
    unfold ConnectionService.beforeWritingResume.
    destruct fuel as [|fuel]; [lia|].
    rewrite drain_S.
    assert (Hmq : forall u, microtasks u = [] ->
              microtasks (enqueue (WriteResume (ConnectionService.queueItem g) packet p)
                            (ConnectionService.recordInProgress g p u))
              = [WriteResume (ConnectionService.queueItem g) packet p]).
    { intros u Hu. unfold ConnectionService.recordInProgress.
      destruct (isText p || isAudio p); cbn; rewrite Hu; reflexivity. }
    rewrite Hmq by reflexivity. cbn [run].
    rewrite Hsame;
      [ apply drain_empty; exact (eq_trans Hq Hvm) | .. ];
      unfold v, ConnectionService.recordInProgress;
      destruct (isText p || isAudio p); reflexivity.
  - rewrite (send_live E g w Hactive Hopen Htext). fold packet. fold p. fold v.
    destruct fuel as [|fuel]; [lia|].
    rewrite drain_S. cbn [microtasks enqueue with_microtasks]. rewrite Hvm. cbn [app run].
    rewrite Hsame;
      [ apply drain_empty; exact (eq_trans Hq Hvm) | .. ]; reflexivity.
Qed.

(** The rest of the service's [write] on an open socket, spelled out. *)
Lemma written_live (g : Producer) (packet : ProtoPacket) (p : InworldPacket) (v : World) :
  WebSocketConnection.isActive v = true ->
  exists sock, ws (transport v) = Some sock
    /\ run E (WriteResume (ConnectionService.queueItem g) packet p) v
       = ConnectionService.addPacketToHistory E p
           (ConnectionService.scheduleDisconnect (emit (SocketSend sock packet) v)).
Proof.
  intros Hopen. destruct (isActive_socket v Hopen) as (sock & Hws & Hsock).
  exists sock. split; [exact Hws|]. cbn [run].
  rewrite (writeResume_live E sock _ _ _ _ Hws Hsock). reflexivity.
Qed.

Lemma scheduleDisconnect_fields v :
  packetsInProgress (service (ConnectionService.scheduleDisconnect v))
  = packetsInProgress (service v)
  /\ cancelResponses (service (ConnectionService.scheduleDisconnect v))
     = cancelResponses (service v)
  /\ history (service (ConnectionService.scheduleDisconnect v)) = history (service v)
  /\ log (ConnectionService.scheduleDisconnect v) = log v.
Proof.
  unfold ConnectionService.scheduleDisconnect.
  destruct (disconnectTimeout (config v)); repeat split.
Qed.

(** A TEXT or AUDIO packet that the service writes on the live connection
    is recorded as in progress under its interaction id, with its
    producer (one entry per interaction: a later packet of the same
    interaction takes the place of the earlier one); packets of other
    kinds are not recorded.  The interaction-end packet of that
    interaction removes the entry again.  The hook of the packet does not
    wait for the player: the packet is no TEXT packet, or interruptions
    are off. *)
Theorem packet_is_in_progress_until_interaction_end (w : World) (g : Producer)
    (ack : ProtoPacket) (fuel : nat) :
  let packet := WebSocketConnection.producedPacket E g in
  let p := convertPacketFromProto E packet in
  let I := interactionId (inworld_packetId p) in
  microtasks w = [] ->
  ConnectionService.isActive w = true ->
  WebSocketConnection.isActive w = true ->
  isText p = false \/ interruptions (config w) = false ->
  3 <= fuel ->
  let sent := step E fuel (CallSend g) w in
  let acked := ConnectionService.onMessage E ack sent in
  packetsInProgress (service sent)
  = (if isText p || isAudio p
     then object_set I g (packetsInProgress (service w))
     else packetsInProgress (service w))
  /\ (isText p || isAudio p = true ->
      object_get I (packetsInProgress (service sent)) = Some g
      /\ ConnectionService.hasPacketsInProgress sent = true)
  /\ (isInteractionEnd (convertPacketFromProto E ack) = true ->
      interactionId (inworld_packetId (convertPacketFromProto E ack)) = I ->
      packetsInProgress (service acked) = object_delete I (packetsInProgress (service w))
      /\ object_get I (packetsInProgress (service acked)) = None).
Proof.
  intros packet p I Hm Hactive Hopen Hkind Hfuel sent acked.
  set (v := ConnectionService.recordInProgress g p (ConnectionService.cancelScheduler w)).
  assert (Hsent : sent = run E (WriteResume (ConnectionService.queueItem g) packet p) v)
    by (apply send_live_run; assumption).
  assert (Hvo : WebSocketConnection.isActive v = true).
  { rewrite <- Hopen. apply live_same;
      unfold v, ConnectionService.recordInProgress; destruct (isText p || isAudio p); reflexivity. }
  destruct (written_live g packet p v Hvo) as (sock & _ & Hrun).
  rewrite Hrun in Hsent.
  assert (Hpip : packetsInProgress (service sent)
                 = if isText p || isAudio p
                   then object_set I g (packetsInProgress (service w))
                   else packetsInProgress (service w)).
  { rewrite Hsent, addPacketToHistory_service. cbn [packetsInProgress set_history].
    destruct (scheduleDisconnect_fields (emit (SocketSend sock packet) v)) as (H & _).
    rewrite H. unfold v, ConnectionService.recordInProgress.
    destruct (isText p || isAudio p); reflexivity. }
  split; [exact Hpip|]. split.
  - intros Hrec. rewrite Hrec in Hpip. split.
    + rewrite Hpip. apply object_get_set.
    + unfold ConnectionService.hasPacketsInProgress. rewrite Hpip, object_keys_set.
      destruct (existsb (String.eqb I) (object_keys (packetsInProgress (service w)))) eqn:Hin.
      * destruct (object_keys (packetsInProgress (service w))); [discriminate|reflexivity].
      * destruct (object_keys (packetsInProgress (service w))); reflexivity.
  - intros Hend HI.
    destruct (isInteractionEnd_not_text _ Hend) as (Htext & Haudio & Hsilence).
    assert (Hacked : packetsInProgress (service acked)
                     = object_delete I (packetsInProgress (service sent))).
    { subst acked. unfold ConnectionService.onMessage.
      rewrite Hend, Htext, HI. cbn [andb].
      unfold ConnectionService.onMessageResume.
      rewrite Hend, Haudio, Hsilence. cbn [orb andb service emit].
      rewrite addPacketToHistory_service. reflexivity. }
    assert (Hdel : packetsInProgress (service acked)
                   = object_delete I (packetsInProgress (service w))).
    { rewrite Hacked, Hpip.
      destruct (isText p || isAudio p); [apply object_delete_set | reflexivity]. }
    split; [exact Hdel|]. rewrite Hdel. apply object_get_delete.
Qed.

End LiveSend.

Section InterruptFacts.

Context (E : Collaborators).

(** [interrupt()] while the player holds utterances: the player is asked
    for its current packet and told to stop the interaction of that
    packet; a cancel response that names the interaction of the first
    stopped packet and the utterances of all stopped packets is put on the
    wire, that interaction gets a cancel marker and the host's
    [onInterruption] is told.  With interruptions off the player is only
    asked for its current packet and nothing else happens. *)
Theorem interrupt_cancels_what_the_player_stops (w : World) (current first : InworldPacket)
    (others : list InworldPacket) (fuel : nat) :
  let stopped := first :: others in
  let I := interactionId (inworld_packetId first) in
  let props :=
    {| cancel_interactionId := I;
       cancel_utteranceId := map (fun p => utteranceId (inworld_packetId p)) stopped |} in
  let characters := map (fun p => {| id := name (source (inworld_routing p)) |}) stopped in
  let cancel := cancelResponse E props characters in
  microtasks w = [] ->
  ConnectionService.isActive w = true ->
  WebSocketConnection.isActive w = true ->
  getCurrentPacket E (calls w) = Some current ->
  stopForInteraction E (S (calls w)) (interactionId (inworld_packetId current)) = stopped ->
  truthy I = true ->
  isText (convertPacketFromProto E cancel) = false ->
  stopForInteraction_turns E + 3 <= fuel ->
  let w' := step E fuel CallInterrupt w in
  if interruptions (config w)
  then wire (log w') = wire (log w) ++ [cancel]
       /\ isCancelled I (cancelResponses (service w')) = true
       /\ (exists l l', log w'
             = log w ++ [PlayerGetCurrentPacket;
                         PlayerStopForInteraction (interactionId (inworld_packetId current))]
               ++ l ++ [CallbackInterruption props; HistoryFilter props] ++ l'
             /\ Forall quiet l)
       /\ microtasks w' = []
  else w' = called (emit PlayerGetCurrentPacket w).
Proof.
  intros stopped I props characters cancel Hm Hactive Hopen Hcur Hstop Hid Hcancel Hfuel w'.
  subst w'. unfold step, act, ConnectionService.interrupt. rewrite Hcur.
  unfold ConnectionService.interruptByPacket.
  cbn [config called emit calls].
  destruct (interruptions (config w)) eqn:Hint; cbn [negb].
  - rewrite Hstop.
    set (w1 := called (emit (PlayerStopForInteraction (interactionId (inworld_packetId current)))
                         (called (emit PlayerGetCurrentPacket w)))).
    replace fuel with (S (stopForInteraction_turns E) + (fuel - S (stopForInteraction_turns E)))
      by lia.
    rewrite (drain_delay E _ (InterruptResume stopped Done))
      by (cbn; rewrite Hm; reflexivity).
    remember (fuel - S (stopForInteraction_turns E)) as k eqn:Hk.
    assert (Hk2 : 2 <= k) by lia. clear Hk Hfuel.
    set (w2 := with_microtasks [] (enqueue (Delay (stopForInteraction_turns E)
                                              (InterruptResume stopped Done)) w1)).
    assert (L2 : sameLink w w2) by (repeat split).
    assert (Hl2 : log w2 = log w ++ [PlayerGetCurrentPacket;
                    PlayerStopForInteraction (interactionId (inworld_packetId current))]).
    { cbn. rewrite <- app_assoc. reflexivity. }
    cbn [run]. unfold ConnectionService.interruptResume.
    change (match stopped with
            | [] => w2
            | first0 :: _ =>
                ConnectionService.sendCancelResponses E
                  {| cancel_interactionId := interactionId (inworld_packetId first0);
                     cancel_utteranceId := map (fun p => utteranceId (inworld_packetId p)) stopped |}
                  (map (fun p => {| id := name (source (inworld_routing p)) |}) stopped) w2
            end)
      with (ConnectionService.sendCancelResponses E props characters w2).
    destruct (sameLink_live w w2 L2) as (Ho2 & Ha2).
    rewrite Hopen in Ho2. rewrite Hactive in Ha2.
    destruct (sendCancelResponses_live E props characters w2 Hid Ha2 Ho2 Hcancel)
      as (Hm3 & Ht3 & Hk3 & Hs3 & Hc3 & Hw3).
    destruct (sendCancelResponses_shape E props characters w2 Hid)
      as (_ & _ & _ & Hl3 & _ & Hmark).
    destruct (send_frame E (CancelResponseProducer props characters) w2)
      as (_ & _ & l & Hsent & Hquiet).
    cbn zeta in Hl3, Hmark.
    set (w3 := ConnectionService.sendCancelResponses E props characters w2) in *.
    assert (Ho3 : WebSocketConnection.isActive (with_microtasks [Done] (enqueue Done w3)) = true).
    { rewrite <- Ho2. apply live_same; assumption. }
    destruct k as [|k]; [lia|].
    rewrite (drain_next E k
               (WriteResume (ConnectionService.queueItem (CancelResponseProducer props characters))
                  cancel (convertPacketFromProto E cancel))
               [Done])
      by (cbn; rewrite Hm3; reflexivity).
    destruct (written_live E (CancelResponseProducer props characters) cancel
                (convertPacketFromProto E cancel) _ Ho3) as (sock & _ & Hrun).
    destruct (run_WriteResume_live E (CancelResponseProducer props characters) cancel
                (convertPacketFromProto E cancel) _ Ho3) as (Hw4 & Hm4 & _).
    set (w4 := run E _ _) in *.
    cbn [microtasks with_microtasks] in Hm4.
    destruct k as [|k]; [lia|].
    rewrite (drain_next E k Done []) by exact Hm4.
    cbn [run]. rewrite drain_empty by reflexivity.
    cbn [log service microtasks with_microtasks].
    split; [|split; [|split; [|reflexivity]]].
    + rewrite Hw4. cbn [log with_microtasks enqueue]. rewrite Hw3.
      change (wire (log w2)) with (wire (log w1)). unfold w1. cbn. rewrite !wire_app. cbn.
      rewrite !app_nil_r. reflexivity.
    + rewrite Hrun, addPacketToHistory_service. cbn [cancelResponses set_history].
      destruct (scheduleDisconnect_fields
                  (emit (SocketSend sock cancel) (with_microtasks [Done] (enqueue Done w3))))
        as (_ & Hc & _).
      rewrite Hc. cbn [cancelResponses service emit with_microtasks enqueue].
      rewrite Hmark. unfold isCancelled. cbn [cancel_interactionId props].
      rewrite lookup_insert_eq. reflexivity.
    + assert (Hl4 : exists l', log w4 = log w3 ++ l').
      { rewrite Hrun. unfold ConnectionService.addPacketToHistory.
        destruct (history_addOrUpdate E _ _) as [entries changed].
        destruct (scheduleDisconnect_fields
                    (emit (SocketSend sock cancel) (with_microtasks [Done] (enqueue Done w3))))
          as (_ & _ & _ & Hlog).
        destruct changed; cbn [log emit with_service]; rewrite Hlog; cbn [log emit with_microtasks enqueue];
          rewrite <- ?app_assoc; eexists; reflexivity. }
      destruct Hl4 as (l' & Hl4).
      exists l, l'. split; [|exact Hquiet].
      rewrite Hl4, Hl3, Hsent, Hl2, <- !app_assoc. reflexivity.
  - destruct fuel as [|fuel]; [lia|].
    rewrite (drain_next E fuel Done []) by (cbn; rewrite Hm; reflexivity).
    cbn [run]. rewrite drain_empty by reflexivity.
    apply World_ext; try reflexivity. cbn. symmetry. exact Hm.
Qed.

End InterruptFacts.

Section PreviousState.

Context (E : Collaborators).

(** [setPreviousState]: every packet of the previous state is added to
    the history, in order, and nothing else is changed.  Then the host's
    [onHistoryChange] is called once with the whole history, if that is
    not empty, also when the previous state has added nothing to it. *)
Theorem setPreviousState_tells_the_whole_history (packets : list ProtoPacket) (w : World) :
  let w' := ConnectionService.setPreviousState E packets w in
  let entries :=
    fold_left (fun h packet =>
                 fst (history_addOrUpdate E (convertPacketFromProto E packet) h))
              packets (history (service w)) in
  history (service w') = entries
  /\ log w'
     = log w
       ++ map (fun packet => HistoryAddOrUpdate (convertPacketFromProto E packet)) packets
       ++ match entries with
          | [] => []
          | _ => [CallbackHistoryChange entries]
          end
  /\ service w' = set_history entries (service w)
  /\ transport w' = transport w /\ sockets w' = sockets w /\ microtasks w' = microtasks w.
Proof.
  intros w' entries. subst w' entries. unfold ConnectionService.setPreviousState.
  set (f := fun (w : World) (packet : ProtoPacket) => _).
  assert (H : forall v,
            service (fold_left f packets v)
            = set_history
                (fold_left (fun h packet =>
                              fst (history_addOrUpdate E (convertPacketFromProto E packet) h))
                           packets (history (service v)))
                (service v)
            /\ log (fold_left f packets v)
               = log v ++ map (fun packet => HistoryAddOrUpdate (convertPacketFromProto E packet))
                              packets
            /\ transport (fold_left f packets v) = transport v
            /\ sockets (fold_left f packets v) = sockets v
            /\ microtasks (fold_left f packets v) = microtasks v).
  { induction packets as [|p ps IH]; intros v.
    - cbn. rewrite app_nil_r. repeat split. destruct (service v); reflexivity.
    - cbn [fold_left map]. destruct (IH (f v p)) as (A & B & C & D & F).
      rewrite A, B, C, D, F. subst f. cbn. rewrite <- app_assoc. repeat split. }
  destruct (H w) as (A & B & C & D & F).
  set (v := fold_left f packets w) in *.
  assert (Hh : history (service v)
               = fold_left (fun h packet =>
                              fst (history_addOrUpdate E (convertPacketFromProto E packet) h))
                           packets (history (service w))).
  { rewrite A. reflexivity. }
  destruct (history (service v)) as [|item items] eqn:Hv.
  - rewrite <- Hh. rewrite app_nil_r.
    repeat split; try assumption. rewrite A, <- Hh. reflexivity.
  - rewrite <- Hh. cbn [log emit service transport sockets microtasks history].
    rewrite B, <- app_assoc, Hv.
    repeat split; try assumption. rewrite A, <- Hh. reflexivity.
Qed.

End PreviousState.

Section Reopen.

Context (E : Collaborators).


End Reopen.

Section Reconnect.

Context (E : Collaborators).

(** An error frame that reports an expired session or an invalid token,
    with auto-reconnect on: the host is told, then a new token is
    generated, the scene is loaded again and a new socket is created for
    the new token, which the transport now uses.  The socket on which the
    error arrived is not closed: it stays open with its listeners.  The
    packets in progress are kept as they are, and the queue gets the mute
    signal at most. *)
Theorem session_error_opens_a_new_socket (w : World) (sock : nat) (old : WebSocket)
    (message : string) (generated : SessionToken) (loaded : LoadSceneResponse) (fuel : nat) :
  microtasks w = [] ->
  sockets w !! sock = Some old ->
  readyState old = OPEN ->
  listeners old = listeners freshSocket ->
  sessionExpiredRegExp_test message || String.eqb invalidToken message = true ->
  ConnectionService.isAutoReconnected w = true ->
  localStorage w <> Some StoredUndefined ->
  history_previousState (config w) = false ->
  generateSessionToken E (calls w) = Ok generated ->
  engine_loadScene E (S (calls w)) = Ok loaded ->
  generateSessionToken_turns E + engine_loadScene_turns E + 5 <= fuel ->
  let w' := step E fuel (OnSocket sock (Received (Some (FrameError message)))) w in
  log w'
  = log w ++ [CallbackError message; GenerateSessionToken;
              EngineLoadScene (Some generated);
              SocketCreated (length (sockets w)) generated]
  /\ session (service w') = Some generated
  /\ scene (service w') = Some loaded
  /\ state (service w') = ACTIVATING
  /\ ws (transport w') = Some (length (sockets w))
  /\ sockets w' = sockets w ++ [freshSocket]
  /\ socketState sock w' = Some OPEN
  /\ packetsInProgress (service w') = packetsInProgress (service w)
  /\ packetQueue (transport w') = muteOnOpen w ++ packetQueue (transport w).
Proof.
  intros Hm Hold Hopen Hlisten Hmatch Hauto Hls Hprev Hgen Hload Hfuel w'.
  set (v := forgotten (emit (CallbackError message) w)).
  assert (Hw' : w' = drain E fuel (ConnectionService.open E v)).
  { subst w'. unfold step, act, dispatch, socketState. rewrite Hold. cbn [fmap option_fmap option_map].
    rewrite Hopen. unfold fire, listenersFor. rewrite Hold, Hlisten.
    cbn [freshSocket listeners List.filter EventName_eqb fst snd map fold_left callListener].
    unfold WebSocketConnection.onMessage.
    destruct (onError_reconnects E message w Hmatch Hauto) as (Heq & _).
    rewrite Heq. reflexivity. }
  rewrite (open_connects E v generated loaded fuel) in Hw'; try assumption; try reflexivity.
  change (muteOnOpen v) with (muteOnOpen w) in Hw'.
  rewrite Hw'. cbn. rewrite <- !app_assoc.
  repeat split.
  unfold socketState. cbn. rewrite lookup_app_l by (eapply lookup_lt_Some; exact Hold).
  rewrite Hold. cbn. rewrite Hopen. reflexivity.
Qed.

End Reconnect.

Section WindowFacts.

Lemma filter_all {A : Type} (f : A -> bool) (l : list A) :
  Forall (fun x => f x = true) l -> List.filter f l = l.
Proof.
  induction 1 as [|x l Hx _ IH]; [reflexivity|]. cbn. rewrite Hx, IH. reflexivity.
Qed.

Lemma remove_fresh (e : WindowEventName) (l : WindowListener) (win : Window) :
  Forall (fun r => objectOf (snd r) < objectOf l) (windowListeners win) ->
  windowListeners (window_removeEventListener e l win) = windowListeners win.
Proof.
  intros H. cbn. apply filter_all.
  eapply Forall_impl; [exact H|]. intros [e' l'] Hlt. cbn in *.
  apply negb_true_iff. apply andb_false_iff. right.
  destruct l, l'; cbn in *; try reflexivity; apply Nat.eqb_neq; lia.
Qed.

(** [destroy()] stops nothing.  [this.intervalId] was never assigned, so
    no timer is cleared; and the two listeners it hands to
    [removeEventListener] are new function objects, so none is removed.
    After [destroy()] the window has the listeners and the timers it had
    before, and a [blur] or [focus] event or a tick of a timer does to the
    page what it did before. *)
Theorem destroy_stops_nothing (win : Window) :
  registeredBefore win ->
  intervalId win = None ->
  let win' := SessionStateWindow.destroy win in
  windowListeners win' = windowListeners win
  /\ intervals win' = intervals win
  /\ page win' = page win
  /\ (forall e, page (fireWindow e win') = page (fireWindow e win))
  /\ (forall i, page (fireInterval i win') = page (fireInterval i win)).
Proof.
  intros Hreg Hid win'.
  assert (Hl : windowListeners win' = windowListeners win).
  { subst win'. unfold SessionStateWindow.destroy, SessionStateWindow.clearInterval.
    rewrite Hid. cbn [host_clearInterval bind].
    rewrite remove_fresh.
    - rewrite remove_fresh; [reflexivity|]. cbn.
      eapply Forall_impl; [exact Hreg|]. intros r Hr. cbn in *. exact Hr.
    - rewrite remove_fresh.
      + cbn. eapply Forall_impl; [exact Hreg|]. intros r Hr. cbn in *. lia.
      + cbn. eapply Forall_impl; [exact Hreg|]. intros r Hr. cbn in *. exact Hr. }
  assert (Hi : intervals win' = intervals win).
  { subst win'. unfold SessionStateWindow.destroy, SessionStateWindow.clearInterval.
    rewrite Hid. reflexivity. }
  assert (Hp : page win' = page win).
  { subst win'. unfold SessionStateWindow.destroy, SessionStateWindow.clearInterval.
    rewrite Hid. reflexivity. }
  clearbody win'.
  split; [exact Hl|]. split; [exact Hi|]. split; [exact Hp|]. split.
  - intros e. unfold fireWindow. rewrite Hl.
    generalize (map snd (List.filter (fun r => WindowEventName_eqb (fst r) e)
                           (windowListeners win))).
    intros ls. revert win win' Hp Hreg Hid Hl Hi.
    induction ls as [|l ls IH]; intros win win' Hp _ _ _ _; [exact Hp|].
    cbn [fold_left].
    assert (Hstep : page (callWindowListener l win') = page (callWindowListener l win)).
    { destruct l; cbn; rewrite Hp; reflexivity. }
    revert Hstep. generalize (callWindowListener l win') (callWindowListener l win).
    intros a b Hab. clear IH win win' Hp. revert a b Hab.
    induction ls as [|l' ls IH]; intros a b Hab; [exact Hab|].
    cbn [fold_left]. apply IH. destruct l'; cbn; rewrite Hab; reflexivity.
  - intros i. unfold fireInterval. rewrite Hi.
    destruct (intervals win !! i) as [[[]|]|]; cbn; rewrite ?Hp; reflexivity.
Qed.

Lemma constructor_registered (win : Window) :
  registeredBefore win -> registeredBefore (SessionStateWindow.constructor win).
Proof.
  unfold registeredBefore. intros H. cbn.
  rewrite <- app_assoc. apply Forall_app. split.
  - eapply Forall_impl; [exact H|]. intros r Hr. cbn in *. lia.
  - repeat constructor; cbn; lia.
Qed.

Lemma focus_once (win : Window) (a b : nat) :
  windowListeners win = [(ev_blur, BoundOnWindowBlur a); (ev_focus, BoundOnWindowFocus b)] ->
  windowListeners (fireWindow ev_focus win) = windowListeners win
  /\ intervals (fireWindow ev_focus win) = intervals win ++ [Some FocusInterval]
  /\ page (fireWindow ev_focus win) = SessionStateService.onWindowFocus (page win).
Proof. intros H. unfold fireWindow. rewrite H. cbn. rewrite ?H. repeat split. Qed.

(** Every [focus] event starts one more repeating timer, and no timer is
    ever cleared: after [n] such events on the window of one service there
    are [n] timers more, and each of them calls [tryToSaveState] when it
    fires, whether the window is blurred or not. *)
Theorem every_focus_starts_another_timer (w : World) (n : nat) :
  let win := Nat.iter n (fireWindow ev_focus) (SessionStateWindow.constructor (newWindow w)) in
  intervals win = Some ConstructorInterval :: repeat (Some FocusInterval) n
  /\ (forall i, 1 <= i <= n ->
        page (fireInterval i win) = SessionStateService.tryToSaveState (page win)).
Proof.
  intros win.
  assert (H : intervals win = Some ConstructorInterval :: repeat (Some FocusInterval) n
              /\ windowListeners win
                 = [(ev_blur, BoundOnWindowBlur 0); (ev_focus, BoundOnWindowFocus 1)]).
  { subst win. induction n as [|n IH]; [split; reflexivity|].
    rewrite Nat.iter_succ. destruct IH as (Hi & Hl).
    destruct (focus_once _ 0 1 Hl) as (Hl' & Hi' & _).
    rewrite Hl', Hi', Hi, Hl. split; [|reflexivity].
    cbn [app]. f_equal.
    change (repeat (Some FocusInterval) (S n))
      with (Some FocusInterval :: repeat (Some FocusInterval) n).
    rewrite repeat_cons. reflexivity. }
  destruct H as (Hi & _). split; [exact Hi|].
  intros i Hrange. unfold fireInterval. rewrite Hi.
  destruct i as [|i]; [lia|]. cbn [lookup list_lookup].
  assert (Hlook : forall k j, j < k -> repeat (Some FocusInterval) k !! j = Some (Some FocusInterval)).
  { induction k as [|k IH]; intros j Hj; [lia|].
    destruct j as [|j]; [reflexivity|]. cbn. apply IH. lia. }
  rewrite Hlook by lia. reflexivity.
Qed.

End WindowFacts.

Section ExtraInstances.

Import Sample.

(** Closes a premise of an instance by evaluation. *)
Ltac premise :=
  first [ reflexivity | discriminate | exact I | lia | (cbn; lia)
        | (left; reflexivity) | (right; reflexivity) | solve [repeat constructor] ].

Lemma first_send_opens_the_connection_witness :
  log (step Page.silent 6 (CallSend (UserProducer hello)) (newWorld Page.reconnecting))
  = [GenerateSessionToken; EngineLoadScene (Some freshToken); SocketCreated 0 freshToken]
  /\ wire (log (steps Page.silent 6 [OnSocket 0 Opened; OnFlushTimer]
                  (step Page.silent 6 (CallSend (UserProducer hello))
                     (newWorld Page.reconnecting))))
     = [hello].
Proof.
  destruct (first_send_opens_the_connection Page.silent (newWorld Page.reconnecting)
              (UserProducer hello) freshToken loadedScene 6)
    as (Hlog & _ & _ & _ & _ & _ & Hwire & _);
    [ premise .. | split; [exact Hlog | exact Hwire] ].
Defined.


Lemma failed_load_leaves_the_service_loading_witness :
  state (service (step Trouble.offline 5 (CallSend (UserProducer wave))
                    (newWorld Page.reconnecting))) = LOADING
  /\ log (step Trouble.offline 5 (CallSend (UserProducer wave)) (newWorld Page.reconnecting))
     = [GenerateSessionToken; CallbackError "Failed to fetch"]
  /\ log (step Trouble.offline 3 (CallSend (UserProducer hello))
            (step Trouble.offline 5 (CallSend (UserProducer wave))
               (newWorld Page.reconnecting)))
     = [GenerateSessionToken; CallbackError "Failed to fetch"].
Proof.
  destruct (failed_load_leaves_the_service_loading Trouble.offline (newWorld Page.reconnecting)
              (UserProducer wave) "Failed to fetch" 5)
    as (Hstate & _ & _ & _ & Hlog & Hlater);
    [ premise .. | ].
  split; [exact Hstate|]. split; [exact Hlog|].
  destruct (Hlater (UserProducer hello) 3) as (Hl & _); [lia|].
  rewrite Hl. exact Hlog.
Defined.

Lemma unparsable_store_blocks_the_load_witness :
  state (service (step Page.silent 4 (CallSend (UserProducer wave)) Trouble.spoiled)) = LOADING
  /\ sockets (step Page.silent 4 (CallSend (UserProducer wave)) Trouble.spoiled) = [].
Proof.
  destruct (unparsable_store_blocks_the_load Page.silent Trouble.spoiled
              (UserProducer wave) freshToken 4)
    as (Hstate & _ & Hsockets & _);
    [ premise .. | split; [exact Hstate | exact Hsockets] ].
Defined.

Lemma failed_refresh_stores_no_snapshot_witness :
  localStorage (drain Trouble.offline 5
                  (SessionStateService.saveSessionState Trouble.offline
                     (newWorld Page.reconnecting)))
  = Some StoredUndefined.
Proof.
  destruct (failed_refresh_stores_no_snapshot Trouble.offline (newWorld Page.reconnecting)
              "Failed to fetch" 5)
    as (Hstored & _);
    [ premise .. | exact Hstored ].
Defined.

Lemma idle_timer_closes_the_connection_witness :
  wire (log (step Page.silent 2 (CallSend (UserProducer wave))
               (Scenario.connected Trouble.idling))) = [wave]
  /\ state (service (step Page.silent 2 OnDisconnectTimer
                       (step Page.silent 2 (CallSend (UserProducer wave))
                          (Scenario.connected Trouble.idling)))) = INACTIVE.
Proof.
  destruct (idle_timer_closes_the_connection Page.silent (Scenario.connected Trouble.idling)
              (UserProducer wave) 2)
    as (Hwire & _ & Hidle & _);
    [ premise .. | split; [exact Hwire | exact Hidle] ].
Defined.

Lemma close_while_connecting_leaves_the_socket_witness :
  state (service (steps Page.silent 2 [OnSocket 0 Opened; OnFlushTimer]
                    (step Page.silent 2 CallClose (Scenario.connecting Page.reconnecting))))
  = ACTIVE
  /\ ws (transport (steps Page.silent 2 [OnSocket 0 Opened; OnFlushTimer]
                      (step Page.silent 2 CallClose (Scenario.connecting Page.reconnecting))))
     = None.
Proof.
  destruct (close_while_connecting_leaves_the_socket Page.silent
              (Scenario.connecting Page.reconnecting) 0 2)
    as (_ & _ & _ & _ & _ & _ & Hstate & Hws & _);
    [ premise .. | split; [exact Hstate | exact Hws] ].
Defined.

Lemma socket_error_is_only_reported_witness :
  dispatch Page.silent 0 Errored (Scenario.connected Page.reconnecting)
  = emit (CallbackError "[object Event]") (Scenario.connected Page.reconnecting).
Proof.
  destruct (socket_error_is_only_reported Page.silent (Scenario.connected Page.reconnecting)
              0 Scenario.openSocket) as (Hreport & _);
    [ premise .. | exact Hreport ].
Defined.

Lemma poller_saves_at_every_tick_from_the_third_witness :
  localStorage (step Page.silent 2 (OnSavePoll 0)
                  (Scenario.saving 2 Scenario.unanswered [("i1", UserProducer hello)]))
  = Some (StoredState {| creationTime := Some 1%Z; sessionState_state := Some "snapshot" |})
  /\ pollers (saver (step Page.silent 2 (OnSavePoll 0)
                       (Scenario.saving 2 Scenario.unanswered [("i1", UserProducer hello)])))
     !! 0 = Some 3.
Proof.
  destruct (poller_saves_at_every_tick_from_the_third Page.silent
              (Scenario.saving 2 Scenario.unanswered [("i1", UserProducer hello)])
              0 2 freshToken
              {| creationTime := Some 1%Z; sessionState_state := Some "snapshot" |} 2)
    as (Hstored & _ & Hpoller & _);
    [ premise .. | split; [exact Hstored | exact Hpoller] ].
Defined.

Lemma inbound_packet_is_recorded_and_delivered_witness :
  log (ConnectionService.onMessage Page.silent speech (Scenario.interrupted Page.interruptible))
  = [HistoryAddOrUpdate (fromProto speech);
     CallbackHistoryChange [historyItemOf (fromProto speech)];
     CallbackMessage (fromProto speech)].
Proof.
  destruct (inbound_packet_is_recorded_and_delivered Page.silent
              (Scenario.interrupted Page.interruptible) speech) as (Hlog & _);
    [ premise .. | exact Hlog ].
Defined.

Lemma openManually_opens_or_refuses_witness :
  log (step Page.silent 5 CallOpenManually (newWorld Page.manual))
  = [GenerateSessionToken; EngineLoadScene (Some freshToken); SocketCreated 0 freshToken]
  /\ ConnectionService.openManually Page.silent (newWorld Page.reconnecting)
     = emit (CallbackError
               "Impossible to open connection manually with `autoReconnect` enabled")
         (newWorld Page.reconnecting).
Proof.
  destruct (openManually_opens_or_refuses Page.silent (newWorld Page.manual)
              freshToken loadedScene 5) as (_ & Hopens).
  destruct (openManually_opens_or_refuses Page.silent (newWorld Page.reconnecting)
              freshToken loadedScene 5) as (Hrefuses & _).
  destruct Hopens as (Hlog & _);
    [ premise .. | split; [exact Hlog | exact (Hrefuses eq_refl)] ].
Defined.

Lemma packet_is_in_progress_until_interaction_end_witness :
  packetsInProgress
    (service (step Page.silent 3 (CallSend (UserProducer hello))
                (Scenario.connected Page.reconnecting)))
  = [("i1", UserProducer hello)]
  /\ packetsInProgress
       (service (ConnectionService.onMessage Page.silent goodbye
                   (step Page.silent 3 (CallSend (UserProducer hello))
                      (Scenario.connected Page.reconnecting))))
     = [].
Proof.
  destruct (packet_is_in_progress_until_interaction_end Page.silent
              (Scenario.connected Page.reconnecting) (UserProducer hello) goodbye 3)
    as (Hsent & _ & Hacked);
    [ premise .. | ].
  destruct Hacked as (Hgone & _); [ reflexivity | reflexivity | ].
  split; [exact Hsent | exact Hgone].
Defined.

Lemma interrupt_cancels_what_the_player_stops_witness :
  wire (log (step Page.speaking 3 CallInterrupt (Scenario.connected Page.interruptible)))
  = [cancelResponse Page.speaking Page.cancelSpeech [{| id := "character" |}]].
Proof.
  destruct (interrupt_cancels_what_the_player_stops Page.speaking
              (Scenario.connected Page.interruptible) (fromProto speech) (fromProto speech)
              [] 3)
    as (Hwire & _);
    [ premise .. | exact Hwire ].
Defined.


Lemma session_error_opens_a_new_socket_witness :
  ws (transport (step Page.silent 5 (OnSocket 0 (Received (Some (FrameError invalidToken))))
                   (Scenario.waiting Page.reconnecting))) = Some 1
  /\ socketState 0 (step Page.silent 5 (OnSocket 0 (Received (Some (FrameError invalidToken))))
                      (Scenario.waiting Page.reconnecting)) = Some OPEN.
Proof.
  destruct (session_error_opens_a_new_socket Page.silent (Scenario.waiting Page.reconnecting)
              0 Scenario.openSocket invalidToken freshToken loadedScene 5)
    as (_ & _ & _ & _ & Hws & _ & Hold & _);
    [ premise .. | split; [exact Hws | exact Hold] ].
Defined.

Lemma destroy_stops_nothing_witness :
  windowListeners (SessionStateWindow.destroy Trouble.watched)
  = [(ev_blur, BoundOnWindowBlur 0); (ev_focus, BoundOnWindowFocus 1)]
  /\ intervals (SessionStateWindow.destroy Trouble.watched) = [Some ConstructorInterval].
Proof.
  destruct (destroy_stops_nothing Trouble.watched) as (Hl & Hi & _);
    [ repeat constructor | reflexivity | split; [exact Hl | exact Hi] ].
Defined.

Lemma queued_items_keep_their_order_witness :
  wire (log (steps Page.silent 5 [OnSocket 0 Opened; OnFlushTimer]
               (fold_left
                  (fun w item =>
                     WebSocketConnection.write Page.silent
                       (ConnectionService.callBefore Page.silent) item w)
                  [ConnectionService.queueItem (UserProducer speech)]
                  (WebSocketConnection.open freshToken [ConnectionService.muteItem]
                     (fold_left
                        (fun w item =>
                           WebSocketConnection.write Page.silent
                             (ConnectionService.callBefore Page.silent) item w)
                        [ConnectionService.queueItem (UserProducer wave)]
                        (newWorld Page.reconnecting))))))
  = [] ++ [ttsPlaybackMute Page.silent true; wave; speech].
Proof.
  destruct (queued_items_keep_their_order Page.silent (newWorld Page.reconnecting) freshToken
              [ConnectionService.queueItem (UserProducer wave)]
              [ConnectionService.muteItem]
              [ConnectionService.queueItem (UserProducer speech)] 5)
    as (Hwire & _);
    [ reflexivity | reflexivity | reflexivity | solve [repeat constructor] | cbn; lia
    | exact Hwire ].
Defined.

End ExtraInstances.
